(** * AutoMate backend: HTTP gateway and expiration notifier

    A shallow embedding of the three programs of the repository:
    - [Legacy]   : the gateway of [src/index.js] (rows keyed by the external
                   identity id, column [firebase_uid]);
    - [Gateway]  : the gateway of [src/unnamed/part_000] (rows keyed by the
                   internal user id, column [user_id], plus reminders);
    - [Notifier] : the batch job of [src/sendNotifications.js].

    The external collaborators (identity provider, managed store, object
    storage, push service, host clock) are modelled as a [host] record of
    oracles and a [world] of tables; handlers are written in a small state
    and exception monad so that they read like the JavaScript they embed. *)

From Stdlib Require Import String Ascii List ZArith Lia Bool DecimalString.
From Stdlib Require Import Sorted Permutation.
Import ListNotations.
Open Scope string_scope.
Open Scope list_scope.

Set Implicit Arguments.

(* ------------------------------------------------------------------------- *)
(** ** JavaScript scalars *)

(** Values that travel in JSON bodies, token claims and table columns. *)
Inductive jsval : Type :=
| JUndefined
| JNull
| JBool (b : bool)
| JNum (n : Z)
| JStr (s : string).

(** JavaScript truthiness: [undefined], [null], [false], [0] and the empty
    string are falsy. *)
Definition truthy (v : jsval) : bool :=
  match v with
  | JUndefined | JNull => false
  | JBool b => b
  | JNum n => negb (n =? 0)%Z
  | JStr s => negb (s =? EmptyString)
  end.

(** [a || b] *)
Definition js_or (a b : jsval) : jsval := if truthy a then a else b.

(** [a ?? b] *)
Definition js_nullish (a b : jsval) : jsval :=
  match a with
  | JUndefined | JNull => b
  | _ => a
  end.

Definition jsval_eqb (a b : jsval) : bool :=
  match a, b with
  | JUndefined, JUndefined => true
  | JNull, JNull => true
  | JBool x, JBool y => Bool.eqb x y
  | JNum x, JNum y => (x =? y)%Z
  | JStr x, JStr y => (x =? y)
  | _, _ => false
  end.

Definition is_undefined (v : jsval) : bool :=
  match v with JUndefined => true | _ => false end.

(** Decimal rendering of numbers inside template strings. *)
Definition string_of_Z (z : Z) : string := NilZero.string_of_int (Z.to_int z).
Definition string_of_nat (n : nat) : string := NilZero.string_of_uint (Nat.to_uint n).

(** [`${v}`] for a scalar. *)
Definition js_string (v : jsval) : string :=
  match v with
  | JUndefined => "undefined"
  | JNull => "null"
  | JBool true => "true"
  | JBool false => "false"
  | JNum n => string_of_Z n
  | JStr s => s
  end.

(** A JavaScript object with scalar fields, a table row, a JSON body. *)
Definition row := list (string * jsval).

Fixpoint get (k : string) (r : row) : jsval :=
  match r with
  | [] => JUndefined
  | (k', v) :: r' => if k' =? k then v else get k r'
  end.

(** [JSON.stringify] leaves out the fields whose value is [undefined]. *)
Definition stringify (r : row) : row :=
  filter (fun kv => negb (is_undefined (snd kv))) r.

(** [{...old, ...new}]: the fields of [new] replace those of [old] in
    place, new keys are appended. *)
Fixpoint set_field (k : string) (v : jsval) (r : row) : row :=
  match r with
  | [] => [(k, v)]
  | (k', v') :: r' => if k' =? k then (k, v) :: r' else (k', v') :: set_field k v r'
  end.

Definition merge (old new : row) : row :=
  fold_left (fun acc kv => set_field (fst kv) (snd kv) acc) new old.

(* ------------------------------------------------------------------------- *)
(** ** The managed store (supabase-js over PostgREST)

    The client library is not part of the repository; the model below keeps
    what the handlers rely on: filters are conjunctions, [upsert] updates
    the row that conflicts on the given column and inserts otherwise,
    [single()] reports an error unless exactly one row comes back (and a
    mutation that is asked for a single row but touches another number of
    rows is rolled back), and a call can fail for reasons of its own
    ([store_fault]). *)

Inductive table : Type := users | vehicles | documents | devices | reminders.

Definition table_eqb (a b : table) : bool :=
  match a, b with
  | users, users | vehicles, vehicles | documents, documents
  | devices, devices | reminders, reminders => true
  | _, _ => false
  end.

Record database : Type := mkDb {
  t_users : list row;
  t_vehicles : list row;
  t_documents : list row;
  t_devices : list row;
  t_reminders : list row;
  next_id : nat                      (* source of generated primary keys *)
}.

Definition rows (t : table) (d : database) : list row :=
  match t with
  | users => t_users d
  | vehicles => t_vehicles d
  | documents => t_documents d
  | devices => t_devices d
  | reminders => t_reminders d
  end.

Definition set_rows (t : table) (rs : list row) (d : database) : database :=
  match t with
  | users => mkDb rs (t_vehicles d) (t_documents d) (t_devices d) (t_reminders d) (next_id d)
  | vehicles => mkDb (t_users d) rs (t_documents d) (t_devices d) (t_reminders d) (next_id d)
  | documents => mkDb (t_users d) (t_vehicles d) rs (t_devices d) (t_reminders d) (next_id d)
  | devices => mkDb (t_users d) (t_vehicles d) (t_documents d) rs (t_reminders d) (next_id d)
  | reminders => mkDb (t_users d) (t_vehicles d) (t_documents d) (t_devices d) rs (next_id d)
  end.

Definition bump_id (d : database) : database :=
  mkDb (t_users d) (t_vehicles d) (t_documents d) (t_devices d) (t_reminders d)
       (S (next_id d)).

Definition empty_db : database := mkDb [] [] [] [] [] 1.

Inductive condition : Type :=
| Eq (col : string) (v : jsval)
| Gte (col : string) (v : jsval)
| Lte (col : string) (v : jsval).

Inductive verb : Type :=
| Select (cols : option (list string))          (* [None] is ['*'] *)
| Insert (values : row)
| Upsert (values : row) (onConflict : string)
| Update (values : row)
| Delete.

Record query : Type := mkQuery {
  q_from : table;
  q_verb : verb;
  q_filters : list condition;
  q_order : option string;           (* [.order(col, {ascending: true})] *)
  q_returning : bool;                (* [.select()] after a mutation *)
  q_single : bool                    (* [.single()] *)
}.

(** The query builder, in the order the source chains it
    ([supabase.from(t).select(..).eq(..).single()]). *)
Module Sb.
Definition from (t : table) : table := t.
Definition select (cols : option (list string)) (t : table) : query :=
  mkQuery t (Select cols) [] None true false.
Definition insert (values : row) (t : table) : query :=
  mkQuery t (Insert values) [] None false false.
Definition upsert (values : row) (onConflict : string) (t : table) : query :=
  mkQuery t (Upsert values onConflict) [] None false false.
Definition update (values : row) (t : table) : query :=
  mkQuery t (Update values) [] None false false.
Definition delete (t : table) : query :=
  mkQuery t Delete [] None false false.

Definition add_filter (f : condition) (q : query) : query :=
  mkQuery (q_from q) (q_verb q) (q_filters q ++ [f]) (q_order q)
          (q_returning q) (q_single q).
Definition eq (col : string) (v : jsval) : query -> query := add_filter (Eq col v).
Definition gte (col : string) (v : jsval) : query -> query := add_filter (Gte col v).
Definition lte (col : string) (v : jsval) : query -> query := add_filter (Lte col v).
Definition order (col : string) (q : query) : query :=
  mkQuery (q_from q) (q_verb q) (q_filters q) (Some col) (q_returning q) (q_single q).
Definition returning (q : query) : query :=
  mkQuery (q_from q) (q_verb q) (q_filters q) (q_order q) true (q_single q).
Definition single (q : query) : query :=
  mkQuery (q_from q) (q_verb q) (q_filters q) (q_order q) (q_returning q) true.
End Sb.

Notation "x |> f" := (f x) (at level 45, left associativity, only parsing).

Record store_error : Type := mkErr { message : string; code : string }.

Inductive payload : Type :=
| DNull
| DRow (r : row)
| DRows (rs : list row).

Record result : Type := mkResult { data : payload; error : option store_error }.

(** Ordering of column values: numbers by value, text lexicographically
    (ISO dates compare as dates). *)
Definition pg_leb (a b : jsval) : bool :=
  match a, b with
  | JNum x, JNum y => (x <=? y)%Z
  | JStr x, JStr y => String.leb x y
  | _, _ => false
  end.

(** SQL comparison: a [null] column satisfies no filter. *)
Definition holds (f : condition) (r : row) : bool :=
  match f with
  | Eq c v =>
      match get c r with
      | JUndefined | JNull => false
      | x => jsval_eqb x v
      end
  | Gte c v => pg_leb v (get c r)
  | Lte c v => pg_leb (get c r) v
  end.

Definition matches (fs : list condition) (r : row) : bool :=
  forallb (fun f => holds f r) fs.

Fixpoint insert_sorted (c : string) (r : row) (rs : list row) : list row :=
  match rs with
  | [] => [r]
  | r' :: rs' =>
      if pg_leb (get c r) (get c r') then r :: rs else r' :: insert_sorted c r rs'
  end.

Definition sort_by (c : string) (rs : list row) : list row :=
  fold_right (insert_sorted c) [] rs.

Definition ordered (o : option string) (rs : list row) : list row :=
  match o with
  | None => rs
  | Some c => sort_by c rs
  end.

(** A column list projects each row; a column the row lacks reads [null]. *)
Definition project (cols : option (list string)) (r : row) : row :=
  match cols with
  | None => r
  | Some cs => map (fun c => (c, js_nullish (get c r) JNull)) cs
  end.

Definition conflicts (c : string) (values : row) (r : row) : bool :=
  holds (Eq c (get c values)) r.

Definition fresh_id (d : database) : jsval := JStr (string_of_nat (next_id d)).

Definition new_row (d : database) (values : row) : row :=
  ("id", fresh_id d) :: stringify values.

(** The rows a query returns and the table it leaves. *)
Definition apply_verb (q : query) (d : database) : list row * database :=
  let t := q_from q in
  let rs := rows t d in
  match q_verb q with
  | Select cols =>
      (map (project cols) (ordered (q_order q) (filter (matches (q_filters q)) rs)), d)
  | Insert values =>
      let r := new_row d values in
      ([r], bump_id (set_rows t (rs ++ [r]) d))
  | Upsert values c =>
      if existsb (conflicts c values) rs then
        let rs' := map (fun r => if conflicts c values r
                                 then merge r (stringify values) else r) rs in
        (filter (conflicts c values) rs', set_rows t rs' d)
      else
        let r := new_row d values in
        ([r], bump_id (set_rows t (rs ++ [r]) d))
  | Update values =>
      let hit := matches (q_filters q) in
      (map (fun r => merge r (stringify values)) (filter hit rs),
       set_rows t (map (fun r => if hit r then merge r (stringify values) else r) rs) d)
  | Delete =>
      let hit := matches (q_filters q) in
      (filter hit rs, set_rows t (filter (fun r => negb (hit r)) rs) d)
  end.

Definition not_single : store_error :=
  mkErr "JSON object requested, multiple (or no) rows returned" "PGRST116".

Definition exec_ok (q : query) (d : database) : result * database :=
  let '(out, d') := apply_verb q d in
  if q_single q then
    match out with
    | [r] => (mkResult (DRow r) None, d')
    | _ => (mkResult DNull (Some not_single), d)
    end
  else if q_returning q then (mkResult (DRows out) None, d')
  else (mkResult DNull None, d').

(* ------------------------------------------------------------------------- *)
(** ** Host, world and the handler monad *)

(** Decoded identity token ([req.user]). *)
Record claims : Type := mkClaims { uid : string; email : jsval; name : jsval }.

(** An uploaded file as multer leaves it in [req.file]. *)
Record upload_file : Type := mkFile {
  originalname : string;
  mimetype : string;
  buffer : string
}.

(** The argument of [sendMulticast]. *)
Record push_message : Type := mkPush {
  title : string;
  text : string;
  tokens : list jsval
}.

(** What the process is given from outside: environment variables, the
    identity provider, the failures of the external services, the clock. *)
Record host : Type := mkHost {
  SKIP_AUTH : option string;
  DEV_UID : option string;
  SUPABASE_URL : string;
  verifyIdToken : string -> option claims;      (* [None]: the promise rejects *)
  store_fault : query -> option store_error;
  storage_fault : string -> option store_error;
  sendMulticast : push_message -> option nat;   (* success count; [None]: throws *)
  Date_now : Z;                                 (* milliseconds since the epoch *)
  timezoneOffset : Z                            (* minutes, UTC minus local time *)
}.

Inductive level : Type := Log | Warn | Error.

Inductive call : Type :=
| StoreCall (q : query) (res : result)
| StorageUpload (path : string) (failed : option store_error)
| PushSend (m : push_message).

Record world : Type := mkWorld {
  db : database;
  bucket : list (string * upload_file);            (* bucket 'vehicle-docs' *)
  sent : list push_message;
  console : list (level * string * list jsval);
  calls : list call                                (* external calls, oldest first *)
}.

Definition empty_world : world := mkWorld empty_db [] [] [] [].

Inductive outcome (A : Type) : Type :=
| Returned (a : A)
| Thrown (e : store_error).
Arguments Returned {A} a.
Arguments Thrown {A} e.

Definition M (A : Type) : Type := world -> outcome A * world.

Definition ret {A} (a : A) : M A := fun w => (Returned a, w).
Definition throw {A} (e : store_error) : M A := fun w => (Thrown e, w).
Definition bind {A B} (m : M A) (k : A -> M B) : M B :=
  fun w => match m w with
           | (Returned a, w') => k a w'
           | (Thrown e, w') => (Thrown e, w')
           end.
Definition try_catch {A} (m : M A) (h : store_error -> M A) : M A :=
  fun w => match m w with
           | (Returned a, w') => (Returned a, w')
           | (Thrown e, w') => h e w'
           end.

Notation "x <- m ;; k" := (bind m (fun x => k))
  (at level 61, m at next level, right associativity).
Notation "m ;; k" := (bind m (fun _ => k))
  (at level 61, right associativity).

Definition console_line (l : level) (s : string) (args : list jsval) : M unit :=
  fun w => (Returned tt,
            mkWorld (db w) (bucket w) (sent w) (console w ++ [(l, s, args)]) (calls w)).

(** What the store answers to a query and the tables it leaves: the fault
    of the service, if any, else the query on the current tables. *)
Definition answer (h : host) (q : query) (d : database) : result * database :=
  match store_fault h q with
  | Some e => (mkResult DNull (Some e), d)
  | None => exec_ok q d
  end.

(** One awaited store call; the call is recorded. *)
Definition run (h : host) (q : query) : M result :=
  fun w =>
    let '(res, d') := answer h q (db w) in
    (Returned res,
     mkWorld d' (bucket w) (sent w) (console w) (calls w ++ [StoreCall q res])).

Definition already_exists : store_error :=
  mkErr "The resource already exists" "409".

(** [supabase.storage.from('vehicle-docs').upload(path, buffer, {upsert: false})];
    the answer is [up.error]. *)
Definition storage_upload (h : host) (path : string) (f : upload_file)
  : M (option store_error) :=
  fun w =>
    let failed :=
      match storage_fault h path with
      | Some e => Some e
      | None => if existsb (fun kv => fst kv =? path) (bucket w)
                then Some already_exists else None
      end in
    (Returned failed,
     mkWorld (db w)
             (match failed with
              | Some _ => bucket w
              | None => bucket w ++ [(path, f)]
              end)
             (sent w) (console w) (calls w ++ [StorageUpload path failed])).

(** [getPublicUrl(path).data.publicUrl] *)
Definition getPublicUrl (h : host) (path : string) : jsval :=
  JStr (SUPABASE_URL h ++ "/storage/v1/object/public/vehicle-docs/" ++ path)%string.

(* ------------------------------------------------------------------------- *)
(** ** HTTP requests, responses and Express routing *)

Inductive method : Type := GET | POST | PUT | DELETE.

Definition method_eqb (a b : method) : bool :=
  match a, b with
  | GET, GET | POST, POST | PUT, PUT | DELETE, DELETE => true
  | _, _ => false
  end.

Record request : Type := mkReq {
  req_method : method;
  req_path : list string;             (* URL path, split at '/' *)
  authorization : option string;      (* [req.headers.authorization] *)
  params : row;                       (* [req.params], filled by the router *)
  req_query : row;                    (* [req.query] *)
  req_body : row;                     (* [req.body], JSON or multipart fields *)
  req_file : option upload_file       (* [req.file] *)
}.

Inductive jvalue : Type :=
| Scalar (v : jsval)
| Object (r : row)
| Array (rs : list row).

Record response : Type := mkRes {
  status : nat;
  json : list (string * jvalue)
}.

Definition of_payload (p : payload) : jvalue :=
  match p with
  | DNull => Scalar JNull
  | DRow r => Object r
  | DRows rs => Array rs
  end.

(** [!data] for the data of a store answer: only [null] is falsy. *)
Definition present (p : payload) : bool :=
  match p with DNull => false | _ => true end.

(** [data.k] *)
Definition field (k : string) (p : payload) : jsval :=
  match p with DRow r => get k r | _ => JUndefined end.

Definition isSome {A} (o : option A) : bool :=
  match o with Some _ => true | None => false end.

(** [e.message || e] *)
Definition message_or_self (e : store_error) : jvalue :=
  if truthy (JStr (message e)) then Scalar (JStr (message e))
  else Object [("message", JStr (message e)); ("code", JStr (code e))].

(** [res.json(b)] and [res.status(st).json(b)] *)
Definition res_json (b : list (string * jvalue)) : M response := ret (mkRes 200 b).
Definition res_status_json (st : nat) (b : list (string * jvalue)) : M response :=
  ret (mkRes st b).

Definition ok_true : string * jvalue := ("ok", Scalar (JBool true)).

(** [s.split(c)] *)
Fixpoint split_on (c : ascii) (s : string) : list string :=
  match s with
  | EmptyString => [EmptyString]
  | String a s' =>
      if Ascii.eqb a c then EmptyString :: split_on c s'
      else match split_on c s' with
           | [] => [String a EmptyString]
           | p :: ps => String a p :: ps
           end
  end.

(** What a middleware does with a request: hand it on with [req.user] set,
    or answer it. *)
Inductive verdict : Type :=
| Next (user : claims)
| Reply (res : response).

(** A route as registered with [app.METHOD]: the handler alone, or the
    handler behind [verifyToken] (and, for the upload, behind multer's
    [upload.single('file')], which fills [req.file] and [req.body]). *)
Inductive stack : Type :=
| Open (handler : request -> M response)
| Authed (auth : request -> verdict) (handler : claims -> request -> M response).

Record route : Type := mkRoute {
  r_method : method;
  r_pattern : list string;            (* [":x"] binds the parameter [x] *)
  r_stack : stack
}.

Definition is_param (seg : string) : option string :=
  match seg with
  | String ":" x => Some x
  | _ => None
  end.

Fixpoint match_path (pat path : list string) : option row :=
  match pat, path with
  | [], [] => Some []
  | p :: pat', s :: path' =>
      match is_param p with
      | Some x =>
          match match_path pat' path' with
          | Some ps => Some ((x, JStr s) :: ps)
          | None => None
          end
      | None => if p =? s then match_path pat' path' else None
      end
  | _, _ => None
  end.

Definition with_params (ps : row) (req : request) : request :=
  mkReq (req_method req) (req_path req) (authorization req) ps
        (req_query req) (req_body req) (req_file req).

Definition run_stack (s : stack) (req : request) : M response :=
  match s with
  | Open handler => handler req
  | Authed auth handler =>
      match auth req with
      | Next user => handler user req
      | Reply res => ret res
      end
  end.

Definition not_routed : response :=
  mkRes 404 [("error", Scalar (JStr "Cannot route request"))].

(** Express tries the routes in registration order; every stack here ends
    in a handler that answers, so the first match is the only one to run. *)
Fixpoint select_route (rs : list route) (req : request) : option (route * row) :=
  match rs with
  | [] => None
  | r :: rs' =>
      if method_eqb (r_method r) (req_method req) then
        match match_path (r_pattern r) (req_path req) with
        | Some ps => Some (r, ps)
        | None => select_route rs' req
        end
      else select_route rs' req
  end.

Definition dispatch (rs : list route) (req : request) : M response :=
  match select_route rs req with
  | Some (r, ps) => run_stack (r_stack r) (with_params ps req)
  | None => ret not_routed
  end.

Definition is_protected (r : route) : bool :=
  match r_stack r with
  | Authed _ _ => true
  | Open _ => false
  end.

Definition no_token : response := mkRes 401 [("error", Scalar (JStr "No token"))].
Definition token_invalid : response :=
  mkRes 401 [("error", Scalar (JStr "Token inválido"))].
Definition user_not_found : response :=
  mkRes 404 [("error", Scalar (JStr "Usuario no encontrado en la base de datos."))].
(** [process.env.X === 'true'] *)
Definition env_is_true (v : option string) : bool :=
  match v with Some s => s =? "true" | None => false end.

(** [process.env.X || dflt] *)
Definition env_or (v : option string) (dflt : string) : string :=
  match v with
  | Some s => if s =? EmptyString then dflt else s
  | None => dflt
  end.

(* ------------------------------------------------------------------------- *)
(** ** The gateway of [src/unnamed/part_000]

    The console output of the gateway is left out; responses, store calls
    and their order are kept. *)

Module Gateway.
Section Handlers.

Variable h : host.

(** [verifyToken(req, res, next)] *)
Definition verifyToken (req : request) : verdict :=
  if env_is_true (SKIP_AUTH h) then
    Next (mkClaims (env_or (DEV_UID h) "dev-uid") (JStr "dev@example.com") JUndefined)
  else
    match authorization req with
    | None => Reply no_token
    | Some auth =>
        if negb (truthy (JStr auth)) || negb (String.prefix "Bearer " auth)
        then Reply no_token
        else
          (* [auth.split(' ')[1]]; the guard above makes index 1 exist *)
          let idToken := nth 1 (split_on " " auth) EmptyString in
          match verifyIdToken h idToken with
          | Some decoded => Next decoded
          | None => Reply token_invalid
          end
    end.

(** [GET /health] *)
Definition health (req : request) : M response := res_json [ok_true].

(** [POST /api/registerUser] *)
Definition registerUser (user : claims) (req : request) : M response :=
  let uid := uid user in
  let email := js_or (email user) (get "email" (req_body req)) in
  let displayName :=
    js_or (js_or (name user) (get "displayName" (req_body req))) JNull in
  try_catch
    (r <- run h (Sb.from users
                 |> Sb.upsert [("firebase_uid", JStr uid); ("email", email);
                               ("display_name", displayName)] "firebase_uid"
                 |> Sb.returning |> Sb.single) ;;
     match error r with
     | Some e => throw e
     | None => res_json [ok_true; ("user", of_payload (data r))]
     end)
    (fun e => res_status_json 500 [("error", message_or_self e)]).

(** [POST /api/vehicles] *)
Definition createVehicle (user : claims) (req : request) : M response :=
  let firebaseUid := uid user in
  let b := req_body req in
  try_catch
    (u <- run h (Sb.from users |> Sb.select (Some ["id"])
                 |> Sb.eq "firebase_uid" (JStr firebaseUid) |> Sb.single) ;;
     if isSome (error u) || negb (present (data u)) then ret user_not_found
     else
       r <- run h (Sb.from vehicles
                   |> Sb.insert [("user_id", field "id" (data u));
                                 ("make", get "make" b);
                                 ("model", get "model" b);
                                 ("year", get "year" b);
                                 ("license_plate", get "license_plate" b);
                                 ("nickname", get "nickname" b)]
                   |> Sb.returning |> Sb.single) ;;
       match error r with
       | Some e => throw e
       | None => res_json [ok_true; ("vehicle", of_payload (data r))]
       end)
    (fun e => res_status_json 500 [("error", message_or_self e)]).

(** [GET /api/vehicles] *)
Definition getVehicles (user : claims) (req : request) : M response :=
  let firebaseUid := uid user in
  try_catch
    (u <- run h (Sb.from users |> Sb.select (Some ["id"])
                 |> Sb.eq "firebase_uid" (JStr firebaseUid) |> Sb.single) ;;
     if isSome (error u) || negb (present (data u)) then ret user_not_found
     else
       r <- run h (Sb.from vehicles |> Sb.select None
                   |> Sb.eq "user_id" (field "id" (data u))) ;;
       match error r with
       | Some e => throw e
       | None => res_json [ok_true; ("vehicles", of_payload (data r))]
       end)
    (fun e => res_status_json 500 [("error", message_or_self e)]).

(** [GET /api/vehicles/:vehicleId/documents] *)
Definition listDocuments (user : claims) (req : request) : M response :=
  let vehicleId := get "vehicleId" (params req) in
  try_catch
    (r <- run h (Sb.from documents |> Sb.select None
                 |> Sb.eq "vehicle_id" vehicleId |> Sb.order "expiry_date") ;;
     match error r with
     | Some e => throw e
     | None => res_json [ok_true; ("documents", of_payload (data r))]
     end)
    (fun e => res_status_json 500 [("error", message_or_self e)]).

(** [POST /api/vehicles/:vehicleId/documents] *)
Definition uploadDocument (user : claims) (req : request) : M response :=
  let uid := uid user in
  let vehicleId := get "vehicleId" (params req) in
  let documentType := get "documentType" (req_body req) in
  let expiryDate := get "expiryDate" (req_body req) in
  match req_file req with
  | None => res_status_json 400 [("error", Scalar (JStr "file required"))]
  | Some file =>
      let filename := (string_of_Z (Date_now h) ++ "_" ++ originalname file)%string in
      let path := (uid ++ "/" ++ js_string vehicleId ++ "/" ++ filename)%string in
      try_catch
        (up <- storage_upload h path file ;;
         match up with
         | Some e => throw e
         | None =>
             let publicUrl := js_or (getPublicUrl h path) JNull in
             r <- run h (Sb.from documents
                         |> Sb.insert [("vehicle_id", vehicleId);
                                       ("document_type", documentType);
                                       ("expiry_date", expiryDate);
                                       ("storage_path", JStr path);
                                       ("public_url", publicUrl)]
                         |> Sb.returning |> Sb.single) ;;
             match error r with
             | Some e => throw e
             | None => res_json [ok_true; ("document", of_payload (data r))]
             end
         end)
        (fun e => res_status_json 500 [("error", message_or_self e)])
  end.

(** [POST /api/registerDevice], first registration (lines 228-259) *)
Definition registerDevice (user : claims) (req : request) : M response :=
  let firebaseUid := uid user in
  let token := get "token" (req_body req) in
  let platform := get "platform" (req_body req) in
  if negb (truthy token)
  then res_status_json 400 [("error", Scalar (JStr "token required"))]
  else
    try_catch
      (u <- run h (Sb.from users |> Sb.select (Some ["id"])
                   |> Sb.eq "firebase_uid" (JStr firebaseUid) |> Sb.single) ;;
       if isSome (error u) || negb (present (data u)) then ret user_not_found
       else
         r <- run h (Sb.from devices
                     |> Sb.upsert [("user_id", field "id" (data u));
                                   ("token", token);
                                   ("platform", platform)] "token"
                     |> Sb.returning |> Sb.single) ;;
         match error r with
         | Some e => throw e
         | None => res_json [ok_true; ("device", of_payload (data r))]
         end)
      (fun e => res_status_json 500 [("error", message_or_self e)]).

(** [POST /api/registerDevice], second registration (lines 262-293) *)
Definition registerDevice' (user : claims) (req : request) : M response :=
  let firebaseUid := uid user in
  let token := get "token" (req_body req) in
  let platform := get "platform" (req_body req) in
  if negb (truthy token)
  then res_status_json 400 [("error", Scalar (JStr "token required"))]
  else
    try_catch
      (u <- run h (Sb.from users |> Sb.select (Some ["id"])
                   |> Sb.eq "firebase_uid" (JStr firebaseUid) |> Sb.single) ;;
       if isSome (error u) || negb (present (data u)) then ret user_not_found
       else
         r <- run h (Sb.from devices
                     |> Sb.upsert [("user_id", field "id" (data u));
                                   ("token", token);
                                   ("platform", platform)] "token"
                     |> Sb.returning |> Sb.single) ;;
         match error r with
         | Some e => throw e
         | None => res_json [ok_true; ("device", of_payload (data r))]
         end)
      (fun e => res_status_json 500 [("error", message_or_self e)]).

(** [GET /api/reminders] *)
Definition getReminders (user : claims) (req : request) : M response :=
  let firebaseUid := uid user in
  let vehicleId := get "vehicleId" (req_query req) in
  try_catch
    (u <- run h (Sb.from users |> Sb.select (Some ["id"])
                 |> Sb.eq "firebase_uid" (JStr firebaseUid) |> Sb.single) ;;
     if isSome (error u) || negb (present (data u)) then ret user_not_found
     else
       let query := Sb.from reminders |> Sb.select None
                    |> Sb.eq "user_id" (field "id" (data u))
                    |> Sb.order "due_date" in
       let query := if truthy vehicleId
                    then query |> Sb.eq "vehicle_id" vehicleId else query in
       r <- run h query ;;
       match error r with
       | Some e => throw e
       | None => res_json [ok_true; ("reminders", of_payload (data r))]
       end)
    (fun e => res_status_json 500 [("error", message_or_self e)]).

(** [POST /api/reminders] *)
Definition createReminder (user : claims) (req : request) : M response :=
  let firebaseUid := uid user in
  let b := req_body req in
  try_catch
    (u <- run h (Sb.from users |> Sb.select (Some ["id"])
                 |> Sb.eq "firebase_uid" (JStr firebaseUid) |> Sb.single) ;;
     if isSome (error u) || negb (present (data u)) then ret user_not_found
     else
       r <- run h (Sb.from reminders
                   |> Sb.insert [("user_id", field "id" (data u));
                                 ("vehicle_id", get "vehicle_id" b);
                                 ("title", get "title" b);
                                 ("notes", get "notes" b);
                                 ("due_date", get "due_date" b);
                                 ("is_completed",
                                  js_nullish (get "is_completed" b) (JBool false))]
                   |> Sb.returning |> Sb.single) ;;
       match error r with
       | Some e => throw e
       | None => res_json [ok_true; ("reminder", of_payload (data r))]
       end)
    (fun e => res_status_json 500 [("error", message_or_self e)]).

(** [PUT /api/reminders/:id] *)
Definition updateReminder (user : claims) (req : request) : M response :=
  let firebaseUid := uid user in
  let id := get "id" (params req) in
  let b := req_body req in
  try_catch
    (u <- run h (Sb.from users |> Sb.select (Some ["id"])
                 |> Sb.eq "firebase_uid" (JStr firebaseUid) |> Sb.single) ;;
     if isSome (error u) || negb (present (data u)) then ret user_not_found
     else
       r <- run h (Sb.from reminders
                   |> Sb.update [("vehicle_id", get "vehicle_id" b);
                                 ("title", get "title" b);
                                 ("notes", get "notes" b);
                                 ("due_date", get "due_date" b);
                                 ("is_completed", get "is_completed" b)]
                   |> Sb.eq "id" id
                   |> Sb.eq "user_id" (field "id" (data u))
                   |> Sb.returning |> Sb.single) ;;
       match error r with
       | Some e => throw e
       | None => res_json [ok_true; ("reminder", of_payload (data r))]
       end)
    (fun e => res_status_json 500 [("error", message_or_self e)]).

(** [DELETE /api/reminders/:id] *)
Definition deleteReminder (user : claims) (req : request) : M response :=
  let firebaseUid := uid user in
  let id := get "id" (params req) in
  try_catch
    (u <- run h (Sb.from users |> Sb.select (Some ["id"])
                 |> Sb.eq "firebase_uid" (JStr firebaseUid) |> Sb.single) ;;
     if isSome (error u) || negb (present (data u)) then ret user_not_found
     else
       r <- run h (Sb.from reminders |> Sb.delete
                   |> Sb.eq "id" id
                   |> Sb.eq "user_id" (field "id" (data u))) ;;
       match error r with
       | Some e => throw e
       | None => res_json [ok_true;
                           ("message", Scalar (JStr "Reminder deleted successfully."))]
       end)
    (fun e => res_status_json 500 [("error", message_or_self e)]).

(** The routes in registration order. *)
Definition routes : list route :=
  [ mkRoute GET ["health"] (Open health);
    mkRoute POST ["api"; "registerUser"] (Authed verifyToken registerUser);
    mkRoute POST ["api"; "vehicles"] (Authed verifyToken createVehicle);
    mkRoute GET ["api"; "vehicles"] (Authed verifyToken getVehicles);
    mkRoute GET ["api"; "vehicles"; ":vehicleId"; "documents"]
            (Authed verifyToken listDocuments);
    mkRoute POST ["api"; "vehicles"; ":vehicleId"; "documents"]
            (Authed verifyToken uploadDocument);
    mkRoute POST ["api"; "registerDevice"] (Authed verifyToken registerDevice);
    mkRoute POST ["api"; "registerDevice"] (Authed verifyToken registerDevice');
    mkRoute GET ["api"; "reminders"] (Authed verifyToken getReminders);
    mkRoute POST ["api"; "reminders"] (Authed verifyToken createReminder);
    mkRoute PUT ["api"; "reminders"; ":id"] (Authed verifyToken updateReminder);
    mkRoute DELETE ["api"; "reminders"; ":id"] (Authed verifyToken deleteReminder) ].

Definition app : request -> M response := dispatch routes.

End Handlers.
End Gateway.

(* ------------------------------------------------------------------------- *)
(** ** The gateway of [src/index.js] *)

Module Legacy.
Section Handlers.

Variable h : host.

(** [verifyToken(req, res, next)] *)
Definition verifyToken (req : request) : verdict :=
  if env_is_true (SKIP_AUTH h) then
    Next (mkClaims (env_or (DEV_UID h) "dev-uid") (JStr "dev@example.com") JUndefined)
  else
    match authorization req with
    | None => Reply no_token
    | Some auth =>
        if negb (truthy (JStr auth)) || negb (String.prefix "Bearer " auth)
        then Reply no_token
        else
          let idToken := nth 1 (split_on " " auth) EmptyString in
          match verifyIdToken h idToken with
          | Some decoded => Next decoded
          | None => Reply token_invalid
          end
    end.

(** [GET /health] *)
Definition health (req : request) : M response := res_json [ok_true].

(** [POST /api/registerUser] *)
Definition registerUser (user : claims) (req : request) : M response :=
  let uid := uid user in
  let email := js_or (email user) (get "email" (req_body req)) in
  let displayName :=
    js_or (js_or (name user) (get "displayName" (req_body req))) JNull in
  try_catch
    (r <- run h (Sb.from users
                 |> Sb.upsert [("firebase_uid", JStr uid); ("email", email);
                               ("display_name", displayName)] "firebase_uid"
                 |> Sb.returning |> Sb.single) ;;
     match error r with
     | Some e => throw e
     | None => res_json [ok_true; ("user", of_payload (data r))]
     end)
    (fun e => res_status_json 500 [("error", message_or_self e)]).

(** [POST /api/vehicles]: the row carries the external identity id. *)
Definition createVehicle (user : claims) (req : request) : M response :=
  let uid := uid user in
  let b := req_body req in
  try_catch
    (r <- run h (Sb.from vehicles
                 |> Sb.insert [("firebase_uid", JStr uid);
                               ("make", get "make" b);
                               ("model", get "model" b);
                               ("year", get "year" b);
                               ("license_plate", get "license_plate" b)]
                 |> Sb.returning |> Sb.single) ;;
     match error r with
     | Some e => throw e
     | None => res_json [ok_true; ("vehicle", of_payload (data r))]
     end)
    (fun e => res_status_json 500 [("error", message_or_self e)]).

(** [GET /api/vehicles/:vehicleId/documents] *)
Definition listDocuments (user : claims) (req : request) : M response :=
  let vehicleId := get "vehicleId" (params req) in
  try_catch
    (r <- run h (Sb.from documents |> Sb.select None
                 |> Sb.eq "vehicle_id" vehicleId |> Sb.order "expiry_date") ;;
     match error r with
     | Some e => throw e
     | None => res_json [ok_true; ("documents", of_payload (data r))]
     end)
    (fun e => res_status_json 500 [("error", message_or_self e)]).

(** [POST /api/vehicles/:vehicleId/documents]; [getPublicUrl] answers
    without an error field, so the [urlErr] warning never fires. *)
Definition uploadDocument (user : claims) (req : request) : M response :=
  let uid := uid user in
  let vehicleId := get "vehicleId" (params req) in
  let documentType := get "documentType" (req_body req) in
  let expiryDate := get "expiryDate" (req_body req) in
  match req_file req with
  | None => res_status_json 400 [("error", Scalar (JStr "file required"))]
  | Some file =>
      let filename := (string_of_Z (Date_now h) ++ "_" ++ originalname file)%string in
      let path := (uid ++ "/" ++ js_string vehicleId ++ "/" ++ filename)%string in
      try_catch
        (up <- storage_upload h path file ;;
         match up with
         | Some e => throw e
         | None =>
             let publicUrl := js_or (getPublicUrl h path) JNull in
             r <- run h (Sb.from documents
                         |> Sb.insert [("vehicle_id", vehicleId);
                                       ("document_type", documentType);
                                       ("expiry_date", expiryDate);
                                       ("storage_path", publicUrl)]
                         |> Sb.returning |> Sb.single) ;;
             match error r with
             | Some e => throw e
             | None => res_json [ok_true; ("document", of_payload (data r))]
             end
         end)
        (fun e => res_status_json 500 [("error", message_or_self e)])
  end.

(** [POST /api/registerDevice] *)
Definition registerDevice (user : claims) (req : request) : M response :=
  let uid := uid user in
  let token := get "token" (req_body req) in
  let platform := get "platform" (req_body req) in
  if negb (truthy token)
  then res_status_json 400 [("error", Scalar (JStr "token required"))]
  else
    try_catch
      (r <- run h (Sb.from devices
                   |> Sb.upsert [("firebase_uid", JStr uid);
                                 ("token", token);
                                 ("platform", platform)] "token"
                   |> Sb.returning |> Sb.single) ;;
       match error r with
       | Some e => throw e
       | None => res_json [ok_true; ("device", of_payload (data r))]
       end)
      (fun e => res_status_json 500 [("error", message_or_self e)]).

Definition routes : list route :=
  [ mkRoute GET ["health"] (Open health);
    mkRoute POST ["api"; "registerUser"] (Authed verifyToken registerUser);
    mkRoute POST ["api"; "vehicles"] (Authed verifyToken createVehicle);
    mkRoute GET ["api"; "vehicles"; ":vehicleId"; "documents"]
            (Authed verifyToken listDocuments);
    mkRoute POST ["api"; "vehicles"; ":vehicleId"; "documents"]
            (Authed verifyToken uploadDocument);
    mkRoute POST ["api"; "registerDevice"] (Authed verifyToken registerDevice) ].

Definition app : request -> M response := dispatch routes.

End Handlers.
End Legacy.

(* ------------------------------------------------------------------------- *)
(** ** Dates as the notifier uses them

    [Date] values are milliseconds since the epoch.  The host zone is a
    fixed offset (no daylight-saving change inside the window). *)

Definition DAY : Z := 1000 * 60 * 60 * 24.

(** Days since 1970-01-01 of a proleptic Gregorian date. *)
Definition days_from_civil (y m d : Z) : Z :=
  let y := if (m <=? 2)%Z then (y - 1)%Z else y in
  let era := (y / 400)%Z in
  let yoe := (y - era * 400)%Z in
  let mp := if (m >? 2)%Z then (m - 3)%Z else (m + 9)%Z in
  let doy := ((153 * mp + 2) / 5 + d - 1)%Z in
  let doe := (yoe * 365 + yoe / 4 - yoe / 100 + doy)%Z in
  (era * 146097 + doe - 719468)%Z.

Definition civil_from_days (z : Z) : Z * Z * Z :=
  let z := (z + 719468)%Z in
  let era := (z / 146097)%Z in
  let doe := (z - era * 146097)%Z in
  let yoe := ((doe - doe / 1460 + doe / 36524 - doe / 146096) / 365)%Z in
  let y := (yoe + era * 400)%Z in
  let doy := (doe - (365 * yoe + yoe / 4 - yoe / 100))%Z in
  let mp := ((5 * doy + 2) / 153)%Z in
  let d := (doy - (153 * mp + 2) / 5 + 1)%Z in
  let m := if (mp <? 10)%Z then (mp + 3)%Z else (mp - 9)%Z in
  (if (m <=? 2)%Z then (y + 1)%Z else y, m, d).

Definition digit (c : ascii) : option Z :=
  let n := nat_of_ascii c in
  if (48 <=? n)%nat && (n <=? 57)%nat then Some (Z.of_nat (n - 48)) else None.

Fixpoint digits (acc : Z) (cs : list ascii) : option Z :=
  match cs with
  | [] => Some acc
  | c :: cs' =>
      match digit c with
      | Some n => digits (acc * 10 + n)%Z cs'
      | None => None
      end
  end.

(** Day number of a ['YYYY-MM-DD'] column value. *)
Definition parse_date (s : string) : option Z :=
  match list_ascii_of_string s with
  | [y1; y2; y3; y4; "-"%char; m1; m2; "-"%char; d1; d2] =>
      match digits 0 [y1; y2; y3; y4], digits 0 [m1; m2], digits 0 [d1; d2] with
      | Some y, Some m, Some d =>
          if (1 <=? m)%Z && (m <=? 12)%Z && (1 <=? d)%Z && (d <=? 31)%Z
          then Some (days_from_civil y m d) else None
      | _, _, _ => None
      end
  | _ => None
  end.

(** [new Date(v).getTime()]; [None] is [NaN].  A date-only string is read
    as midnight UTC. *)
Definition getTime (v : jsval) : option Z :=
  match v with
  | JStr s => option_map (fun d => (d * DAY)%Z) (parse_date s)
  | JNum n => Some n
  | JNull => Some 0%Z
  | _ => None
  end.

Definition pad (width : nat) (z : Z) : string :=
  let s := string_of_Z z in
  (string_of_list_ascii (repeat "0"%char (width - String.length s)) ++ s)%string.

(** [new Date(ms).toISOString().split('T')[0]] (years 0 to 9999). *)
Definition isoDate (ms : Z) : string :=
  let '(y, m, d) := civil_from_days (ms / DAY) in
  (pad 4 y ++ "-" ++ pad 2 m ++ "-" ++ pad 2 d)%string.

(** [Math.ceil(a / b)] for integers [a] and [b > 0]; the quotient of two
    integers below 2^53 milliseconds is never rounded onto an integer. *)
Definition ceil_div (a b : Z) : Z := (- ((- a) / b))%Z.

(* ------------------------------------------------------------------------- *)
(** ** The notifier of [src/sendNotifications.js] *)

Module Notifier.
Section Job.

Variable h : host.

(** [new Date(now.getFullYear(), now.getMonth(), now.getDate())]: local
    midnight of the current day. *)
Definition startOfToday : Z :=
  let off := (timezoneOffset h * 60000)%Z in
  ((Date_now h - off) / DAY * DAY + off)%Z.

(** [maxDate.setDate(maxDate.getDate() + 30)] *)
Definition maxDate : Z := (startOfToday + 30 * DAY)%Z.

Definition targets : list Z := [30; 15; 7]%Z.

(** [Math.ceil((expiry.getTime() - startOfToday.getTime()) / (1000*60*60*24))];
    [None] is [NaN]. *)
Definition diffDays (d : row) : option Z :=
  match getTime (get "expiry_date" d) with
  | Some expiry => Some (ceil_div (expiry - startOfToday) DAY)
  | None => None
  end.

(** [targets.includes(diffDays)] *)
Definition includes (l : list Z) (x : option Z) : bool :=
  match x with
  | Some n => existsb (Z.eqb n) l
  | None => false
  end.

Definition push_failed : store_error :=
  mkErr "sendMulticast failed" "messaging/internal-error".

(** [await admin.messaging().sendMulticast(message)] *)
Definition send (m : push_message) : M nat :=
  fun w =>
    match sendMulticast h m with
    | Some successCount =>
        (Returned successCount,
         mkWorld (db w) (bucket w) (sent w ++ [m]) (console w)
                 (calls w ++ [PushSend m]))
    | None => (Thrown push_failed, w)
    end.

Definition rows_of (p : payload) : list row :=
  match p with
  | DRows rs => rs
  | DRow r => [r]
  | DNull => []
  end.

Definition vehicle_query (d : row) : query :=
  Sb.from vehicles |> Sb.select (Some ["firebase_uid"])
  |> Sb.eq "id" (get "vehicle_id" d) |> Sb.single.

Definition devices_query (firebaseUid : jsval) : query :=
  Sb.from devices |> Sb.select (Some ["token"]) |> Sb.eq "firebase_uid" firebaseUid.

Definition message_for (d : row) (days : Z) (tokens : list jsval) : push_message :=
  mkPush "Recordatorio AutoMate"
         ("Tu " ++ js_string (get "document_type" d) ++ " caduca en "
          ++ string_of_Z days ++ " días.")
         tokens.

(** The body of [for (const d of docs)]; [continue] is [ret tt]. *)
Definition each (d : row) : M unit :=
  match diffDays d with
  | None => ret tt
  | Some days =>
      if negb (includes targets (Some days)) then ret tt
      else
        v <- run h (vehicle_query d) ;;
        if isSome (error v) || negb (present (data v))
        then console_line Warn "No vehicle for doc" [get "id" d]
        else
          let firebaseUid := field "firebase_uid" (data v) in
          t <- run h (devices_query firebaseUid) ;;
          if isSome (error t)
          then console_line Warn "No devices for user" [firebaseUid]
          else
            let tokens := filter truthy (map (get "token") (rows_of (data t))) in
            if (length tokens =? 0)%nat then ret tt
            else
              let message := message_for d days tokens in
              successCount <- send message ;;
              console_line Log "Enviado"
                [JNum (Z.of_nat successCount); JNum (Z.of_nat (length tokens));
                 get "id" d; get "document_type" d; JNum days]
  end.

Fixpoint for_of (docs : list row) : M unit :=
  match docs with
  | [] => ret tt
  | d :: docs' => each d ;; for_of docs'
  end.

Definition range_query : query :=
  Sb.from documents
  |> Sb.select (Some ["id"; "document_type"; "expiry_date"; "vehicle_id"])
  |> Sb.gte "expiry_date" (JStr (isoDate startOfToday))
  |> Sb.lte "expiry_date" (JStr (isoDate maxDate)).

(** [main()]: the value is the exit status of the process. *)
Definition main : M nat :=
  try_catch
    (r <- run h range_query ;;
     match error r with
     | Some e => throw e
     | None => for_of (rows_of (data r)) ;; ret 0%nat
     end)
    (fun e => console_line Error "Error sendNotifications:" [JStr (message e)] ;;
              ret 1%nat).

End Job.
End Notifier.

(* ------------------------------------------------------------------------- *)
(** ** Vocabulary of the specification *)

Unset Implicit Arguments.

(** The request carries no usable bearer token: the bypass flag is off and
    the header is missing, is not of the form ['Bearer ...'], or holds a
    token the identity provider rejects. *)
Definition rejected (h : host) (req : request) : Prop :=
  env_is_true (SKIP_AUTH h) = false /\
  (authorization req = None \/
   (exists auth, authorization req = Some auth /\
                 String.prefix "Bearer " auth = false) \/
   (exists auth, authorization req = Some auth /\
                 verifyIdToken h (nth 1 (split_on " " auth) EmptyString) = None)).

(** The two bodies [verifyToken] answers with. *)
Definition generic_error (res : response) : Prop :=
  json res = [("error", Scalar (JStr "No token"))] \/
  json res = [("error", Scalar (JStr "Token inválido"))].

(** The store answers every call (no outage, no constraint violation). *)
Definition no_faults (h : host) : Prop := forall q, store_fault h q = None.

(** The rows of [users] that belong to an external identity. *)
Definition by_uid (fuid : string) (r : row) : bool :=
  holds (Eq "firebase_uid" (JStr fuid)) r.

(** The internal id the user lookup resolves an external identity to. *)
Definition internal_id (d : database) (fuid : string) : option jsval :=
  match filter (by_uid fuid) (t_users d) with
  | [u] => Some (js_nullish (get "id" u) JNull)
  | _ => None
  end.

(** The key [onConflict: 'firebase_uid'] relies on: at most one [users]
    row per external identity. *)
Definition users_unique (d : database) : Prop :=
  forall fuid, (length (filter (by_uid fuid) (t_users d)) <= 1)%nat.

(** The worlds the newer gateway can reach from [w0], one request after
    the other. *)
Inductive reachable (h : host) (w0 : world) : world -> Prop :=
| reach_start : reachable h w0 w0
| reach_request : forall w req,
    reachable h w0 w -> reachable h w0 (snd (Gateway.app h req w)).

(** A host for the examples: two known tokens, no bypass, no outage, every
    push delivered, clock at 2024-01-10T10:00:00Z in zone UTC. *)
Definition sample_idp (t : string) : option claims :=
  if t =? "tok-ana" then Some (mkClaims "ana" (JStr "ana@example.org") (JStr "Ana"))
  else if t =? "tok-bob" then Some (mkClaims "bob" JUndefined JUndefined)
  else None.

Definition sample_host : host :=
  mkHost None None "https://project.supabase.co" sample_idp
         (fun _ => None) (fun _ => None)
         (fun m => Some (length (tokens m)))
         1704880800000 0.

Definition sample_request (m : method) (path : list string)
           (auth : option string) (body : row) : request :=
  mkReq m path auth [] [] body None.

Definition after (app : request -> M response) (req : request) (w : world) : world :=
  snd (app req w).

(** A computation keeps a relation between the world before and after. *)
Definition keeps (R : world -> world -> Prop) {A} (m : M A) : Prop :=
  forall w, R w (snd (m w)).

Definition same_users (w w' : world) : Prop := t_users (db w') = t_users (db w).

(** A world reached through the newer gateway: Ana registers, adds a
    vehicle and a reminder (id "3"), then Bob registers (internal id "4"). *)
Definition sample_world : world :=
  let app := Gateway.app sample_host in
  let ana := Some "Bearer tok-ana" in
  let bob := Some "Bearer tok-bob" in
  after app (sample_request POST ["api"; "registerUser"] bob [("email", JStr "bob@example.org")])
  (after app (sample_request POST ["api"; "reminders"] ana [("title", JStr "oil")])
  (after app (sample_request POST ["api"; "vehicles"] ana [("make", JStr "VW"); ("year", JNum 2020)])
  (after app (sample_request POST ["api"; "registerUser"] ana []) empty_world))).

(** The values registerUser hands to the upsert: [email] and [displayName]
    as the handler computes them from the token claims and the body. *)
Definition registration (user : claims) (body : row) : row :=
  [("firebase_uid", JStr (uid user));
   ("email", js_or (email user) (get "email" body));
   ("display_name", js_or (js_or (name user) (get "displayName" body)) JNull)].

Definition register_query (user : claims) (body : row) : query :=
  Sb.from users |> Sb.upsert (registration user body) "firebase_uid"
  |> Sb.returning |> Sb.single.

(** The storage path the upload handler derives:
    [`${uid}/${vehicleId}/${Date.now()}_${originalname}`]. *)
Definition upload_path (h : host) (user : claims) (req : request)
           (file : upload_file) : string :=
  (uid user ++ "/" ++ js_string (get "vehicleId" (params req)) ++ "/"
   ++ (string_of_Z (Date_now h) ++ "_" ++ originalname file))%string.

(** The metadata row the upload handler of part_000 inserts. *)
Definition document_insert (h : host) (user : claims) (req : request)
           (file : upload_file) : query :=
  let path := upload_path h user req file in
  Sb.from documents
  |> Sb.insert [("vehicle_id", get "vehicleId" (params req));
                ("document_type", get "documentType" (req_body req));
                ("expiry_date", get "expiryDate" (req_body req));
                ("storage_path", JStr path);
                ("public_url", js_or (getPublicUrl h path) JNull)]
  |> Sb.returning |> Sb.single.

(** A host whose store refuses every insert into [documents]. *)
Definition documents_down (q : query) : option store_error :=
  match q_from q, q_verb q with
  | documents, Insert _ => Some (mkErr "insert failed" "23503")
  | _, _ => None
  end.

Definition host_documents_down : host :=
  mkHost None None "https://project.supabase.co" sample_idp
         documents_down (fun _ => None)
         (fun m => Some (length (tokens m)))
         1704880800000 0.

Definition sample_upload : request :=
  mkReq POST ["api"; "vehicles"; "2"; "documents"] (Some "Bearer tok-ana")
        [("vehicleId", JStr "2")] []
        [("documentType", JStr "seguro"); ("expiryDate", JStr "2024-01-25")]
        (Some (mkFile "poliza.pdf" "application/pdf" "%PDF-1.4")).

(** The external calls a computation adds to the log. *)
Definition trace_of {A} (m : M A) (w : world) : list call :=
  skipn (length (calls w)) (calls (snd (m w))).

(** Tables whose rows belong to a user. *)
Definition resource_table (t : table) : bool := negb (table_eqb t users).

Definition condition_col (c : condition) : string :=
  match c with Eq col _ | Gte col _ | Lte col _ => col end.

(** The columns a query names: in its filters, in the values it writes, in
    the list it selects. *)
Definition columns_of (q : query) : list string :=
  map condition_col (q_filters q) ++
  match q_verb q with
  | Select (Some cs) => cs
  | Select None => []
  | Insert v | Update v | Upsert v _ => map fst v
  | Delete => []
  end.

Definition names_external_id (q : query) : bool :=
  existsb (String.eqb "firebase_uid") (columns_of q).

(** A lookup in [users] by external identity id that found a row: the
    internal id it resolved. *)
Definition resolved_id (c : call) : option jsval :=
  match c with
  | StoreCall q res =>
      if table_eqb (q_from q) users
         && match q_verb q with Select _ => true | _ => false end
         && existsb (fun f => match f with
                              | Eq col _ => col =? "firebase_uid"
                              | _ => false
                              end) (q_filters q)
         && negb (isSome (error res)) && present (data res)
      then Some (field "id" (data res))
      else None
  | _ => None
  end.

(** The query is keyed on the internal id [i]: it filters on
    [user_id = i] or writes [user_id: i]. *)
Definition keyed_on (i : jsval) (q : query) : bool :=
  existsb (fun f => match f with
                    | Eq col v => (col =? "user_id") && jsval_eqb v i
                    | _ => false
                    end) (q_filters q)
  || match q_verb q with
     | Insert v | Upsert v _ => jsval_eqb (get "user_id" v) i
     | _ => false
     end.

(** The discipline of the data-model invariant, read on a call log: no call
    on a resource table before a successful lookup of the internal id, and
    none that names the external id. *)
Fixpoint resolves_first (seen : bool) (cs : list call) : bool :=
  match cs with
  | [] => true
  | StoreCall q res :: cs' =>
      if resource_table (q_from q)
      then seen && negb (names_external_id q) && resolves_first seen cs'
      else resolves_first (seen || isSome (resolved_id (StoreCall q res))) cs'
  | _ :: cs' => resolves_first seen cs'
  end.

(** The same, and every call on a resource table is keyed on the internal
    id the lookup returned. *)
Fixpoint scoped_to_user (seen : option jsval) (cs : list call) : bool :=
  match cs with
  | [] => true
  | StoreCall q res :: cs' =>
      if resource_table (q_from q)
      then match seen with
           | Some i => keyed_on i q && negb (names_external_id q)
                       && scoped_to_user seen cs'
           | None => false
           end
      else scoped_to_user (match resolved_id (StoreCall q res) with
                           | Some i => Some i
                           | None => seen
                           end) cs'
  | _ :: cs' => scoped_to_user seen cs'
  end.

Definition on_users (c : call) : bool :=
  match c with
  | StoreCall q _ => table_eqb (q_from q) users
  | _ => false
  end.

(** The owning identity the notifier resolves a document to: the
    [firebase_uid] of the one vehicle row with the document's vehicle id. *)
Definition owner_of (d : database) (doc : row) : option jsval :=
  match filter (holds (Eq "id" (get "vehicle_id" doc))) (t_vehicles d) with
  | [v] => Some (js_nullish (get "firebase_uid" v) JNull)
  | _ => None
  end.

(** All the push tokens registered for an identity. *)
Definition tokens_of (d : database) (fuid : jsval) : list jsval :=
  filter truthy
    (map (get "token") (filter (holds (Eq "firebase_uid" fuid)) (t_devices d))).

(** The specification of the notifier for one document: one notification
    to all the tokens of the owner when the document is exactly 30, 15 or
    7 days from expiry (and the owner resolves and has a token), none
    otherwise. *)
Definition notification_due (h : host) (d : database) (doc : row)
  : list push_message :=
  match Notifier.diffDays h doc with
  | Some n =>
      if ((n =? 30) || (n =? 15) || (n =? 7))%Z then
        match owner_of d doc with
        | Some fuid =>
            match tokens_of d fuid with
            | [] => []
            | ts => [Notifier.message_for doc n ts]
            end
        | None => []
        end
      else []
  | None => []
  end.


(** A world reached through the older gateway: Ana adds a vehicle (id "1"),
    registers a device and uploads three documents that expire 15, 16 and
    14 days after 2024-01-10. *)
Definition legacy_upload (name date : string) : request :=
  mkReq POST ["api"; "vehicles"; "1"; "documents"] (Some "Bearer tok-ana") [] []
        [("documentType", JStr name); ("expiryDate", JStr date)]
        (Some (mkFile (name ++ ".pdf") "application/pdf" "%PDF-1.4")).

Definition legacy_world : world :=
  let app := Legacy.app sample_host in
  let ana := Some "Bearer tok-ana" in
  after app (legacy_upload "verificacion" "2024-01-24")
  (after app (legacy_upload "tenencia" "2024-01-26")
  (after app (legacy_upload "seguro" "2024-01-25")
  (after app (sample_request POST ["api"; "registerDevice"] ana
                [("token", JStr "fcm-token-1"); ("platform", JStr "android")])
  (after app (sample_request POST ["api"; "vehicles"] ana [("make", JStr "VW")])
     empty_world)))).



(** A host whose store is unreachable. *)
Definition host_store_down : host :=
  mkHost None None "https://project.supabase.co" sample_idp
         (fun _ => Some (mkErr "connection lost" "08006")) (fun _ => None)
         (fun m => Some (length (tokens m)))
         1704880800000 0.

(* ------------------------------------------------------------------------- *)
(** ** Vocabulary of the further properties *)

(** The statuses the handlers and [verifyToken] answer with. *)
Definition statuses : list nat := [200; 400; 401; 404; 500]%nat.

(** Tables, bucket and sent notifications are as before. *)
Definition untouched (w w' : world) : Prop :=
  db w' = db w /\ bucket w' = bucket w /\ sent w' = sent w.

Definition same_table (t : table) (w w' : world) : Prop :=
  rows t (db w') = rows t (db w).

(** What a handler body may do: answer with a known status, leaving the
    tables alone unless the status is 200, or throw, leaving them alone. *)
Definition careful (m : M response) : Prop :=
  forall w,
    match m w with
    | (Returned res, w') =>
        In (status res) statuses /\ (status res <> 200%nat -> db w' = db w)
    | (Thrown _, w') => db w' = db w
    end.

(** The identity [verifyToken] attaches in bypass mode. *)
Definition dev_identity (h : host) : claims :=
  mkClaims (env_or (DEV_UID h) "dev-uid") (JStr "dev@example.com") JUndefined.

Definition no_space (s : string) : bool :=
  forallb (fun c => negb (Ascii.eqb c " ")) (list_ascii_of_string s).

(** The rows of a user with internal id [me]. *)
Definition mine (me : jsval) (r : row) : bool := holds (Eq "user_id" me) r.

(** Every row has text in column [c] (a date, a timestamp). *)
Definition textual (c : string) (rs : list row) : Prop :=
  forall r, In r rs -> exists s, get c r = JStr s.

(** Rows in ascending order of column [c]. *)
Definition ascending (c : string) (rs : list row) : Prop :=
  Sorted (fun a b => pg_leb (get c a) (get c b) = true) rs.

(** The values the reminder handlers write. *)
Definition reminder_fields (b : row) : row :=
  [("vehicle_id", get "vehicle_id" b);
   ("title", get "title" b);
   ("notes", get "notes" b);
   ("due_date", get "due_date" b);
   ("is_completed", get "is_completed" b)].

(** The values registerDevice of part_000 upserts. *)
Definition device_fields (me : jsval) (b : row) : row :=
  [("user_id", me); ("token", get "token" b); ("platform", get "platform" b)].

(** The values registerDevice of [src/index.js] upserts. *)
Definition legacy_device_fields (fuid : string) (b : row) : row :=
  [("firebase_uid", JStr fuid); ("token", get "token" b);
   ("platform", get "platform" b)].

(** No device row carries the column the notifier looks devices up by. *)
Definition devices_lack_external_id (d : database) : Prop :=
  forall r, In r (t_devices d) -> get "firebase_uid" r = JUndefined.

(** A value a column can be matched on: neither [undefined] nor [null]. *)
Definition is_value (v : jsval) : bool :=
  match v with JUndefined | JNull => false | _ => true end.

(** The push service accepts the notifications due for these documents. *)
Definition deliverable (h : host) (d : database) (docs : list row) : Prop :=
  forall doc m, In doc docs -> In m (notification_due h d doc) ->
                sendMulticast h m <> None.

(** A host that differs from [sample_host] in the bypass flag. *)
Definition bypass_host : host :=
  mkHost (Some "true") (Some "qa-user") "https://project.supabase.co" sample_idp
         (fun _ => None) (fun _ => None)
         (fun m => Some (length (tokens m)))
         1704880800000 0.

(** A host whose push service is down. *)
Definition host_push_down : host :=
  mkHost None None "https://project.supabase.co" sample_idp
         (fun _ => None) (fun _ => None) (fun _ => None)
         1704880800000 0.

(** A host whose store fails on every read of [devices]. *)
Definition devices_down (q : query) : option store_error :=
  match q_from q with
  | devices => Some (mkErr "connection lost" "08006")
  | _ => None
  end.

Definition host_devices_down : host :=
  mkHost None None "https://project.supabase.co" sample_idp
         devices_down (fun _ => None)
         (fun m => Some (length (tokens m)))
         1704880800000 0.

(** The notifier's footprint: tables and bucket as before, notifications
    only added. *)
Definition only_sends (w w' : world) : Prop :=
  db w' = db w /\ bucket w' = bucket w /\ exists more, sent w' = sent w ++ more.

(** The key [onConflict: 'token'] relies on: at most one [devices] row per
    push token. *)
Definition devices_unique (d : database) : Prop :=
  forall tok, (length (filter (holds (Eq "token" tok)) (t_devices d)) <= 1)%nat.

(** A host one hour ahead of UTC, at 2024-01-10T10:00:00Z. *)
Definition host_ahead_of_utc : host :=
  mkHost None None "https://project.supabase.co" sample_idp
         (fun _ => None) (fun _ => None)
         (fun m => Some (length (tokens m)))
         1704880800000 (-60).

(** A host six hours behind UTC, at 2024-01-10T10:00:00Z. *)
Definition host_behind_utc : host :=
  mkHost None None "https://project.supabase.co" sample_idp
         (fun _ => None) (fun _ => None)
         (fun m => Some (length (tokens m)))
         1704880800000 360.

(* ------------------------------------------------------------------------- *)
(** ** Scalars, rows and dates *)

Lemma jsval_eqb_eq (a b : jsval) : jsval_eqb a b = true <-> a = b.
Proof.
  destruct a, b; simpl; split; intro H; try discriminate; try reflexivity.
  - apply Bool.eqb_prop in H. now subst.
  - injection H as ->. apply Bool.eqb_reflx.
  - apply Z.eqb_eq in H. now subst.
  - injection H as ->. apply Z.eqb_refl.
  - apply String.eqb_eq in H. now subst.
  - injection H as ->. apply String.eqb_refl.
Qed.

Lemma jsval_eqb_refl (a : jsval) : jsval_eqb a a = true.
Proof. now apply jsval_eqb_eq. Qed.

Lemma jsval_eqb_neq (a b : jsval) : jsval_eqb a b = false <-> a <> b.
Proof.
  split.
  - intros H ->. rewrite jsval_eqb_refl in H. discriminate.
  - intro H. destruct (jsval_eqb a b) eqn:E; [|reflexivity].
    apply jsval_eqb_eq in E. contradiction.
Qed.

Lemma get_set_field_same k v r : get k (set_field k v r) = v.
Proof.
  induction r as [|[k' v'] r IH]; simpl.
  - now rewrite String.eqb_refl.
  - destruct (k' =? k) eqn:E; simpl.
    + now rewrite String.eqb_refl.
    + now rewrite E.
Qed.

Lemma get_set_field_other k k' v r :
  k' <> k -> get k (set_field k' v r) = get k r.
Proof.
  intro Hne. apply String.eqb_neq in Hne.
  induction r as [|[k0 v0] r IH]; simpl.
  - now rewrite Hne.
  - destruct (k0 =? k') eqn:E; simpl.
    + apply String.eqb_eq in E. subst k0. now rewrite Hne.
    + now rewrite IH.
Qed.

Example parse_date_ex : parse_date "2024-01-25" = Some 19747%Z.
Proof. reflexivity. Qed.

Example isoDate_ex : isoDate (19747 * DAY + 3600000) = "2024-01-25".
Proof. vm_compute. reflexivity. Qed.

Example ceil_div_ex : ceil_div (15 * DAY - 5 * 3600000) DAY = 15%Z.
Proof. reflexivity. Qed.

(* ------------------------------------------------------------------------- *)
(** ** Authentication *)

Lemma select_route_In rs req r ps :
  select_route rs req = Some (r, ps) -> In r rs.
Proof.
  induction rs as [|r0 rs IH]; simpl; [discriminate|].
  destruct (method_eqb (r_method r0) (req_method req)).
  - destruct (match_path (r_pattern r0) (req_path req)).
    + intro E. injection E as <- _. now left.
    + intro E. right. now apply IH.
  - intro E. right. now apply IH.
Qed.

Lemma rejected_with_params h req ps :
  rejected h req -> rejected h (with_params ps req).
Proof. intro H. exact H. Qed.

Lemma gateway_verifyToken_rejects h req :
  rejected h req ->
  exists res, Gateway.verifyToken h req = Reply res /\
              status res = 401%nat /\ generic_error res.
Proof.
  intros [Hskip Hauth]. unfold Gateway.verifyToken. rewrite Hskip.
  destruct Hauth as [Hnone | [(auth & Ha & Hp) | (auth & Ha & Hv)]].
  - rewrite Hnone. exists no_token. repeat split. now left.
  - rewrite Ha, Hp. rewrite orb_true_r.
    exists no_token. repeat split. now left.
  - rewrite Ha, Hv.
    destruct (negb (truthy (JStr auth)) || negb (String.prefix "Bearer " auth)).
    + exists no_token. repeat split. now left.
    + exists token_invalid. repeat split. now right.
Qed.

Lemma legacy_verifyToken_rejects h req :
  rejected h req ->
  exists res, Legacy.verifyToken h req = Reply res /\
              status res = 401%nat /\ generic_error res.
Proof.
  intros [Hskip Hauth]. unfold Legacy.verifyToken. rewrite Hskip.
  destruct Hauth as [Hnone | [(auth & Ha & Hp) | (auth & Ha & Hv)]].
  - rewrite Hnone. exists no_token. repeat split. now left.
  - rewrite Ha, Hp. rewrite orb_true_r.
    exists no_token. repeat split. now left.
  - rewrite Ha, Hv.
    destruct (negb (truthy (JStr auth)) || negb (String.prefix "Bearer " auth)).
    + exists no_token. repeat split. now left.
    + exists token_invalid. repeat split. now right.
Qed.

Lemma protected_gateway_route h r :
  In r (Gateway.routes h) -> is_protected r = true ->
  exists handler, r_stack r = Authed (Gateway.verifyToken h) handler.
Proof.
  unfold Gateway.routes. intros Hin Hp.
  repeat (destruct Hin as [<- | Hin]; [try discriminate Hp; eexists; reflexivity|]).
  destruct Hin.
Qed.

Lemma protected_legacy_route h r :
  In r (Legacy.routes h) -> is_protected r = true ->
  exists handler, r_stack r = Authed (Legacy.verifyToken h) handler.
Proof.
  unfold Legacy.routes. intros Hin Hp.
  repeat (destruct Hin as [<- | Hin]; [try discriminate Hp; eexists; reflexivity|]).
  destruct Hin.
Qed.

Lemma prefix_append p s :
  String.prefix p s = true -> exists rest, s = (p ++ rest)%string.
Proof.
  revert s. induction p as [|c p IH]; intros s H.
  - exists s. reflexivity.
  - destruct s as [|c' s]; simpl in H; [discriminate|].
    destruct (Ascii.ascii_dec c c') as [->|]; [|discriminate].
    destruct (IH s H) as [rest ->]. exists rest. reflexivity.
Qed.

Lemma split_on_nonempty c s : split_on c s <> [].
Proof.
  destruct s as [|a s]; simpl; [discriminate|].
  destruct (Ascii.eqb a c); [discriminate|].
  destruct (split_on c s); discriminate.
Qed.

(** The guard of [verifyToken] makes [auth.split(' ')[1]] exist. *)
Lemma bearer_has_token auth :
  String.prefix "Bearer " auth = true ->
  exists t, nth_error (split_on " " auth) 1 = Some t.
Proof.
  intro H. destruct (prefix_append _ _ H) as [rest ->].
  pose proof (split_on_nonempty " " rest) as Hne.
  cbn. destruct (split_on " " rest) as [|t ts]; [contradiction|].
  exists t. reflexivity.
Qed.

(** C1. With the bypass flag off, a request without an Authorization
    header, with a header that does not begin with 'Bearer ', or with a
    token the identity provider rejects is answered 401 with one of the two
    generic error bodies by every route registered behind [verifyToken], in
    both gateways; the handler is not entered, so the world (tables, bucket,
    call log) is left as it was.  The same holds for the application as a
    whole whenever the router selects a protected route. *)
Theorem unauthenticated_request_is_rejected (h : host) (req : request) (w : world) :
  rejected h req ->
  (forall r, In r (Gateway.routes h ++ Legacy.routes h) -> is_protected r = true ->
     exists res, run_stack (r_stack r) req w = (Returned res, w) /\
                 status res = 401%nat /\ generic_error res) /\
  (forall r ps, select_route (Gateway.routes h) req = Some (r, ps) ->
     is_protected r = true ->
     exists res, Gateway.app h req w = (Returned res, w) /\
                 status res = 401%nat /\ generic_error res) /\
  (forall r ps, select_route (Legacy.routes h) req = Some (r, ps) ->
     is_protected r = true ->
     exists res, Legacy.app h req w = (Returned res, w) /\
                 status res = 401%nat /\ generic_error res).
Proof.
  intro Hrej.
  assert (G : forall r rq, rejected h rq -> In r (Gateway.routes h) ->
            is_protected r = true ->
            exists res, run_stack (r_stack r) rq w = (Returned res, w) /\
                        status res = 401%nat /\ generic_error res).
  { intros r rq Hq Hin Hp.
    destruct (protected_gateway_route h r Hin Hp) as [handler ->].
    destruct (gateway_verifyToken_rejects h rq Hq) as (res & E & Hs & Hg).
    exists res. simpl. rewrite E. now repeat split. }
  assert (L : forall r rq, rejected h rq -> In r (Legacy.routes h) ->
            is_protected r = true ->
            exists res, run_stack (r_stack r) rq w = (Returned res, w) /\
                        status res = 401%nat /\ generic_error res).
  { intros r rq Hq Hin Hp.
    destruct (protected_legacy_route h r Hin Hp) as [handler ->].
    destruct (legacy_verifyToken_rejects h rq Hq) as (res & E & Hs & Hg).
    exists res. simpl. rewrite E. now repeat split. }
  split; [|split].
  - intros r Hin Hp. apply in_app_or in Hin. destruct Hin; auto.
  - intros r ps Hsel Hp. unfold Gateway.app, dispatch. rewrite Hsel.
    apply G; auto using rejected_with_params.
    eapply select_route_In; eauto.
  - intros r ps Hsel Hp. unfold Legacy.app, dispatch. rewrite Hsel.
    apply L; auto using rejected_with_params.
    eapply select_route_In; eauto.
Qed.

Lemma unauthenticated_request_is_rejected_witness :
  exists res,
    Gateway.app sample_host
      (sample_request POST ["api"; "vehicles"] (Some "Basic abc") []) empty_world
    = (Returned res, empty_world) /\ status res = 401%nat /\ generic_error res.
Proof.
  refine (proj1 (proj2 (unauthenticated_request_is_rejected sample_host
            (sample_request POST ["api"; "vehicles"] (Some "Basic abc") [])
            empty_world _)) _ [] _ _).
  - split; [reflexivity|]. right; left. exists "Basic abc". split; reflexivity.
  - reflexivity.
  - reflexivity.
Defined.

(* ------------------------------------------------------------------------- *)
(** ** The store: reads leave the tables alone, writes touch one table *)

Lemma exec_ok_select q d cols :
  q_verb q = Select cols -> snd (exec_ok q d) = d.
Proof.
  intro Hv. unfold exec_ok, apply_verb. rewrite Hv.
  destruct (q_single q).
  - destruct (map _ _) as [|r [|r' rs]]; reflexivity.
  - destruct (q_returning q); reflexivity.
Qed.

Lemma answer_select h q d cols :
  q_verb q = Select cols -> snd (answer h q d) = d.
Proof.
  intro Hv. unfold answer. destruct (store_fault h q); [reflexivity|].
  eapply exec_ok_select; eauto.
Qed.

Lemma rows_set_rows_other t t' rs d :
  t <> t' -> rows t (set_rows t' rs d) = rows t d.
Proof. destruct t, t'; intro H; try reflexivity; contradiction. Qed.

Lemma rows_set_rows_same t rs d : rows t (set_rows t rs d) = rs.
Proof. destruct t; reflexivity. Qed.

Lemma rows_bump_id t d : rows t (bump_id d) = rows t d.
Proof. destruct t; reflexivity. Qed.

Lemma apply_verb_frame q d t :
  t <> q_from q -> rows t (snd (apply_verb q d)) = rows t d.
Proof.
  intro Hne. unfold apply_verb.
  destruct (q_verb q); simpl; try reflexivity.
  - now rewrite rows_bump_id, rows_set_rows_other.
  - destruct (existsb _ _); simpl.
    + now rewrite rows_set_rows_other.
    + now rewrite rows_bump_id, rows_set_rows_other.
  - now rewrite rows_set_rows_other.
  - now rewrite rows_set_rows_other.
Qed.

Lemma exec_ok_frame q d t :
  t <> q_from q -> rows t (snd (exec_ok q d)) = rows t d.
Proof.
  intro Hne. pose proof (apply_verb_frame q d t Hne) as H.
  unfold exec_ok. destruct (apply_verb q d) as [out d']. simpl in H.
  destruct (q_single q).
  - destruct out as [|r [|r' rs]]; simpl; auto.
  - destruct (q_returning q); simpl; auto.
Qed.

Lemma answer_frame h q d t :
  t <> q_from q -> rows t (snd (answer h q d)) = rows t d.
Proof.
  intro Hne. unfold answer. destruct (store_fault h q); [reflexivity|].
  now apply exec_ok_frame.
Qed.

(** The user lookup every resource handler of the newer gateway starts with. *)
Lemma lookup_exec fuid d :
  exec_ok (Sb.from users |> Sb.select (Some ["id"])
           |> Sb.eq "firebase_uid" (JStr fuid) |> Sb.single) d
  = (match internal_id d fuid with
     | Some i => mkResult (DRow [("id", i)]) None
     | None => mkResult DNull (Some not_single)
     end, d).
Proof.
  unfold exec_ok, apply_verb, internal_id. simpl.
  replace (filter (matches [Eq "firebase_uid" (JStr fuid)]) (t_users d))
    with (filter (by_uid fuid) (t_users d)).
  2:{ apply filter_ext. intro r. unfold matches, by_uid. simpl.
      now rewrite andb_true_r. }
  destruct (filter (by_uid fuid) (t_users d)) as [|u [|u' us]]; reflexivity.
Qed.

Lemma lookup_answer h fuid d :
  exists res,
    answer h (Sb.from users |> Sb.select (Some ["id"])
              |> Sb.eq "firebase_uid" (JStr fuid) |> Sb.single) d = (res, d) /\
    (isSome (error res) || negb (present (data res)) = false ->
     exists i, internal_id d fuid = Some i /\ res = mkResult (DRow [("id", i)]) None).
Proof.
  unfold answer. destruct (store_fault h _) as [e|].
  - eexists. split; [reflexivity|]. simpl. discriminate.
  - rewrite lookup_exec. eexists. split; [reflexivity|].
    destruct (internal_id d fuid) as [i|]; simpl; [|discriminate].
    intros _. eauto.
Qed.

(* ------------------------------------------------------------------------- *)
(** ** User resolution *)

(** Frame reasoning for the handler monad: a relation between the world
    before and after that is reflexive and transitive is kept by [ret],
    [throw], [bind] and [try_catch]. *)
Section Frame.

Variable R : world -> world -> Prop.
Hypothesis R_refl : forall w, R w w.
Hypothesis R_trans : forall w1 w2 w3, R w1 w2 -> R w2 w3 -> R w1 w3.

Lemma keeps_ret {A} (a : A) : keeps R (ret a).
Proof. intro w. apply R_refl. Qed.

Lemma keeps_throw {A} (e : store_error) : keeps R (@throw A e).
Proof. intro w. apply R_refl. Qed.

Lemma keeps_bind {A B} (m : M A) (k : A -> M B) :
  keeps R m -> (forall a, keeps R (k a)) -> keeps R (bind m k).
Proof.
  intros Hm Hk w. unfold bind. specialize (Hm w).
  destruct (m w) as [[a|e] w1]; simpl in *.
  - eapply R_trans; [exact Hm|]. apply Hk.
  - exact Hm.
Qed.

Lemma keeps_try_catch {A} (m : M A) (k : store_error -> M A) :
  keeps R m -> (forall e, keeps R (k e)) -> keeps R (try_catch m k).
Proof.
  intros Hm Hk w. unfold try_catch. specialize (Hm w).
  destruct (m w) as [[a|e] w1]; simpl in *.
  - exact Hm.
  - eapply R_trans; [exact Hm|]. apply Hk.
Qed.

End Frame.

Lemma run_same_users h q :
  q_from q <> users -> keeps same_users (run h q).
Proof.
  intros Hq w. unfold same_users, run.
  pose proof (answer_frame h q (db w) users) as H.
  destruct (answer h q (db w)) as [res d']. simpl in *. apply H. congruence.
Qed.

Lemma run_select_same_users h q cols :
  q_verb q = Select cols -> keeps same_users (run h q).
Proof.
  intros Hq w. unfold same_users, run.
  pose proof (answer_select h q (db w) cols Hq) as H.
  destruct (answer h q (db w)) as [res d']. simpl in *. now subst.
Qed.

Lemma storage_upload_same_users h path f :
  keeps same_users (storage_upload h path f).
Proof. intro w. reflexivity. Qed.

Lemma same_users_refl w : same_users w w.
Proof. reflexivity. Qed.

Lemma same_users_trans w1 w2 w3 :
  same_users w1 w2 -> same_users w2 w3 -> same_users w1 w3.
Proof. unfold same_users. congruence. Qed.

Ltac frame_users :=
  repeat first
    [ apply (keeps_ret same_users same_users_refl)
    | apply (keeps_throw same_users same_users_refl)
    | apply (keeps_try_catch same_users same_users_trans); [ | intro ]
    | apply (keeps_bind same_users same_users_trans); [ | intro ]
    | apply storage_upload_same_users
    | eapply run_select_same_users; reflexivity
    | apply run_same_users; discriminate
    | match goal with
      | |- keeps _ (if ?c then _ else _) => destruct c
      | |- keeps _ (match ?o with Some _ => _ | None => _ end) => destruct o
      | |- keeps _ (res_json _) => unfold res_json
      | |- keeps _ (res_status_json _ _) => unfold res_status_json
      | |- keeps _ (run _ (if ?c then _ else _)) => destruct c
      end ].

(** No handler of the newer gateway other than registerUser writes to
    [users]. *)
Lemma resource_handlers_keep_users h user req handler :
  In handler [Gateway.createVehicle h; Gateway.getVehicles h;
              Gateway.listDocuments h; Gateway.uploadDocument h;
              Gateway.registerDevice h; Gateway.registerDevice' h;
              Gateway.getReminders h; Gateway.createReminder h;
              Gateway.updateReminder h; Gateway.deleteReminder h] ->
  keeps same_users (handler user req).
Proof.
  intro Hin. simpl in Hin.
  repeat (destruct Hin as [<- | Hin]); try contradiction;
    unfold Gateway.createVehicle, Gateway.getVehicles, Gateway.listDocuments,
           Gateway.uploadDocument, Gateway.registerDevice, Gateway.registerDevice',
           Gateway.getReminders, Gateway.createReminder, Gateway.updateReminder,
           Gateway.deleteReminder; cbv zeta; frame_users.
Qed.

(** C5 (as amended). In the gateway of part_000, creating a vehicle for an
    authenticated identity with no matching row in [users] is answered 404
    and leaves every table as it was; and no handler of that gateway other
    than registerUser ever changes the [users] table. *)
Theorem create_vehicle_requires_registered_user
    (h : host) (user : claims) (req : request) (w : world) :
  filter (by_uid (uid user)) (t_users (db w)) = [] ->
  (exists w', Gateway.createVehicle h user req w = (Returned user_not_found, w') /\
              status user_not_found = 404%nat /\
              db w' = db w /\ bucket w' = bucket w) /\
  (forall handler,
     In handler [Gateway.createVehicle h; Gateway.getVehicles h;
                 Gateway.listDocuments h; Gateway.uploadDocument h;
                 Gateway.registerDevice h; Gateway.registerDevice' h;
                 Gateway.getReminders h; Gateway.createReminder h;
                 Gateway.updateReminder h; Gateway.deleteReminder h] ->
     t_users (db (snd (handler user req w))) = t_users (db w)).
Proof.
  intro Hnone. split.
  - unfold Gateway.createVehicle, try_catch, bind.
    destruct (lookup_answer h (uid user) (db w)) as (res & E & Hres).
    unfold run at 1. rewrite E. cbn [db].
    destruct (isSome (error res) || negb (present (data res))) eqn:C.
    + eexists. split; [reflexivity|]. repeat split.
    + destruct (Hres eq_refl) as (i & Hi & _).
      unfold internal_id in Hi. rewrite Hnone in Hi. discriminate.
  - intros handler Hin. exact (resource_handlers_keep_users h user req handler Hin w).
Qed.

Lemma create_vehicle_requires_registered_user_witness :
  exists w',
    Gateway.createVehicle sample_host (mkClaims "bob" JUndefined JUndefined)
      (sample_request POST ["api"; "vehicles"] (Some "Bearer tok-bob")
                      [("make", JStr "VW")]) empty_world
    = (Returned user_not_found, w') /\
    status user_not_found = 404%nat /\
    db w' = db empty_world /\ bucket w' = bucket empty_world.
Proof.
  exact (proj1 (create_vehicle_requires_registered_user sample_host
                  (mkClaims "bob" JUndefined JUndefined)
                  (sample_request POST ["api"; "vehicles"] (Some "Bearer tok-bob")
                                  [("make", JStr "VW")])
                  empty_world eq_refl)).
Defined.

(** C5 as stated fails on [src/index.js]: its vehicle handler has no user
    lookup, so an identity without a [users] row gets a vehicle row and a
    200 answer. *)
Lemma legacy_create_vehicle_without_user :
  let req := sample_request POST ["api"; "vehicles"] (Some "Bearer tok-bob")
                            [("make", JStr "VW")] in
  filter (by_uid "bob") (t_users (db empty_world)) = [] /\
  exists res w',
    Legacy.app sample_host req empty_world = (Returned res, w') /\
    status res = 200%nat /\
    t_vehicles (db w') =
      [[("id", JStr "1"); ("firebase_uid", JStr "bob"); ("make", JStr "VW")]].
Proof.
  split; [reflexivity|]. eexists. eexists. split; [reflexivity|].
  split; reflexivity.
Qed.

(* ------------------------------------------------------------------------- *)
(** ** Reminders of another user *)

Lemma answer_no_fault h q d : no_faults h -> answer h q d = exec_ok q d.
Proof. intro H. unfold answer. now rewrite H. Qed.

Lemma set_rows_same t d : set_rows t (rows t d) d = d.
Proof. destruct d, t; reflexivity. Qed.

Lemma filter_none {A} (f : A -> bool) (l : list A) :
  (forall x, In x l -> f x = false) -> filter f l = [].
Proof.
  induction l as [|a l IH]; intro H; simpl; [reflexivity|].
  rewrite (H a (or_introl eq_refl)). apply IH. intros x Hx. apply H. now right.
Qed.

Lemma filter_all {A} (f : A -> bool) (l : list A) :
  (forall x, In x l -> f x = true) -> filter f l = l.
Proof.
  induction l as [|a l IH]; intro H; simpl; [reflexivity|].
  rewrite (H a (or_introl eq_refl)). f_equal. apply IH. intros x Hx. apply H. now right.
Qed.

Lemma map_unless {A} (f : A -> bool) (g : A -> A) (l : list A) :
  (forall x, In x l -> f x = false) ->
  map (fun x => if f x then g x else x) l = l.
Proof.
  induction l as [|a l IH]; intro H; simpl; [reflexivity|].
  rewrite (H a (or_introl eq_refl)). f_equal. apply IH. intros x Hx. apply H. now right.
Qed.

Lemma holds_Eq_true c v r : holds (Eq c v) r = true -> get c r = v.
Proof.
  unfold holds. destruct (get c r) eqn:E; try discriminate;
    intro H; apply jsval_eqb_eq in H; exact H.
Qed.

Lemma holds_Eq_false c v r : get c r <> v -> holds (Eq c v) r = false.
Proof.
  intro H. unfold holds. destruct (get c r) eqn:E; try reflexivity;
    apply jsval_eqb_neq; exact H.
Qed.

(** A reminder of somebody else satisfies no filter on both its id and the
    caller's internal id. *)
Lemma foreign_no_match id me rs :
  (forall r, In r rs -> get "id" r = id -> get "user_id" r <> me) ->
  forall r, In r rs -> matches [Eq "id" id; Eq "user_id" me] r = false.
Proof.
  intros Hown r Hin. unfold matches. cbn [forallb].
  destruct (holds (Eq "id" id) r) eqn:E1; [|reflexivity].
  apply holds_Eq_true in E1.
  rewrite (holds_Eq_false "user_id" me r (Hown r Hin E1)). reflexivity.
Qed.

Lemma lookup_run h w fuid i :
  no_faults h -> internal_id (db w) fuid = Some i ->
  run h (Sb.from users |> Sb.select (Some ["id"])
         |> Sb.eq "firebase_uid" (JStr fuid) |> Sb.single) w
  = (Returned (mkResult (DRow [("id", i)]) None),
     mkWorld (db w) (bucket w) (sent w) (console w)
       (calls w ++ [StoreCall (Sb.from users |> Sb.select (Some ["id"])
                               |> Sb.eq "firebase_uid" (JStr fuid) |> Sb.single)
                              (mkResult (DRow [("id", i)]) None)])).
Proof.
  intros Hnf Hi. unfold run. rewrite answer_no_fault by assumption.
  rewrite lookup_exec, Hi. reflexivity.
Qed.

(** C2 (as amended). When the reminder named by [:id] belongs to another
    user than the caller, both handlers query [reminders] with the filter
    [id = :id AND user_id = caller's internal id], which matches no row, and
    the tables are left as they were.  The delete handler answers 200 with
    its success message; the update handler, which asks for the updated row
    with [single()], answers 500 with the store's no-row error. *)
Theorem foreign_reminder_is_not_touched
    (h : host) (user : claims) (req : request) (w : world) (me : jsval) :
  no_faults h ->
  internal_id (db w) (uid user) = Some me ->
  (forall r, In r (t_reminders (db w)) ->
             get "id" r = get "id" (params req) -> get "user_id" r <> me) ->
  (exists w' lookup q,
     Gateway.deleteReminder h user req w
     = (Returned (mkRes 200 [ok_true;
                             ("message", Scalar (JStr "Reminder deleted successfully."))]),
        w') /\
     db w' = db w /\
     calls w' = calls w ++ [lookup; StoreCall q (mkResult DNull None)] /\
     q_from q = reminders /\ q_verb q = Delete /\
     q_filters q = [Eq "id" (get "id" (params req)); Eq "user_id" me]) /\
  (exists w' lookup q,
     Gateway.updateReminder h user req w
     = (Returned (mkRes 500 [("error", Scalar (JStr (message not_single)))]), w') /\
     db w' = db w /\
     calls w' = calls w ++ [lookup; StoreCall q (mkResult DNull (Some not_single))] /\
     q_from q = reminders /\
     q_filters q = [Eq "id" (get "id" (params req)); Eq "user_id" me]).
Proof.
  intros Hnf Hme Hown.
  pose proof (foreign_no_match _ _ _ Hown) as Hno.
  split.
  - unfold Gateway.deleteReminder, try_catch, bind.
    rewrite (lookup_run h w (uid user) me Hnf Hme). cbn [error data isSome present negb orb field get String.eqb].
    unfold run. rewrite answer_no_fault by assumption.
    unfold exec_ok, apply_verb. cbn -[matches].
    rewrite (filter_all (fun r => negb (matches _ r)) (t_reminders (db w)))
      by (intros r Hr; cbv beta; rewrite (Hno r Hr); reflexivity).
    do 3 eexists. split; [reflexivity|]. cbn [db calls].
    split; [destruct (db w); reflexivity|].
    rewrite <- app_assoc. repeat split; reflexivity.
  - unfold Gateway.updateReminder, try_catch, bind.
    rewrite (lookup_run h w (uid user) me Hnf Hme). cbn [error data isSome present negb orb field get String.eqb].
    unfold run. rewrite answer_no_fault by assumption.
    unfold exec_ok, apply_verb. cbn -[matches stringify merge].
    rewrite (filter_none _ _ Hno). cbn.
    do 3 eexists. split; [reflexivity|]. cbn [db calls].
    split; [reflexivity|].
    rewrite <- app_assoc. repeat split; reflexivity.
Qed.

Lemma foreign_reminder_is_not_touched_witness :
  exists w' lookup q,
    Gateway.deleteReminder sample_host (mkClaims "bob" JUndefined JUndefined)
      (mkReq DELETE ["api"; "reminders"; "3"] (Some "Bearer tok-bob")
             [("id", JStr "3")] [] [] None) sample_world
    = (Returned (mkRes 200 [ok_true;
                            ("message", Scalar (JStr "Reminder deleted successfully."))]),
       w') /\
    db w' = db sample_world /\
    calls w' = calls sample_world ++ [lookup; StoreCall q (mkResult DNull None)] /\
    q_from q = reminders /\ q_verb q = Delete /\
    q_filters q = [Eq "id" (JStr "3"); Eq "user_id" (JStr "4")].
Proof.
  refine (proj1 (foreign_reminder_is_not_touched sample_host
                   (mkClaims "bob" JUndefined JUndefined)
                   (mkReq DELETE ["api"; "reminders"; "3"] (Some "Bearer tok-bob")
                          [("id", JStr "3")] [] [] None)
                   sample_world (JStr "4") _ _ _)).
  - intro q. reflexivity.
  - vm_compute. reflexivity.
  - vm_compute. intros r [<- | []] _ H. discriminate H.
Defined.

(** C2 as stated fails for the update: Bob's PUT on Ana's reminder "3" is
    answered 500, an error response. *)
Lemma update_of_foreign_reminder_answers_500 :
  let req := sample_request PUT ["api"; "reminders"; "3"] (Some "Bearer tok-bob")
                            [("title", JStr "taken")] in
  internal_id (db sample_world) "bob" = Some (JStr "4") /\
  t_reminders (db sample_world) =
    [[("id", JStr "3"); ("user_id", JStr "1"); ("title", JStr "oil");
      ("is_completed", JBool false)]] /\
  fst (Gateway.app sample_host req sample_world) =
    Returned (mkRes 500 [("error",
      Scalar (JStr "JSON object requested, multiple (or no) rows returned"))]) /\
  db (snd (Gateway.app sample_host req sample_world)) = db sample_world.
Proof. split; [|split; [|split]]; vm_compute; reflexivity. Qed.

(* ------------------------------------------------------------------------- *)
(** ** Registration *)

Lemma filter_map_if {A} (p : A -> bool) (g : A -> A) (l : list A) :
  (forall x, p (g x) = true) ->
  filter p (map (fun x => if p x then g x else x) l) = map g (filter p l).
Proof.
  intro Hg. induction l as [|a l IH]; simpl; [reflexivity|].
  destruct (p a) eqn:E; simpl.
  - rewrite Hg. now rewrite IH.
  - rewrite E. exact IH.
Qed.

Lemma js_or_null_defined a : js_or a JNull <> JUndefined.
Proof. unfold js_or. destruct a; simpl; try discriminate; destruct (negb _) + destruct b; discriminate. Qed.

(** What the registration payload looks like once serialised. *)
Lemma stringify_registration user body :
  let em := js_or (email user) (get "email" body) in
  let dn := js_or (js_or (name user) (get "displayName" body)) JNull in
  stringify (registration user body) =
    if is_undefined em
    then [("firebase_uid", JStr (uid user)); ("display_name", dn)]
    else [("firebase_uid", JStr (uid user)); ("email", em); ("display_name", dn)].
Proof.
  intros em dn. unfold registration, stringify. fold em dn. cbn [filter snd is_undefined negb].
  pose proof (js_or_null_defined (js_or (name user) (get "displayName" body))) as Hdn.
  fold dn in Hdn.
  destruct dn; try contradiction; destruct em; reflexivity.
Qed.

Lemma conflicts_registration user body r :
  conflicts "firebase_uid" (registration user body) r = by_uid (uid user) r.
Proof. reflexivity. Qed.

Lemma merged_registration user body r :
  let em := js_or (email user) (get "email" body) in
  let dn := js_or (js_or (name user) (get "displayName" body)) JNull in
  let r' := merge r (stringify (registration user body)) in
  get "firebase_uid" r' = JStr (uid user) /\
  get "display_name" r' = dn /\
  get "email" r' = (if is_undefined em then get "email" r else em).
Proof.
  intros em dn r'. subst r'. rewrite stringify_registration. fold em dn.
  destruct (is_undefined em); unfold merge; cbn [fold_left fst snd];
    repeat split;
    repeat first [ rewrite get_set_field_same
                 | rewrite get_set_field_other by discriminate ];
    reflexivity.
Qed.

Lemma inserted_registration user body id :
  let em := js_or (email user) (get "email" body) in
  let dn := js_or (js_or (name user) (get "displayName" body)) JNull in
  let r' := ("id", id) :: stringify (registration user body) in
  get "firebase_uid" r' = JStr (uid user) /\
  get "display_name" r' = dn /\
  get "email" r' = em.
Proof.
  intros em dn r'. subst r'. rewrite stringify_registration. fold em dn.
  destruct (is_undefined em) eqn:E; cbn; repeat split.
  destruct em; try discriminate. reflexivity.
Qed.

Lemma by_uid_of_get fuid r : get "firebase_uid" r = JStr fuid -> by_uid fuid r = true.
Proof.
  intro H. unfold by_uid, holds. rewrite H. apply jsval_eqb_refl.
Qed.

(** The upsert of registerUser on a table with at most one row for the
    identity: one row comes back, it is the only row of the identity
    afterwards, and a row is added only if there was none. *)
Lemma upsert_registration user body d :
  (length (filter (by_uid (uid user)) (t_users d)) <= 1)%nat ->
  let em := js_or (email user) (get "email" body) in
  let dn := js_or (js_or (name user) (get "displayName" body)) JNull in
  exists r d',
    exec_ok (register_query user body) d = (mkResult (DRow r) None, d') /\
    filter (by_uid (uid user)) (t_users d') = [r] /\
    get "firebase_uid" r = JStr (uid user) /\
    get "display_name" r = dn /\
    (em <> JUndefined -> get "email" r = em) /\
    (length (t_users d') =
       length (t_users d) + (1 - length (filter (by_uid (uid user)) (t_users d))))%nat.
Proof.
  intros Hle em dn.
  unfold exec_ok, register_query, apply_verb.
  cbn [Sb.single Sb.returning Sb.upsert Sb.from q_from q_verb q_single q_returning rows].
  destruct (filter (by_uid (uid user)) (t_users d)) as [|r0 [|r1 rest]] eqn:F;
    [| |simpl in Hle; lia].
  - (* no row yet: insert *)
    assert (X : existsb (conflicts "firebase_uid" (registration user body)) (t_users d) = false).
    { destruct (existsb _ _) eqn:E; [|reflexivity].
      apply existsb_exists in E. destruct E as (x & Hx & Hc).
      rewrite conflicts_registration in Hc.
      assert (In x (filter (by_uid (uid user)) (t_users d))) by (apply filter_In; auto).
      rewrite F in H. destruct H. }
    rewrite X.
    destruct (inserted_registration user body (fresh_id d)) as (G1 & G2 & G3).
    eexists. eexists. split; [reflexivity|].
    cbn [t_users bump_id set_rows Sb.from]. rewrite filter_app, F. cbn [filter app].
    unfold new_row. rewrite (by_uid_of_get _ _ G1).
    repeat split; auto.
    rewrite length_app. simpl. lia.
  - (* one row: update it *)
    assert (X : existsb (conflicts "firebase_uid" (registration user body)) (t_users d) = true).
    { apply existsb_exists. exists r0.
      assert (In r0 (filter (by_uid (uid user)) (t_users d))) by (rewrite F; now left).
      apply filter_In in H. now rewrite conflicts_registration. }
    rewrite X.
    destruct (merged_registration user body r0) as (G1 & G2 & G3).
    assert (Y : filter (conflicts "firebase_uid" (registration user body))
          (map (fun r => if conflicts "firebase_uid" (registration user body) r
                         then merge r (stringify (registration user body)) else r)
               (t_users d))
          = [merge r0 (stringify (registration user body))]).
    { rewrite filter_map_if.
      - change (conflicts "firebase_uid" (registration user body)) with (by_uid (uid user)).
        rewrite F. reflexivity.
      - intro x. rewrite conflicts_registration. apply by_uid_of_get.
        apply (merged_registration user body x). }
    rewrite Y.
    eexists. eexists. split; [reflexivity|].
    cbn [t_users set_rows Sb.from].
    change (by_uid (uid user)) with (conflicts "firebase_uid" (registration user body)).
    rewrite Y.
    repeat split; auto.
    + intro Hem. rewrite G3. destruct (js_or (email user) (get "email" body)); try reflexivity.
      contradiction.
    + rewrite length_map. simpl. lia.
Qed.

Lemma registerUser_calls h user req w :
  exists res d',
    answer h (register_query user (req_body req)) (db w) = (res, d') /\
    snd (Gateway.registerUser h user req w)
    = mkWorld d' (bucket w) (sent w) (console w)
              (calls w ++ [StoreCall (register_query user (req_body req)) res]) /\
    fst (Gateway.registerUser h user req w)
    = Returned (match error res with
                | Some e => mkRes 500 [("error", message_or_self e)]
                | None => mkRes 200 [ok_true; ("user", of_payload (data res))]
                end).
Proof.
  unfold Gateway.registerUser, try_catch, bind, run.
  change (Sb.from users
          |> Sb.upsert [("firebase_uid", JStr (uid user));
                        ("email", js_or (email user) (get "email" (req_body req)));
                        ("display_name",
                         js_or (js_or (name user) (get "displayName" (req_body req))) JNull)]
                       "firebase_uid"
          |> Sb.returning |> Sb.single)
    with (register_query user (req_body req)).
  destruct (answer h (register_query user (req_body req)) (db w)) as [res d'].
  exists res, d'. split; [reflexivity|].
  destruct (error res); split; reflexivity.
Qed.

Lemma registerUser_ok h user req w :
  no_faults h ->
  (length (filter (by_uid (uid user)) (t_users (db w))) <= 1)%nat ->
  exists r w',
    Gateway.registerUser h user req w
    = (Returned (mkRes 200 [ok_true; ("user", Object r)]), w') /\
    filter (by_uid (uid user)) (t_users (db w')) = [r] /\
    get "firebase_uid" r = JStr (uid user) /\
    get "display_name" r
      = js_or (js_or (name user) (get "displayName" (req_body req))) JNull /\
    (js_or (email user) (get "email" (req_body req)) <> JUndefined ->
     get "email" r = js_or (email user) (get "email" (req_body req))) /\
    (length (t_users (db w')) =
       length (t_users (db w))
       + (1 - length (filter (by_uid (uid user)) (t_users (db w)))))%nat.
Proof.
  intros Hnf Hle.
  destruct (upsert_registration user (req_body req) (db w) Hle)
    as (r & d' & E & F & G1 & G2 & G3 & G4).
  destruct (registerUser_calls h user req w) as (res & d1 & A & W & R).
  rewrite answer_no_fault in A by assumption. rewrite E in A.
  injection A as <- <-.
  exists r. eexists. split.
  - rewrite (surjective_pairing (Gateway.registerUser h user req w)).
    rewrite R, W. reflexivity.
  - cbn [db]. auto.
Qed.

(** C6. Registering the same external identity twice leaves exactly one
    [users] row for it: the second call adds no row, answers 200 with that
    row, and the row carries the external id together with the display name
    (and the email, when one is given) of the second call.  The handler of
    [src/index.js] is the same function. *)
Theorem register_user_twice_keeps_one_row
    (h : host) (u1 u2 : claims) (req1 req2 : request) (w : world) :
  no_faults h ->
  uid u2 = uid u1 ->
  (length (filter (by_uid (uid u1)) (t_users (db w))) <= 1)%nat ->
  let w1 := snd (Gateway.registerUser h u1 req1 w) in
  let w2 := snd (Gateway.registerUser h u2 req2 w1) in
  (exists r,
     fst (Gateway.registerUser h u2 req2 w1)
       = Returned (mkRes 200 [ok_true; ("user", Object r)]) /\
     filter (by_uid (uid u1)) (t_users (db w2)) = [r] /\
     length (t_users (db w2)) = length (t_users (db w1)) /\
     get "firebase_uid" r = JStr (uid u1) /\
     get "display_name" r
       = js_or (js_or (name u2) (get "displayName" (req_body req2))) JNull /\
     (js_or (email u2) (get "email" (req_body req2)) <> JUndefined ->
      get "email" r = js_or (email u2) (get "email" (req_body req2)))) /\
  (forall u req w0, Legacy.registerUser h u req w0 = Gateway.registerUser h u req w0).
Proof.
  intros Hnf Huid Hle w1 w2. split; [|reflexivity].
  destruct (registerUser_ok h u1 req1 w Hnf Hle) as (r1 & w1' & E1 & F1 & _).
  assert (Hw1 : w1 = w1') by (unfold w1; rewrite E1; reflexivity).
  assert (Hle1 : (length (filter (by_uid (uid u2)) (t_users (db w1))) <= 1)%nat).
  { rewrite Huid, Hw1, F1. simpl. lia. }
  destruct (registerUser_ok h u2 req2 w1 Hnf Hle1)
    as (r2 & w2' & E2 & F2 & G1 & G2 & G3 & G4).
  assert (Hw2 : w2 = w2') by (unfold w2; rewrite E2; reflexivity).
  exists r2. rewrite E2, Hw2. rewrite Huid in *.
  repeat split; auto.
  rewrite G4. rewrite Hw1 at 2. rewrite F1. simpl. lia.
Qed.

Lemma register_user_twice_keeps_one_row_witness :
  let h := sample_host in
  let ana := mkClaims "ana" (JStr "ana@example.org") (JStr "Ana") in
  let ana' := mkClaims "ana" (JStr "ana@work.example") JUndefined in
  let req1 := sample_request POST ["api"; "registerUser"] (Some "Bearer tok-ana") [] in
  let req2 := sample_request POST ["api"; "registerUser"] (Some "Bearer tok-ana")
                             [("displayName", JStr "A.")] in
  let w1 := snd (Gateway.registerUser h ana req1 empty_world) in
  let w2 := snd (Gateway.registerUser h ana' req2 w1) in
  exists r,
    fst (Gateway.registerUser h ana' req2 w1)
      = Returned (mkRes 200 [ok_true; ("user", Object r)]) /\
    filter (by_uid "ana") (t_users (db w2)) = [r] /\
    length (t_users (db w2)) = length (t_users (db w1)) /\
    get "firebase_uid" r = JStr "ana" /\
    get "display_name" r = JStr "A." /\
    (JStr "ana@work.example" <> JUndefined -> get "email" r = JStr "ana@work.example").
Proof.
  intros h ana ana' req1 req2.
  refine (proj1 (register_user_twice_keeps_one_row h ana ana' req1 req2 empty_world _ _ _)).
  - intro q. reflexivity.
  - reflexivity.
  - simpl. lia.
Defined.

(** *** The uniqueness of [users] rows is an invariant of the gateway *)

Lemma filter_map_same {A} (p : A -> bool) (f : A -> A) (l : list A) :
  (forall x, p (f x) = p x) ->
  filter p (map f l) = map f (filter p l).
Proof.
  intro H. induction l as [|a l IH]; simpl; [reflexivity|].
  rewrite H. destruct (p a); simpl; now rewrite IH.
Qed.

Lemma by_uid_other fuid fuid' r :
  get "firebase_uid" r = JStr fuid' -> fuid <> fuid' -> by_uid fuid r = false.
Proof.
  intros H Hne. unfold by_uid. apply holds_Eq_false. rewrite H. congruence.
Qed.

Lemma by_uid_get fuid r : by_uid fuid r = true -> get "firebase_uid" r = JStr fuid.
Proof. apply holds_Eq_true. Qed.

Lemma upsert_registration_others user body d fuid :
  fuid <> uid user ->
  length (filter (by_uid fuid) (t_users (snd (exec_ok (register_query user body) d))))
  = length (filter (by_uid fuid) (t_users d)).
Proof.
  intro Hne.
  unfold exec_ok, register_query, apply_verb.
  cbn [Sb.single Sb.returning Sb.upsert Sb.from q_from q_verb q_single q_returning rows].
  destruct (existsb (conflicts "firebase_uid" (registration user body)) (t_users d)).
  - match goal with
    | |- context [filter ?c (map ?f ?l)] =>
        destruct (filter c (map f l)) as [|r0 [|r1 rest]]; cbn [snd]; try reflexivity
    end.
    cbn [t_users set_rows Sb.from].
    rewrite filter_map_same; [now rewrite length_map|].
    intro x. rewrite conflicts_registration.
    destruct (by_uid (uid user) x) eqn:C; [|reflexivity].
    rewrite (by_uid_other fuid (uid user) x (by_uid_get _ _ C) Hne).
    apply (by_uid_other fuid (uid user)); [|exact Hne].
    apply (merged_registration user body x).
  - cbn [snd t_users bump_id set_rows Sb.from].
    rewrite filter_app. cbn [filter].
    rewrite (by_uid_other fuid (uid user)); [now rewrite app_nil_r| |exact Hne].
    apply (inserted_registration user body (fresh_id d)).
Qed.

Lemma register_keeps_users_unique h user body d :
  users_unique d -> users_unique (snd (answer h (register_query user body) d)).
Proof.
  intros Hu fuid. unfold answer.
  destruct (store_fault h _); [apply Hu|].
  destruct (String.eqb_spec fuid (uid user)) as [->|Hne].
  - destruct (upsert_registration user body d (Hu (uid user)))
      as (r & d' & E & F & _).
    rewrite E. cbn [snd]. rewrite F. simpl. lia.
  - rewrite (upsert_registration_others user body d fuid Hne). apply Hu.
Qed.

Lemma registerUser_keeps_users_unique h user req w :
  users_unique (db w) -> users_unique (db (snd (Gateway.registerUser h user req w))).
Proof.
  intro Hu.
  destruct (registerUser_calls h user req w) as (res & d' & A & W & _).
  rewrite W. cbn [db].
  pose proof (register_keeps_users_unique h user (req_body req) (db w) Hu) as H.
  rewrite A in H. exact H.
Qed.

Lemma gateway_keeps_users_unique h req w :
  users_unique (db w) -> users_unique (db (snd (Gateway.app h req w))).
Proof.
  intro Hu. unfold Gateway.app, dispatch.
  destruct (select_route (Gateway.routes h) req) as [[r ps]|] eqn:S; [|exact Hu].
  apply select_route_In in S.
  assert (K : forall handler user rq,
            In handler [Gateway.createVehicle h; Gateway.getVehicles h;
                        Gateway.listDocuments h; Gateway.uploadDocument h;
                        Gateway.registerDevice h; Gateway.registerDevice' h;
                        Gateway.getReminders h; Gateway.createReminder h;
                        Gateway.updateReminder h; Gateway.deleteReminder h] ->
            users_unique (db (snd (handler user rq w)))).
  { intros handler user rq Hin fuid.
    rewrite (resource_handlers_keep_users h user rq handler Hin w). apply Hu. }
  unfold Gateway.routes in S.
  repeat match type of S with
         | In _ (_ :: _) => destruct S as [E | S]; [subst r|]
         | In _ [] => destruct S
         end;
    cbn [run_stack r_stack];
    try exact Hu;
    (destruct (Gateway.verifyToken h (with_params ps req)) as [user|res];
     [|exact Hu]);
    first [ apply registerUser_keeps_users_unique; exact Hu
          | apply K; simpl; tauto ].
Qed.

(** Every world the gateway reaches from an empty store has at most one
    [users] row per external identity. *)
Lemma reachable_users_unique h w :
  reachable h empty_world w -> users_unique (db w).
Proof.
  induction 1 as [|w req _ IH].
  - intro fuid. simpl. lia.
  - now apply gateway_keeps_users_unique.
Qed.

(* ------------------------------------------------------------------------- *)
(** ** Precedence of the token claims *)

Lemma js_or_truthy a b : truthy a = true -> js_or a b = a.
Proof. unfold js_or. now intros ->. Qed.

Lemma js_or_falsy a b : truthy a = false -> js_or a b = b.
Proof. unfold js_or. now intros ->. Qed.

(** C10. registerUser (in both gateways) upserts [email] and
    [display_name] computed with the token claims first: the email is the
    claim's email whenever the token carries one, whatever the body says,
    and the body's email only when the claim is absent; the display name is
    the claim's name, else the body's displayName, else null.  When the
    store answers, these are the values of the identity's row. *)
Theorem token_claims_take_precedence
    (h : host) (user : claims) (req : request) (w : world) :
  exists res em dn,
    calls (snd (Gateway.registerUser h user req w))
      = calls w ++ [StoreCall
                      (Sb.from users
                       |> Sb.upsert [("firebase_uid", JStr (uid user));
                                     ("email", em); ("display_name", dn)]
                                    "firebase_uid"
                       |> Sb.returning |> Sb.single) res] /\
    Legacy.registerUser h user req w = Gateway.registerUser h user req w /\
    (truthy (email user) = true -> em = email user) /\
    (truthy (email user) = false -> em = get "email" (req_body req)) /\
    (truthy (name user) = true -> dn = name user) /\
    (truthy (name user) = false -> truthy (get "displayName" (req_body req)) = true ->
     dn = get "displayName" (req_body req)) /\
    (truthy (name user) = false -> truthy (get "displayName" (req_body req)) = false ->
     dn = JNull) /\
    (no_faults h ->
     (length (filter (by_uid (uid user)) (t_users (db w))) <= 1)%nat ->
     exists r,
       filter (by_uid (uid user))
              (t_users (db (snd (Gateway.registerUser h user req w)))) = [r] /\
       get "display_name" r = dn /\
       (em <> JUndefined -> get "email" r = em)).
Proof.
  destruct (registerUser_calls h user req w) as (res & d' & A & W & R).
  exists res, (js_or (email user) (get "email" (req_body req))),
         (js_or (js_or (name user) (get "displayName" (req_body req))) JNull).
  split; [rewrite W; reflexivity|].
  split; [reflexivity|].
  split; [intro H; now rewrite js_or_truthy|].
  split; [intro H; now rewrite js_or_falsy|].
  split; [intro H; now rewrite !js_or_truthy by (now rewrite ?js_or_truthy)|].
  split.
  { intros H1 H2. rewrite (js_or_falsy _ _ H1). now rewrite js_or_truthy. }
  split.
  { intros H1 H2. rewrite (js_or_falsy _ _ H1). now rewrite js_or_falsy. }
  intros Hnf Hle.
  destruct (registerUser_ok h user req w Hnf Hle) as (r & w' & E & F & G1 & G2 & G3 & _).
  exists r. rewrite E. cbn [snd]. repeat split; auto.
Qed.

Lemma token_claims_take_precedence_witness :
  exists res em dn,
    calls (snd (Gateway.registerUser sample_host
                  (mkClaims "ana" (JStr "ana@example.org") JUndefined)
                  (sample_request POST ["api"; "registerUser"] (Some "Bearer tok-ana")
                     [("email", JStr "mallory@example.org"); ("displayName", JStr "M")])
                  empty_world))
      = [StoreCall (Sb.from users
                    |> Sb.upsert [("firebase_uid", JStr "ana");
                                  ("email", em); ("display_name", dn)] "firebase_uid"
                    |> Sb.returning |> Sb.single) res] /\
    em = JStr "ana@example.org" /\ dn = JStr "M".
Proof.
  destruct (token_claims_take_precedence sample_host
              (mkClaims "ana" (JStr "ana@example.org") JUndefined)
              (sample_request POST ["api"; "registerUser"] (Some "Bearer tok-ana")
                 [("email", JStr "mallory@example.org"); ("displayName", JStr "M")])
              empty_world)
    as (res & em & dn & C & _ & E1 & _ & _ & D2 & _).
  exists res, em, dn. split; [exact C|]. split.
  - apply E1. reflexivity.
  - apply D2; reflexivity.
Defined.

(* ------------------------------------------------------------------------- *)
(** ** Document upload *)

Lemma insert_exec_ok t values d :
  exec_ok (Sb.from t |> Sb.insert values |> Sb.returning |> Sb.single) d
  = (mkResult (DRow (new_row d values)) None,
     bump_id (set_rows t (rows t d ++ [new_row d values]) d)).
Proof. reflexivity. Qed.

(** C7. The upload handler writes the file to object storage first and
    inserts the metadata row after it.  If the storage write fails the
    handler answers 500 and makes no store call at all, so no metadata row
    exists; if the write succeeds and the insert fails, the handler answers
    500, the tables are as before and the stored object stays in the bucket:
    the insert is the last external call, nothing removes the object. *)
Theorem upload_stores_object_then_row
    (h : host) (user : claims) (req : request) (w : world) (file : upload_file) :
  req_file req = Some file ->
  let path := upload_path h user req file in
  let q := document_insert h user req file in
  (forall e,
     fst (storage_upload h path file w) = Returned (Some e) ->
     exists w',
       Gateway.uploadDocument h user req w
       = (Returned (mkRes 500 [("error", message_or_self e)]), w') /\
       db w' = db w /\ bucket w' = bucket w /\
       calls w' = calls w ++ [StorageUpload path (Some e)]) /\
  (fst (storage_upload h path file w) = Returned None ->
   exists res out w',
     Gateway.uploadDocument h user req w = (Returned out, w') /\
     calls w' = calls w ++ [StorageUpload path None; StoreCall q res] /\
     bucket w' = bucket w ++ [(path, file)] /\
     (forall e, store_fault h q = Some e ->
        out = mkRes 500 [("error", message_or_self e)] /\ db w' = db w) /\
     (store_fault h q = None ->
        exists r, out = mkRes 200 [ok_true; ("document", Object r)] /\
                  t_documents (db w') = t_documents (db w) ++ [r] /\
                  get "storage_path" r = JStr path)).
Proof.
  intros Hfile path q.
  unfold Gateway.uploadDocument. rewrite Hfile.
  change (uid user ++ "/" ++ js_string (get "vehicleId" (params req)) ++ "/"
          ++ (string_of_Z (Date_now h) ++ "_" ++ originalname file))%string
    with path.
  unfold try_catch, bind.
  split.
  - intros e He. unfold storage_upload in *. cbn [fst] in He.
    injection He as He. rewrite He. cbn.
    eexists. split; [reflexivity|]. repeat split.
  - intro Hok. unfold storage_upload in *. cbn [fst] in Hok.
    injection Hok as Hok. rewrite Hok. cbn [db bucket calls].
    unfold run. cbn [db calls bucket sent console].
    change (Sb.from documents
            |> Sb.insert [("vehicle_id", get "vehicleId" (params req));
                          ("document_type", get "documentType" (req_body req));
                          ("expiry_date", get "expiryDate" (req_body req));
                          ("storage_path", JStr path);
                          ("public_url", js_or (getPublicUrl h path) JNull)]
            |> Sb.returning |> Sb.single) with q.
    unfold answer. destruct (store_fault h q) as [e|] eqn:F.
    + cbn. do 3 eexists. split; [reflexivity|]. cbn [calls bucket db].
      rewrite <- app_assoc. repeat split.
      * injection H as <-. reflexivity.
      * discriminate.
    + unfold q, document_insert. rewrite insert_exec_ok. cbn [error data of_payload].
      do 3 eexists. split; [reflexivity|]. cbn [calls bucket db].
      rewrite <- app_assoc. repeat split; try discriminate.
      intros _. eexists. split; [reflexivity|]. split; [reflexivity|].
      unfold new_row, stringify, js_or, getPublicUrl.
      destruct (truthy _); cbn [filter snd is_undefined negb];
        repeat match goal with
               | |- context [is_undefined (get ?k ?r)] =>
                   destruct (is_undefined (get k r))
               end; reflexivity.
Qed.

Lemma upload_stores_object_then_row_witness :
  let h := host_documents_down in
  let user := mkClaims "ana" (JStr "ana@example.org") (JStr "Ana") in
  let file := mkFile "poliza.pdf" "application/pdf" "%PDF-1.4" in
  let path := upload_path h user sample_upload file in
  exists res out w',
    Gateway.uploadDocument h user sample_upload sample_world = (Returned out, w') /\
    calls w' = calls sample_world
               ++ [StorageUpload path None;
                   StoreCall (document_insert h user sample_upload file) res] /\
    bucket w' = [(path, file)] /\
    out = mkRes 500 [("error", Scalar (JStr "insert failed"))] /\
    db w' = db sample_world.
Proof.
  intros h user file path.
  destruct (upload_stores_object_then_row h user sample_upload sample_world file eq_refl)
    as [_ Hok].
  destruct (Hok eq_refl) as (res & out & w' & E & C & B & Hfail & _).
  destruct (Hfail (mkErr "insert failed" "23503") eq_refl) as [Ho Hd].
  exists res, out, w'. repeat split; assumption.
Defined.

(* ------------------------------------------------------------------------- *)
(** ** The two registerDevice routes *)

(** A route registered again with the same method and path is never
    selected. *)
Lemma select_route_shadow l1 r1 r2 l3 req :
  r_method r2 = r_method r1 -> r_pattern r2 = r_pattern r1 ->
  select_route (l1 ++ r1 :: r2 :: l3) req = select_route (l1 ++ r1 :: l3) req.
Proof.
  intros Hm Hp. induction l1 as [|r l1 IH]; simpl.
  - rewrite Hm, Hp.
    destruct (method_eqb (r_method r1) (req_method req)); [|reflexivity].
    destruct (match_path (r_pattern r1) (req_path req)); reflexivity.
  - rewrite IH. reflexivity.
Qed.

(** Two routes with the same method, path and behaviour can stand for each
    other. *)
Lemma dispatch_swap l1 r1 r2 l3 req w :
  r_method r2 = r_method r1 -> r_pattern r2 = r_pattern r1 ->
  (forall rq, run_stack (r_stack r2) rq w = run_stack (r_stack r1) rq w) ->
  dispatch (l1 ++ r2 :: l3) req w = dispatch (l1 ++ r1 :: l3) req w.
Proof.
  intros Hm Hp Hs. unfold dispatch. induction l1 as [|r l1 IH]; simpl.
  - rewrite Hm, Hp.
    destruct (method_eqb (r_method r1) (req_method req)); [|reflexivity].
    destruct (match_path (r_pattern r1) (req_path req)); [apply Hs|reflexivity].
  - destruct (method_eqb (r_method r) (req_method req)); [|exact IH].
    destruct (match_path (r_pattern r) (req_path req)); [reflexivity|exact IH].
Qed.

(** C9. The two registerDevice handlers are the same function of the
    caller, the request and the world (same user lookup, same upsert keyed
    on [token], same answer), and the application with both routes behaves
    as the application with either one of them alone. *)
Theorem register_device_routes_are_one_endpoint (h : host) :
  (forall user req w,
     Gateway.registerDevice' h user req w = Gateway.registerDevice h user req w) /\
  (forall req w,
     Gateway.app h req w
     = dispatch (firstn 7 (Gateway.routes h) ++ skipn 8 (Gateway.routes h)) req w) /\
  (forall req w,
     Gateway.app h req w
     = dispatch (firstn 6 (Gateway.routes h) ++ skipn 7 (Gateway.routes h)) req w).
Proof.
  split; [reflexivity|].
  assert (A : forall req w,
            Gateway.app h req w
            = dispatch (firstn 7 (Gateway.routes h) ++ skipn 8 (Gateway.routes h)) req w).
  { intros req w. unfold Gateway.app, dispatch.
    change (Gateway.routes h)
      with (firstn 6 (Gateway.routes h)
            ++ mkRoute POST ["api"; "registerDevice"]
                       (Authed (Gateway.verifyToken h) (Gateway.registerDevice h))
            :: mkRoute POST ["api"; "registerDevice"]
                       (Authed (Gateway.verifyToken h) (Gateway.registerDevice' h))
            :: skipn 8 (Gateway.routes h)) at 1.
    rewrite select_route_shadow by reflexivity. reflexivity. }
  split; [exact A|].
  intros req w. rewrite A.
  change (firstn 7 (Gateway.routes h) ++ skipn 8 (Gateway.routes h))
    with (firstn 6 (Gateway.routes h)
          ++ mkRoute POST ["api"; "registerDevice"]
                     (Authed (Gateway.verifyToken h) (Gateway.registerDevice h))
          :: skipn 8 (Gateway.routes h)).
  change (firstn 6 (Gateway.routes h) ++ skipn 7 (Gateway.routes h))
    with (firstn 6 (Gateway.routes h)
          ++ mkRoute POST ["api"; "registerDevice"]
                     (Authed (Gateway.verifyToken h) (Gateway.registerDevice' h))
          :: skipn 8 (Gateway.routes h)).
  symmetry. apply dispatch_swap; reflexivity.
Qed.

(* ------------------------------------------------------------------------- *)
(** ** Which handlers resolve the internal user id *)

Lemma skipn_calls {A} (l a : list A) : skipn (length l) (l ++ a) = a.
Proof. induction l; simpl; auto. Qed.

Lemma scoped_implies_resolved seen cs :
  scoped_to_user seen cs = true -> resolves_first (isSome seen) cs = true.
Proof.
  revert seen. induction cs as [|c cs IH]; intro seen;
    cbn [scoped_to_user resolves_first]; [reflexivity|].
  destruct c as [q res| |]; try apply IH.
  destruct (resource_table (q_from q)).
  - destruct seen as [i|]; [|discriminate]. cbn [isSome andb].
    intro H. apply andb_prop in H. destruct H as [H1 H2].
    apply andb_prop in H1. destruct H1 as [_ H1]. rewrite H1. cbn [andb].
    now apply (IH (Some i)).
  - intro H. apply IH in H.
    destruct (resolved_id (StoreCall q res)); destruct seen; cbn [isSome orb] in *; auto.
Qed.

Ltac trace_cases h w :=
  unfold trace_of, try_catch, bind, run;
  match goal with
  | |- context [answer h ?q (db w)] =>
      let u := fresh "u" in
      let d := fresh "d" in
      destruct (answer h q (db w)) as [u d]; cbn [db error data];
      destruct u as [udata [uerr|]]; cbn [error data isSome orb negb];
      [ | destruct udata; cbn [present negb] ]
  end;
  repeat match goal with
         | |- context [answer h ?q ?d] =>
             let r := fresh "r" in
             let d' := fresh "d" in
             destruct (answer h q d) as [r d']; cbn [db error data];
             destruct (error r)
         end;
  cbn [ret throw res_json res_status_json snd calls];
  rewrite <- ?app_assoc; rewrite skipn_calls;
  cbv -[jsval_eqb]; rewrite ?jsval_eqb_refl; reflexivity.

(** C4 (as amended). In the gateway of part_000 every handler that works
    on vehicles, devices or reminders first looks the internal user id up
    by the external identity id, and then touches those tables only with a
    query keyed on that internal id that never names the external id.  The
    two document handlers are different: they reach [documents] by the
    vehicle id of the URL and never look a user up. *)
Theorem resource_handlers_resolve_internal_id
    (h : host) (user : claims) (req : request) (w : world) :
  (forall handler,
     In handler [Gateway.createVehicle h; Gateway.getVehicles h;
                 Gateway.registerDevice h; Gateway.registerDevice' h;
                 Gateway.getReminders h; Gateway.createReminder h;
                 Gateway.updateReminder h; Gateway.deleteReminder h] ->
     scoped_to_user None (trace_of (handler user req) w) = true /\
     resolves_first false (trace_of (handler user req) w) = true) /\
  (forall handler,
     In handler [Gateway.listDocuments h; Gateway.uploadDocument h] ->
     existsb on_users (trace_of (handler user req) w) = false).
Proof.
  split.
  - intros handler Hin.
    assert (S : scoped_to_user None (trace_of (handler user req) w) = true).
    { simpl in Hin.
      repeat (destruct Hin as [<- | Hin]); try contradiction;
        unfold Gateway.createVehicle, Gateway.getVehicles, Gateway.registerDevice,
               Gateway.registerDevice', Gateway.getReminders, Gateway.createReminder,
               Gateway.updateReminder, Gateway.deleteReminder; cbv zeta;
        try (destruct (negb (truthy (get "token" (req_body req))));
             [unfold trace_of, res_status_json, ret; cbn [snd];
              rewrite <- (app_nil_r (calls w)) at 2; rewrite skipn_calls; reflexivity|]);
        try (destruct (truthy (get "vehicleId" (req_query req))));
        trace_cases h w. }
    split; [exact S|]. exact (scoped_implies_resolved None _ S).
  - intros handler Hin. simpl in Hin.
    destruct Hin as [<- | [<- | []]].
    + unfold Gateway.listDocuments, trace_of, try_catch, bind, run.
      destruct (answer h _ (db w)) as [r d]. cbn [error]. destruct (error r);
        cbn [ret throw res_json res_status_json snd calls];
        rewrite skipn_calls; reflexivity.
    + unfold Gateway.uploadDocument.
      destruct (req_file req) as [file|].
      * unfold trace_of, try_catch, bind, storage_upload, run.
        destruct (match storage_fault h _ with Some e => Some e | None => _ end);
          cbn [ret throw res_json res_status_json snd calls db].
        -- rewrite skipn_calls. reflexivity.
        -- destruct (answer h _ (db w)) as [r d]. cbn [error]. destruct (error r);
             cbn [ret throw res_json res_status_json snd calls];
             rewrite <- app_assoc; rewrite skipn_calls; reflexivity.
      * unfold trace_of, res_status_json, ret. cbn [snd].
        rewrite <- (app_nil_r (calls w)) at 2. rewrite skipn_calls. reflexivity.
Qed.

(** C4 as stated fails: the upload handler inserts into [documents]
    without any lookup in [users]. *)
Lemma upload_reaches_documents_without_lookup :
  let t := trace_of (Gateway.app sample_host sample_upload) sample_world in
  (exists q res, In (StoreCall q res) t /\ q_from q = documents) /\
  existsb on_users t = false /\
  resolves_first false t = false.
Proof.
  split; [|split]; [|vm_compute; reflexivity..].
  vm_compute. do 2 eexists. split; [right; left; reflexivity|]. reflexivity.
Qed.

(** The older gateway and the notifier reach vehicles and devices by the
    external identity id itself. *)
Lemma legacy_and_notifier_use_external_id :
  resolves_first false
    (trace_of (Legacy.app sample_host
                 (sample_request POST ["api"; "vehicles"] (Some "Bearer tok-ana")
                                 [("make", JStr "VW")])) empty_world) = false /\
  names_external_id (Notifier.vehicle_query [("vehicle_id", JStr "2")]) = true /\
  names_external_id (Notifier.devices_query (JStr "ana")) = true.
Proof. split; [|split]; vm_compute; reflexivity. Qed.

(* ------------------------------------------------------------------------- *)
(** ** The expiration notifier *)

(** [ceil_div a DAY] is the least number of whole days that covers [a]. *)
Lemma ceil_div_spec a n :
  ceil_div a DAY = n <-> ((n - 1) * DAY < a <= n * DAY)%Z.
Proof.
  unfold ceil_div. assert (HD : (0 < DAY)%Z) by reflexivity.
  pose proof (Z.div_mod (- a) DAY ltac:(lia)) as Hdm.
  pose proof (Z.mod_pos_bound (- a) DAY HD) as Hb.
  split.
  - intros <-. nia.
  - intros [H1 H2].
    assert ((- a) / DAY = - n)%Z; [|lia].
    symmetry. apply (Z.div_unique_pos (- a) DAY (- n) (n * DAY - a)); lia.
Qed.

Lemma includes_targets n :
  Notifier.includes Notifier.targets (Some n)
  = ((n =? 30) || (n =? 15) || (n =? 7))%Z.
Proof. unfold Notifier.includes, Notifier.targets. simpl. now rewrite orb_false_r, orb_assoc. Qed.

Lemma vehicle_exec doc d :
  exec_ok (Notifier.vehicle_query doc) d
  = (match owner_of d doc with
     | Some fuid => mkResult (DRow [("firebase_uid", fuid)]) None
     | None => mkResult DNull (Some not_single)
     end, d).
Proof.
  unfold exec_ok, apply_verb, owner_of, Notifier.vehicle_query. simpl.
  replace (filter (matches [Eq "id" (get "vehicle_id" doc)]) (t_vehicles d))
    with (filter (holds (Eq "id" (get "vehicle_id" doc))) (t_vehicles d)).
  2:{ apply filter_ext. intro r. unfold matches. simpl. now rewrite andb_true_r. }
  destruct (filter _ (t_vehicles d)) as [|v [|v' vs]]; reflexivity.
Qed.

Lemma truthy_tokens (l : list row) :
  filter truthy (map (get "token") (map (project (Some ["token"])) l))
  = filter truthy (map (get "token") l).
Proof.
  induction l as [|r l IH]; [reflexivity|].
  cbn [map filter]. rewrite IH.
  replace (get "token" (project (Some ["token"]) r))
    with (js_nullish (get "token" r) JNull) by reflexivity.
  destruct (get "token" r); reflexivity.
Qed.

Lemma devices_exec fuid d :
  exists rs,
    exec_ok (Notifier.devices_query fuid) d = (mkResult (DRows rs) None, d) /\
    filter truthy (map (get "token") rs) = tokens_of d fuid.
Proof.
  unfold exec_ok, apply_verb, tokens_of, Notifier.devices_query. simpl.
  eexists. split; [reflexivity|].
  rewrite truthy_tokens. do 2 f_equal.
  apply filter_ext. intro r. unfold matches. simpl. now rewrite andb_true_r.
Qed.




Lemma diffDays_of_expiry h doc expiry :
  getTime (get "expiry_date" doc) = Some expiry ->
  Notifier.diffDays h doc = Some (ceil_div (expiry - Notifier.startOfToday h) DAY).
Proof. intro H. unfold Notifier.diffDays. now rewrite H. Qed.




(* ------------------------------------------------------------------------- *)
(** ** Documents without a resolvable vehicle *)






(** Calendar days and the host zone.  A date column is read as midnight
    UTC while [startOfToday] is midnight of the host zone: on a host at or
    behind UTC the ceiling makes [diffDays] the difference of the calendar
    days; on a host ahead of UTC it is one more. *)
Lemma diffDays_by_calendar h doc s day :
  get "expiry_date" doc = JStr s -> parse_date s = Some day ->
  let off := (timezoneOffset h * 60000)%Z in
  let today := ((Date_now h - off) / DAY)%Z in
  ((0 <= off < DAY)%Z -> Notifier.diffDays h doc = Some (day - today)%Z) /\
  ((- DAY < off < 0)%Z -> Notifier.diffDays h doc = Some (day - today + 1)%Z).
Proof.
  intros Hs Hp off today.
  assert (G : getTime (get "expiry_date" doc) = Some (day * DAY)%Z).
  { rewrite Hs. unfold getTime. now rewrite Hp. }
  rewrite (diffDays_of_expiry h doc _ G).
  unfold Notifier.startOfToday. fold off. fold today.
  split; intro Hoff; f_equal; apply ceil_div_spec; unfold DAY in *; lia.
Qed.

(* ------------------------------------------------------------------------- *)
(** ** Further properties: the token, bypass mode, validation *)

Lemma split_on_word tok :
  no_space tok = true -> split_on " " tok = [tok].
Proof.
  induction tok as [|c tok IH]; [reflexivity|].
  unfold no_space. cbn [list_ascii_of_string forallb split_on].
  intro H. apply andb_prop in H. destruct H as [Hc Ht].
  apply negb_true_iff in Hc. rewrite Hc.
  fold (no_space tok) in Ht. now rewrite (IH Ht).
Qed.

Lemma split_on_first_word tok more :
  no_space tok = true ->
  split_on " " (tok ++ String " " more)%string = tok :: split_on " " more.
Proof.
  induction tok as [|c tok IH].
  - intros _. reflexivity.
  - unfold no_space. cbn [list_ascii_of_string forallb split_on String.append].
    intro H. apply andb_prop in H. destruct H as [Hc Ht].
    apply negb_true_iff in Hc. rewrite Hc.
    fold (no_space tok) in Ht. now rewrite (IH Ht).
Qed.

Lemma prefix_of_append p s : String.prefix p (p ++ s)%string = true.
Proof.
  induction p as [|c p IH]; simpl.
  - now destruct s.
  - destruct (Ascii.ascii_dec c c); [exact IH|contradiction].
Qed.

(** X1. With the bypass flag off, the token handed to the identity
    provider is the second blank-separated word of the header: for
    ['Bearer <tok>'], with or without further words after it, [verifyToken]
    passes the request on with the claims the provider decodes from [tok]
    and answers 401 'Token inválido' when the provider rejects [tok]. *)
Theorem bearer_token_is_second_word
    (h : host) (req : request) (tok more : string) :
  env_is_true (SKIP_AUTH h) = false ->
  no_space tok = true ->
  authorization req = Some ("Bearer " ++ tok)%string \/
  authorization req = Some ("Bearer " ++ tok ++ String " " more)%string ->
  let verdict := match verifyIdToken h tok with
                 | Some decoded => Next decoded
                 | None => Reply token_invalid
                 end in
  Gateway.verifyToken h req = verdict /\ Legacy.verifyToken h req = verdict.
Proof.
  intros Hskip Htok Hauth.
  assert (E : exists auth, authorization req = Some auth /\
                           String.prefix "Bearer " auth = true /\
                           nth 1 (split_on " " auth) EmptyString = tok).
  { destruct Hauth as [Ha | Ha]; rewrite Ha; eexists; (split; [reflexivity|]).
    - split; [apply (prefix_of_append "Bearer " tok)|].
      cbn [String.append split_on Ascii.eqb Bool.eqb nth].
      now rewrite (split_on_word tok Htok).
    - split; [apply (prefix_of_append "Bearer " (tok ++ String " " more)%string)|].
      cbn [String.append split_on Ascii.eqb Bool.eqb nth].
      now rewrite (split_on_first_word tok more Htok). }
  destruct E as (auth & Ha & Hp & Hn).
  assert (T : truthy (JStr auth) = true).
  { destruct auth; [discriminate Hp|reflexivity]. }
  unfold Gateway.verifyToken, Legacy.verifyToken.
  rewrite Hskip, Ha, T, Hp, Hn. cbn [negb orb]. split; reflexivity.
Qed.

Lemma bearer_token_is_second_word_witness :
  Gateway.verifyToken sample_host
    (sample_request GET ["api"; "vehicles"] (Some "Bearer tok-ana trailing") [])
  = Next (mkClaims "ana" (JStr "ana@example.org") (JStr "Ana")).
Proof.
  exact (proj1 (bearer_token_is_second_word sample_host
                  (sample_request GET ["api"; "vehicles"]
                                  (Some "Bearer tok-ana trailing") [])
                  "tok-ana" "trailing" eq_refl eq_refl (or_intror eq_refl))).
Defined.

(** X2. In bypass mode ([SKIP_AUTH] is 'true') every route behind
    [verifyToken], in both gateways, runs its handler as the development
    identity, whose uid is [DEV_UID] or 'dev-uid' when that is unset or
    empty, whatever the Authorization header holds and whatever the
    identity provider would say. *)
Theorem bypass_runs_handler_as_dev_identity
    (h : host) (req : request) (w : world) (r : route) :
  env_is_true (SKIP_AUTH h) = true ->
  In r (Gateway.routes h ++ Legacy.routes h) ->
  is_protected r = true ->
  exists auth handler,
    r_stack r = Authed auth handler /\
    run_stack (r_stack r) req w = handler (dev_identity h) req w /\
    (uid (dev_identity h) = "dev-uid" \/ DEV_UID h = Some (uid (dev_identity h))).
Proof.
  intros Hskip Hin Hp.
  assert (U : uid (dev_identity h) = "dev-uid" \/ DEV_UID h = Some (uid (dev_identity h))).
  { unfold dev_identity, env_or. cbn [uid].
    destruct (DEV_UID h) as [s|]; [|now left].
    destruct (s =? EmptyString); [now left|now right]. }
  apply in_app_or in Hin. destruct Hin as [Hin | Hin].
  - destruct (protected_gateway_route h r Hin Hp) as [handler E].
    exists (Gateway.verifyToken h), handler. rewrite E. split; [reflexivity|].
    split; [|exact U]. cbn [run_stack]. unfold Gateway.verifyToken. now rewrite Hskip.
  - destruct (protected_legacy_route h r Hin Hp) as [handler E].
    exists (Legacy.verifyToken h), handler. rewrite E. split; [reflexivity|].
    split; [|exact U]. cbn [run_stack]. unfold Legacy.verifyToken. now rewrite Hskip.
Qed.

Lemma bypass_runs_handler_as_dev_identity_witness :
  let req := sample_request POST ["api"; "registerUser"] None [] in
  let r := mkRoute POST ["api"; "registerUser"]
                   (Authed (Gateway.verifyToken bypass_host)
                           (Gateway.registerUser bypass_host)) in
  exists auth handler,
    r_stack r = Authed auth handler /\
    run_stack (r_stack r) req empty_world
      = handler (dev_identity bypass_host) req empty_world /\
    (uid (dev_identity bypass_host) = "dev-uid" \/
     DEV_UID bypass_host = Some (uid (dev_identity bypass_host))).
Proof.
  exact (bypass_runs_handler_as_dev_identity bypass_host
           (sample_request POST ["api"; "registerUser"] None []) empty_world
           (mkRoute POST ["api"; "registerUser"]
              (Authed (Gateway.verifyToken bypass_host)
                      (Gateway.registerUser bypass_host)))
           eq_refl (or_intror (or_introl eq_refl)) eq_refl).
Defined.

(** X3. Validation comes before any external call: an upload without a
    file is answered 400 'file required' and a registerDevice without a
    truthy token is answered 400 'token required', in both gateways, and the
    world (tables, bucket, call log) is exactly as before. *)
Theorem invalid_input_is_refused_before_any_call
    (h : host) (user : claims) (req : request) (w : world) :
  (req_file req = None ->
   Gateway.uploadDocument h user req w
     = (Returned (mkRes 400 [("error", Scalar (JStr "file required"))]), w) /\
   Legacy.uploadDocument h user req w
     = (Returned (mkRes 400 [("error", Scalar (JStr "file required"))]), w)) /\
  (truthy (get "token" (req_body req)) = false ->
   Gateway.registerDevice h user req w
     = (Returned (mkRes 400 [("error", Scalar (JStr "token required"))]), w) /\
   Legacy.registerDevice h user req w
     = (Returned (mkRes 400 [("error", Scalar (JStr "token required"))]), w)).
Proof.
  split.
  - intro Hf. unfold Gateway.uploadDocument, Legacy.uploadDocument. rewrite Hf.
    split; reflexivity.
  - intro Ht. unfold Gateway.registerDevice, Legacy.registerDevice. rewrite Ht.
    split; reflexivity.
Qed.

Lemma invalid_input_is_refused_before_any_call_witness :
  Gateway.registerDevice sample_host (mkClaims "ana" JUndefined JUndefined)
    (sample_request POST ["api"; "registerDevice"] (Some "Bearer tok-ana")
                    [("token", JStr EmptyString)]) sample_world
  = (Returned (mkRes 400 [("error", Scalar (JStr "token required"))]), sample_world).
Proof.
  exact (proj1 (proj2 (invalid_input_is_refused_before_any_call sample_host
                         (mkClaims "ana" JUndefined JUndefined)
                         (sample_request POST ["api"; "registerDevice"]
                            (Some "Bearer tok-ana") [("token", JStr EmptyString)])
                         sample_world) eq_refl)).
Defined.

(* ------------------------------------------------------------------------- *)
(** ** Further properties: every request is answered, failures write nothing *)

Lemma answer_error_keeps h q d e :
  error (fst (answer h q d)) = Some e -> snd (answer h q d) = d.
Proof.
  unfold answer. destruct (store_fault h q); [reflexivity|].
  unfold exec_ok. destruct (apply_verb q d) as [out d'].
  destruct (q_single q).
  - destruct out as [|r [|r' rs]]; simpl; try reflexivity. discriminate.
  - destruct (q_returning q); simpl; discriminate.
Qed.

Lemma careful_ret res :
  In (status res) statuses -> status res <> 200%nat -> careful (ret res).
Proof. intros H1 H2 w. simpl. auto. Qed.

Lemma careful_throw e : careful (throw e).
Proof. intro w. reflexivity. Qed.

Lemma careful_tail h q (b : result -> list (string * jvalue)) :
  careful (r <- run h q ;;
           match error r with
           | Some e => throw e
           | None => res_json (b r)
           end).
Proof.
  intro w. unfold bind, run.
  pose proof (answer_error_keeps h q (db w)) as K.
  destruct (answer h q (db w)) as [r d']. cbn [fst snd] in K.
  destruct (error r) as [e|]; cbn.
  - exact (K e eq_refl).
  - split; [unfold statuses; simpl; tauto|]. intro H. now contradiction H.
Qed.

Lemma careful_after_select h q cols (k : result -> M response) :
  q_verb q = Select cols -> (forall r, careful (k r)) ->
  careful (bind (run h q) k).
Proof.
  intros Hq Hk w. unfold bind, run.
  pose proof (answer_select h q (db w) cols Hq) as S.
  destruct (answer h q (db w)) as [r d']. cbn [snd] in S. subst d'.
  specialize (Hk r (mkWorld (db w) (bucket w) (sent w) (console w)
                            (calls w ++ [StoreCall q r]))).
  exact Hk.
Qed.

Lemma careful_after_upload h path f (k : option store_error -> M response) :
  (forall up, careful (k up)) -> careful (bind (storage_upload h path f) k).
Proof.
  intros Hk w. unfold bind, storage_upload.
  match goal with
  | |- context [k ?up ?w1] => exact (Hk up w1)
  end.
Qed.

(** A [try]/[catch] around a careful body always answers. *)
Lemma try_catch_answers (m : M response) w :
  careful m ->
  exists res w',
    try_catch m (fun e => res_status_json 500 [("error", message_or_self e)]) w
    = (Returned res, w') /\
    In (status res) statuses /\ (status res <> 200%nat -> db w' = db w).
Proof.
  intro Hm. unfold try_catch. specialize (Hm w).
  destruct (m w) as [[res|e] w'].
  - exists res, w'. split; [reflexivity|]. exact Hm.
  - eexists. eexists. split; [reflexivity|]. split; [unfold statuses; simpl; tauto|].
    intros _. exact Hm.
Qed.

Ltac careful_body :=
  repeat first
    [ apply careful_tail
    | eapply careful_after_select; [reflexivity | intro]
    | apply careful_after_upload; intro
    | apply careful_throw
    | apply careful_ret; [unfold statuses; simpl; tauto | discriminate]
    | match goal with
      | |- careful (if ?c then _ else _) => destruct c
      | |- careful (match ?o with Some _ => _ | None => _ end) => destruct o
      | |- careful (bind (run _ (if ?c then _ else _)) _) => destruct c
      end ].

Lemma refused_is_401 verdict_of (req : request) res :
  (verdict_of req = Reply res) ->
  (verdict_of req = Reply no_token \/ verdict_of req = Reply token_invalid) ->
  status res = 401%nat.
Proof.
  intros E [H | H]; rewrite H in E; injection E as <-; reflexivity.
Qed.

Lemma gateway_verifyToken_cases h req :
  (exists user, Gateway.verifyToken h req = Next user) \/
  Gateway.verifyToken h req = Reply no_token \/
  Gateway.verifyToken h req = Reply token_invalid.
Proof.
  unfold Gateway.verifyToken.
  destruct (env_is_true (SKIP_AUTH h)); [left; eauto|].
  destruct (authorization req) as [auth|]; [|auto].
  destruct (negb (truthy (JStr auth)) || negb (String.prefix "Bearer " auth)); [auto|].
  destruct (verifyIdToken h _); [left; eauto|auto].
Qed.

Lemma legacy_verifyToken_cases h req :
  (exists user, Legacy.verifyToken h req = Next user) \/
  Legacy.verifyToken h req = Reply no_token \/
  Legacy.verifyToken h req = Reply token_invalid.
Proof.
  unfold Legacy.verifyToken.
  destruct (env_is_true (SKIP_AUTH h)); [left; eauto|].
  destruct (authorization req) as [auth|]; [|auto].
  destruct (negb (truthy (JStr auth)) || negb (String.prefix "Bearer " auth)); [auto|].
  destruct (verifyIdToken h _); [left; eauto|auto].
Qed.

Ltac answer_now :=
  eexists; eexists; split; [reflexivity|];
  split; [unfold statuses; simpl; tauto|]; intros _; reflexivity.

Lemma gateway_handlers_answer h user req w handler :
  In handler [Gateway.registerUser h; Gateway.createVehicle h; Gateway.getVehicles h;
              Gateway.listDocuments h; Gateway.uploadDocument h;
              Gateway.registerDevice h; Gateway.registerDevice' h;
              Gateway.getReminders h; Gateway.createReminder h;
              Gateway.updateReminder h; Gateway.deleteReminder h] ->
  exists res w',
    handler user req w = (Returned res, w') /\
    In (status res) statuses /\ (status res <> 200%nat -> db w' = db w).
Proof.
  intro Hin. simpl in Hin.
  repeat match type of Hin with
         | _ \/ _ => destruct Hin as [E | Hin]; [subst handler|]
         | False => destruct Hin
         end;
    unfold Gateway.registerUser, Gateway.createVehicle, Gateway.getVehicles,
           Gateway.listDocuments, Gateway.uploadDocument, Gateway.registerDevice,
           Gateway.registerDevice', Gateway.getReminders, Gateway.createReminder,
           Gateway.updateReminder, Gateway.deleteReminder; cbv zeta;
    try (destruct (negb (truthy (get "token" (req_body req)))); [answer_now|]);
    try (destruct (req_file req); [|answer_now]);
    apply try_catch_answers; careful_body.
Qed.

Lemma legacy_handlers_answer h user req w handler :
  In handler [Legacy.registerUser h; Legacy.createVehicle h;
              Legacy.listDocuments h; Legacy.uploadDocument h;
              Legacy.registerDevice h] ->
  exists res w',
    handler user req w = (Returned res, w') /\
    In (status res) statuses /\ (status res <> 200%nat -> db w' = db w).
Proof.
  intro Hin. simpl in Hin.
  repeat match type of Hin with
         | _ \/ _ => destruct Hin as [E | Hin]; [subst handler|]
         | False => destruct Hin
         end;
    unfold Legacy.registerUser, Legacy.createVehicle, Legacy.listDocuments,
           Legacy.uploadDocument, Legacy.registerDevice; cbv zeta;
    try (destruct (negb (truthy (get "token" (req_body req)))); [answer_now|]);
    try (destruct (req_file req); [|answer_now]);
    apply try_catch_answers; careful_body.
Qed.

(** X4. Both gateways answer every request: no exception escapes a
    handler, the status is one of 200, 400, 401, 404 and 500, and whenever
    the status is not 200 the tables are exactly as they were before the
    request (a failed request writes no row). *)
Theorem every_request_is_answered (h : host) (req : request) (w : world) :
  (exists res w',
     Gateway.app h req w = (Returned res, w') /\
     In (status res) statuses /\ (status res <> 200%nat -> db w' = db w)) /\
  (exists res w',
     Legacy.app h req w = (Returned res, w') /\
     In (status res) statuses /\ (status res <> 200%nat -> db w' = db w)).
Proof.
  split.
  - unfold Gateway.app, dispatch.
    destruct (select_route (Gateway.routes h) req) as [[r ps]|] eqn:S; [|answer_now].
    apply select_route_In in S. unfold Gateway.routes in S.
    repeat match type of S with
           | In _ (_ :: _) => destruct S as [E | S]; [subst r|]
           | In _ [] => destruct S
           end;
      cbn [run_stack r_stack];
      try (unfold Gateway.health; answer_now);
      (destruct (gateway_verifyToken_cases h (with_params ps req))
        as [[user ->] | [-> | ->]]; [|answer_now|answer_now]);
      apply (gateway_handlers_answer h); simpl; tauto.
  - unfold Legacy.app, dispatch.
    destruct (select_route (Legacy.routes h) req) as [[r ps]|] eqn:S; [|answer_now].
    apply select_route_In in S. unfold Legacy.routes in S.
    repeat match type of S with
           | In _ (_ :: _) => destruct S as [E | S]; [subst r|]
           | In _ [] => destruct S
           end;
      cbn [run_stack r_stack];
      try (unfold Legacy.health; answer_now);
      (destruct (legacy_verifyToken_cases h (with_params ps req))
        as [[user ->] | [-> | ->]]; [|answer_now|answer_now]);
      apply (legacy_handlers_answer h); simpl; tauto.
Qed.

(* ------------------------------------------------------------------------- *)
(** ** Further properties: rows, reads, ordering *)

Lemma get_absent k r : ~ In k (map fst r) -> get k r = JUndefined.
Proof.
  induction r as [|[k' v] r IH]; simpl; [reflexivity|].
  intro H. destruct (String.eqb_spec k' k) as [->|Hne].
  - exfalso. apply H. now left.
  - apply IH. intro Hin. apply H. now right.
Qed.

(** Serialising a row with distinct keys does not change what [get] reads. *)
Lemma get_stringify k l :
  NoDup (map fst l) -> get k (stringify l) = get k l.
Proof.
  induction l as [|[k' v] l IH]; [reflexivity|].
  intro Hnd. inversion Hnd as [|? ? Hnotin Hnd']; subst.
  unfold stringify in *. cbn [filter snd get].
  destruct (String.eqb_spec k' k) as [->|Hne].
  - destruct v; cbn [is_undefined negb get]; rewrite ?String.eqb_refl; try reflexivity.
    rewrite (IH Hnd'). now apply get_absent.
  - destruct (is_undefined v); cbn [negb get].
    + exact (IH Hnd').
    + destruct (String.eqb_spec k' k); [contradiction|]. exact (IH Hnd').
Qed.

(** Writing a serialised row over another: the fields it defines win, the
    others stay. *)
Lemma get_merge k r l :
  NoDup (map fst l) ->
  get k (merge r (stringify l))
  = if is_undefined (get k l) then get k r else get k l.
Proof.
  revert r. induction l as [|[k' v] l IH]; intros r Hnd; [reflexivity|].
  inversion Hnd as [|? ? Hnotin Hnd']; subst.
  assert (S : stringify ((k', v) :: l)
              = if is_undefined v then stringify l else (k', v) :: stringify l).
  { unfold stringify. cbn [filter snd]. now destruct (is_undefined v). }
  rewrite S. cbn [get].
  destruct (is_undefined v) eqn:U.
  - rewrite (IH r Hnd').
    destruct (String.eqb_spec k' k) as [->|Hne]; [|reflexivity].
    rewrite (get_absent k l Hnotin), U. reflexivity.
  - change (merge r ((k', v) :: stringify l))
      with (merge (set_field k' v r) (stringify l)).
    rewrite (IH (set_field k' v r) Hnd').
    destruct (String.eqb_spec k' k) as [->|Hne].
    + rewrite (get_absent k l Hnotin). cbn [is_undefined].
      rewrite U. apply get_set_field_same.
    + now rewrite (get_set_field_other k k' v r Hne).
Qed.

Lemma get_new_row k d l :
  NoDup (map fst l) -> k <> "id" -> get k (new_row d l) = get k l.
Proof.
  intros Hnd Hk. unfold new_row. cbn [get].
  destruct (String.eqb_spec "id" k) as [E|_]; [congruence|].
  now apply get_stringify.
Qed.

Lemma internal_id_is_defined d fuid me :
  internal_id d fuid = Some me -> is_undefined me = false.
Proof.
  unfold internal_id. destruct (filter _ _) as [|u [|u' us]]; try discriminate.
  intro H. injection H as <-. now destruct (get "id" u).
Qed.

Ltac nodup_keys :=
  cbn [map fst]; repeat constructor; simpl; intuition discriminate.

(** *** Reads leave everything but the call log alone *)

Lemma untouched_refl w : untouched w w.
Proof. repeat split. Qed.

Lemma untouched_trans w1 w2 w3 :
  untouched w1 w2 -> untouched w2 w3 -> untouched w1 w3.
Proof. unfold untouched. intros (A & B & C) (A' & B' & C'). repeat split; congruence. Qed.

Lemma run_select_untouched h q cols :
  q_verb q = Select cols -> keeps untouched (run h q).
Proof.
  intros Hq w. unfold untouched, run.
  pose proof (answer_select h q (db w) cols Hq) as H.
  destruct (answer h q (db w)) as [res d']. simpl in *. now subst.
Qed.

Ltac frame_untouched :=
  repeat first
    [ apply (keeps_ret untouched untouched_refl)
    | apply (keeps_throw untouched untouched_refl)
    | apply (keeps_try_catch untouched untouched_trans); [ | intro ]
    | apply (keeps_bind untouched untouched_trans); [ | intro ]
    | eapply run_select_untouched; reflexivity
    | match goal with
      | |- keeps _ (if ?c then _ else _) => destruct c
      | |- keeps _ (match ?o with Some _ => _ | None => _ end) => destruct o
      | |- keeps _ (res_json _) => unfold res_json
      | |- keeps _ (res_status_json _ _) => unfold res_status_json
      | |- keeps _ (run _ (if ?c then _ else _)) => destruct c
      end ].

Lemma select_route_method rs req r ps :
  select_route rs req = Some (r, ps) -> r_method r = req_method req.
Proof.
  induction rs as [|r0 rs IH]; simpl; [discriminate|].
  destruct (method_eqb (r_method r0) (req_method req)) eqn:M.
  - destruct (match_path (r_pattern r0) (req_path req)).
    + intro E. injection E as <- _.
      destruct (r_method r0), (req_method req); try discriminate; reflexivity.
    + exact IH.
  - exact IH.
Qed.

(** X5. A GET request never changes the store: whatever the request, the
    caller and the failures of the services, both gateways leave the
    tables, the bucket and the sent notifications as they were. *)
Theorem get_requests_write_nothing (h : host) (req : request) (w : world) :
  req_method req = GET ->
  untouched w (snd (Gateway.app h req w)) /\
  untouched w (snd (Legacy.app h req w)).
Proof.
  intro Hget. split.
  - unfold Gateway.app, dispatch.
    destruct (select_route (Gateway.routes h) req) as [[r ps]|] eqn:S;
      [|apply untouched_refl].
    pose proof (select_route_method _ _ _ _ S) as M. rewrite Hget in M.
    apply select_route_In in S. unfold Gateway.routes in S.
    repeat match type of S with
           | In _ (_ :: _) => destruct S as [E | S]; [subst r|]
           | In _ [] => destruct S
           end; try discriminate M;
      cbn [run_stack r_stack]; try apply untouched_refl;
      (destruct (Gateway.verifyToken h (with_params ps req)) as [user|res];
       [|apply untouched_refl]);
      match goal with
      | |- untouched w (snd (?m w)) => revert w; change (keeps untouched m)
      end;
      unfold Gateway.getVehicles, Gateway.listDocuments, Gateway.getReminders;
      cbv zeta; frame_untouched.
  - unfold Legacy.app, dispatch.
    destruct (select_route (Legacy.routes h) req) as [[r ps]|] eqn:S;
      [|apply untouched_refl].
    pose proof (select_route_method _ _ _ _ S) as M. rewrite Hget in M.
    apply select_route_In in S. unfold Legacy.routes in S.
    repeat match type of S with
           | In _ (_ :: _) => destruct S as [E | S]; [subst r|]
           | In _ [] => destruct S
           end; try discriminate M;
      cbn [run_stack r_stack]; try apply untouched_refl;
      (destruct (Legacy.verifyToken h (with_params ps req)) as [user|res];
       [|apply untouched_refl]);
      match goal with
      | |- untouched w (snd (?m w)) => revert w; change (keeps untouched m)
      end;
      unfold Legacy.listDocuments; cbv zeta; frame_untouched.
Qed.

Lemma get_requests_write_nothing_witness :
  untouched sample_world
    (snd (Gateway.app host_store_down
            (sample_request GET ["api"; "reminders"] (Some "Bearer tok-ana") [])
            sample_world)).
Proof.
  exact (proj1 (get_requests_write_nothing host_store_down
                  (sample_request GET ["api"; "reminders"] (Some "Bearer tok-ana") [])
                  sample_world eq_refl)).
Defined.

(* ------------------------------------------------------------------------- *)
(** ** Further properties: vehicles *)

Lemma matches_one f r : matches [f] r = holds f r.
Proof. unfold matches. simpl. apply andb_true_r. Qed.

Lemma matches_two f g r : matches [f; g] r = holds f r && holds g r.
Proof. unfold matches. simpl. now rewrite andb_true_r. Qed.

Lemma getVehicles_ok h user req w me :
  no_faults h -> internal_id (db w) (uid user) = Some me ->
  exists w',
    Gateway.getVehicles h user req w
    = (Returned (mkRes 200 [ok_true;
                            ("vehicles", Array (filter (mine me) (t_vehicles (db w))))]),
       w') /\
    untouched w w'.
Proof.
  intros Hnf Hme. unfold Gateway.getVehicles, try_catch, bind.
  rewrite (lookup_run h w (uid user) me Hnf Hme).
  cbn [error data isSome present negb orb field get String.eqb Ascii.eqb Bool.eqb].
  unfold run. rewrite answer_no_fault by assumption.
  unfold exec_ok, apply_verb. cbn -[matches filter].
  rewrite map_id.
  rewrite (filter_ext (matches [Eq "user_id" me]) (mine me))
    by (intro r; apply matches_one).
  eexists. split; [reflexivity|]. repeat split.
Qed.

Lemma mine_iff me r :
  is_value me = true -> (mine me r = true <-> get "user_id" r = me).
Proof.
  intro V. split.
  - apply holds_Eq_true.
  - intro E. unfold mine, holds. rewrite E.
    destruct me; try discriminate V; apply jsval_eqb_refl.
Qed.

(** X6. The vehicle list of part_000 is exactly the caller's vehicles: for
    a registered caller and a store that answers, [GET /api/vehicles]
    returns, in table order, the rows of [vehicles] whose [user_id] is the
    caller's internal id and no other row, and changes nothing. *)
Theorem vehicle_list_is_the_callers
    (h : host) (user : claims) (req : request) (w : world) (me : jsval) :
  no_faults h ->
  internal_id (db w) (uid user) = Some me ->
  is_value me = true ->
  exists vs w',
    Gateway.getVehicles h user req w
    = (Returned (mkRes 200 [ok_true; ("vehicles", Array vs)]), w') /\
    vs = filter (mine me) (t_vehicles (db w)) /\
    (forall v, In v vs <-> In v (t_vehicles (db w)) /\ get "user_id" v = me) /\
    untouched w w'.
Proof.
  intros Hnf Hme V.
  destruct (getVehicles_ok h user req w me Hnf Hme) as (w' & E & U).
  exists (filter (mine me) (t_vehicles (db w))), w'.
  split; [exact E|]. split; [reflexivity|]. split; [|exact U].
  intro v. rewrite filter_In, (mine_iff me v V). reflexivity.
Qed.

Lemma vehicle_list_is_the_callers_witness :
  exists vs w',
    Gateway.getVehicles sample_host (mkClaims "bob" JUndefined JUndefined)
      (sample_request GET ["api"; "vehicles"] (Some "Bearer tok-bob") []) sample_world
    = (Returned (mkRes 200 [ok_true; ("vehicles", Array vs)]), w') /\
    vs = filter (mine (JStr "4")) (t_vehicles (db sample_world)) /\
    (forall v, In v vs <->
               In v (t_vehicles (db sample_world)) /\ get "user_id" v = JStr "4") /\
    untouched sample_world w'.
Proof.
  refine (vehicle_list_is_the_callers sample_host (mkClaims "bob" JUndefined JUndefined)
            (sample_request GET ["api"; "vehicles"] (Some "Bearer tok-bob") [])
            sample_world (JStr "4") _ _ _).
  - intro q. reflexivity.
  - vm_compute. reflexivity.
  - reflexivity.
Defined.

Lemma createVehicle_ok h user req w me :
  no_faults h -> internal_id (db w) (uid user) = Some me ->
  let v := new_row (db w)
             [("user_id", me);
              ("make", get "make" (req_body req));
              ("model", get "model" (req_body req));
              ("year", get "year" (req_body req));
              ("license_plate", get "license_plate" (req_body req));
              ("nickname", get "nickname" (req_body req))] in
  exists w',
    Gateway.createVehicle h user req w
    = (Returned (mkRes 200 [ok_true; ("vehicle", Object v)]), w') /\
    db w' = bump_id (set_rows vehicles (t_vehicles (db w) ++ [v]) (db w)) /\
    bucket w' = bucket w.
Proof.
  intros Hnf Hme v. unfold Gateway.createVehicle, try_catch, bind.
  rewrite (lookup_run h w (uid user) me Hnf Hme).
  cbn [error data isSome present negb orb field get String.eqb Ascii.eqb Bool.eqb].
  unfold run. rewrite answer_no_fault by assumption.
  rewrite insert_exec_ok. cbn [error data of_payload db bucket].
  eexists. split; [reflexivity|]. split; reflexivity.
Qed.

(** X7. Creating a vehicle and listing vehicles round-trip: for a
    registered caller and a store that answers, [POST /api/vehicles] adds
    one row whose owner is the caller's internal id, whatever the body says
    (a [user_id] or [id] field of the body is ignored), with the make,
    model, year, plate and nickname of the body; the next
    [GET /api/vehicles] of the same caller returns the vehicles listed
    before followed by the new one. *)
Theorem created_vehicle_is_listed
    (h : host) (user : claims) (req req' : request) (w : world) (me : jsval) :
  no_faults h ->
  internal_id (db w) (uid user) = Some me ->
  is_value me = true ->
  exists v w1 w2,
    Gateway.createVehicle h user req w
    = (Returned (mkRes 200 [ok_true; ("vehicle", Object v)]), w1) /\
    t_vehicles (db w1) = t_vehicles (db w) ++ [v] /\
    get "user_id" v = me /\
    (forall k, In k ["make"; "model"; "year"; "license_plate"; "nickname"] ->
               get k v = get k (req_body req)) /\
    Gateway.getVehicles h user req' w1
    = (Returned (mkRes 200 [ok_true;
         ("vehicles", Array (filter (mine me) (t_vehicles (db w)) ++ [v]))]), w2).
Proof.
  intros Hnf Hme V.
  destruct (createVehicle_ok h user req w me Hnf Hme) as (w1 & E & D & _).
  set (fields := [("user_id", me);
                  ("make", get "make" (req_body req));
                  ("model", get "model" (req_body req));
                  ("year", get "year" (req_body req));
                  ("license_plate", get "license_plate" (req_body req));
                  ("nickname", get "nickname" (req_body req))]) in *.
  assert (Hnd : NoDup (map fst fields)) by (unfold fields; nodup_keys).
  assert (Hv : get "user_id" (new_row (db w) fields) = me).
  { rewrite get_new_row by (auto; discriminate). reflexivity. }
  assert (Hme1 : internal_id (db w1) (uid user) = Some me).
  { unfold internal_id in *. rewrite D. destruct (db w); exact Hme. }
  destruct (getVehicles_ok h user req' w1 me Hnf Hme1) as (w2 & E2 & _).
  exists (new_row (db w) fields), w1, w2.
  split; [exact E|].
  assert (T : t_vehicles (db w1) = t_vehicles (db w) ++ [new_row (db w) fields]).
  { rewrite D. destruct (db w); reflexivity. }
  split; [exact T|]. split; [exact Hv|]. split.
  - intros k Hk. rewrite get_new_row; [|exact Hnd|].
    + simpl in Hk. unfold fields.
      repeat (destruct Hk as [<- | Hk]; [reflexivity|]). destruct Hk.
    + simpl in Hk. intro; subst k. intuition discriminate.
  - rewrite E2, T, filter_app. cbn [filter].
    rewrite (proj2 (mine_iff me _ V) Hv). reflexivity.
Qed.

Lemma created_vehicle_is_listed_witness :
  exists v w1 w2,
    Gateway.createVehicle sample_host (mkClaims "bob" JUndefined JUndefined)
      (sample_request POST ["api"; "vehicles"] (Some "Bearer tok-bob")
         [("make", JStr "Seat"); ("user_id", JStr "1")]) sample_world
    = (Returned (mkRes 200 [ok_true; ("vehicle", Object v)]), w1) /\
    t_vehicles (db w1) = t_vehicles (db sample_world) ++ [v] /\
    get "user_id" v = JStr "4" /\
    (forall k, In k ["make"; "model"; "year"; "license_plate"; "nickname"] ->
               get k v = get k [("make", JStr "Seat"); ("user_id", JStr "1")]) /\
    Gateway.getVehicles sample_host (mkClaims "bob" JUndefined JUndefined)
      (sample_request GET ["api"; "vehicles"] (Some "Bearer tok-bob") []) w1
    = (Returned (mkRes 200 [ok_true;
         ("vehicles",
          Array (filter (mine (JStr "4")) (t_vehicles (db sample_world)) ++ [v]))]), w2).
Proof.
  refine (created_vehicle_is_listed sample_host (mkClaims "bob" JUndefined JUndefined)
            (sample_request POST ["api"; "vehicles"] (Some "Bearer tok-bob")
               [("make", JStr "Seat"); ("user_id", JStr "1")])
            (sample_request GET ["api"; "vehicles"] (Some "Bearer tok-bob") [])
            sample_world (JStr "4") _ _ _).
  - intro q. reflexivity.
  - vm_compute. reflexivity.
  - reflexivity.
Defined.

(* ------------------------------------------------------------------------- *)
(** ** Further properties: ordered lists *)

Lemma insert_sorted_perm c r rs : Permutation (insert_sorted c r rs) (r :: rs).
Proof.
  induction rs as [|r' rs IH]; simpl; [reflexivity|].
  destruct (pg_leb (get c r) (get c r')); [reflexivity|].
  rewrite IH. apply perm_swap.
Qed.

Lemma sort_by_perm c rs : Permutation (sort_by c rs) rs.
Proof.
  induction rs as [|r rs IH]; simpl; [reflexivity|].
  unfold sort_by in *. simpl. rewrite insert_sorted_perm. now constructor.
Qed.

Lemma pg_leb_total_text a b s t :
  a = JStr s -> b = JStr t -> pg_leb a b = true \/ pg_leb b a = true.
Proof. intros -> ->. simpl. apply String.leb_total. Qed.

Lemma insert_sorted_hd c x r rs :
  pg_leb (get c x) (get c r) = true ->
  HdRel (fun a b => pg_leb (get c a) (get c b) = true) x rs ->
  HdRel (fun a b => pg_leb (get c a) (get c b) = true) x (insert_sorted c r rs).
Proof.
  intros Hxr Hhd. destruct rs as [|r' rs]; simpl.
  - now constructor.
  - destruct (pg_leb (get c r) (get c r')); constructor; auto.
    now inversion Hhd.
Qed.

Lemma insert_sorted_ascending c r rs :
  textual c (r :: rs) -> ascending c rs -> ascending c (insert_sorted c r rs).
Proof.
  unfold ascending. intros Ht Hs. induction Hs as [|r' rs Hs IH Hhd]; simpl.
  - repeat constructor.
  - destruct (pg_leb (get c r) (get c r')) eqn:L.
    + constructor; [now constructor|]. now constructor.
    + constructor.
      * apply IH. intros x Hx. apply Ht. simpl in *. tauto.
      * apply insert_sorted_hd; [|exact Hhd].
        destruct (Ht r (or_introl eq_refl)) as [s Es].
        destruct (Ht r' (or_intror (or_introl eq_refl))) as [t Et].
        destruct (pg_leb_total_text _ _ _ _ Es Et) as [H | H]; [congruence|exact H].
Qed.

Lemma sort_by_ascending c rs : textual c rs -> ascending c (sort_by c rs).
Proof.
  induction rs as [|r rs IH]; intro Ht; [constructor|].
  unfold sort_by in *. simpl. apply insert_sorted_ascending.
  - intros x [<- | Hx]; [apply Ht; now left|].
    apply Ht. right. eapply Permutation_in; [apply sort_by_perm|exact Hx].
  - apply IH. intros x Hx. apply Ht. now right.
Qed.

Lemma textual_filter c f rs : textual c rs -> textual c (filter f rs).
Proof. intros Ht r Hr. apply filter_In in Hr. apply Ht. tauto. Qed.

Lemma listDocuments_ok h user req w :
  no_faults h ->
  exists docs w',
    Gateway.listDocuments h user req w
    = (Returned (mkRes 200 [ok_true; ("documents", Array docs)]), w') /\
    Permutation docs
      (filter (holds (Eq "vehicle_id" (get "vehicleId" (params req))))
              (t_documents (db w))) /\
    (textual "expiry_date" (t_documents (db w)) -> ascending "expiry_date" docs) /\
    untouched w w'.
Proof.
  intro Hnf.
  unfold Gateway.listDocuments, try_catch, bind, run.
  rewrite answer_no_fault by assumption.
  unfold exec_ok, apply_verb. cbn -[matches filter sort_by].
  rewrite map_id.
  rewrite (filter_ext (matches [Eq "vehicle_id" (get "vehicleId" (params req))])
                      (holds (Eq "vehicle_id" (get "vehicleId" (params req)))))
    by (intro r; apply matches_one).
  do 2 eexists. split; [reflexivity|].
  split; [apply sort_by_perm|]. split; [|repeat split].
  intro Ht. apply sort_by_ascending. now apply textual_filter.
Qed.

(** X8. The document list is the vehicle's documents by ascending expiry
    date: when the store answers, [GET /api/vehicles/:vehicleId/documents]
    (the same handler in both gateways) returns a rearrangement of exactly
    the rows of [documents] whose [vehicle_id] is the URL parameter, each
    once, ordered by [expiry_date] when that column holds dates; the answer
    does not depend on who the caller is. *)
Theorem documents_are_listed_by_expiry
    (h : host) (user : claims) (req : request) (w : world) :
  no_faults h ->
  exists docs w',
    Gateway.listDocuments h user req w
    = (Returned (mkRes 200 [ok_true; ("documents", Array docs)]), w') /\
    Permutation docs
      (filter (holds (Eq "vehicle_id" (get "vehicleId" (params req))))
              (t_documents (db w))) /\
    (textual "expiry_date" (t_documents (db w)) -> ascending "expiry_date" docs) /\
    untouched w w' /\
    (forall other, Gateway.listDocuments h other req w
                   = Gateway.listDocuments h user req w) /\
    Legacy.listDocuments h user req w = Gateway.listDocuments h user req w.
Proof.
  intro Hnf.
  destruct (listDocuments_ok h user req w Hnf) as (docs & w' & E & P & A & U).
  exists docs, w'. split; [exact E|]. split; [exact P|]. split; [exact A|].
  split; [exact U|]. split; [intro other; reflexivity|reflexivity].
Qed.

Lemma documents_are_listed_by_expiry_witness :
  exists docs w',
    Gateway.listDocuments sample_host (mkClaims "bob" JUndefined JUndefined)
      (mkReq GET ["api"; "vehicles"; "1"; "documents"] (Some "Bearer tok-bob")
             [("vehicleId", JStr "1")] [] [] None) legacy_world
    = (Returned (mkRes 200 [ok_true; ("documents", Array docs)]), w') /\
    map (get "expiry_date") docs
    = [JStr "2024-01-24"; JStr "2024-01-25"; JStr "2024-01-26"].
Proof.
  destruct (documents_are_listed_by_expiry sample_host
              (mkClaims "bob" JUndefined JUndefined)
              (mkReq GET ["api"; "vehicles"; "1"; "documents"] (Some "Bearer tok-bob")
                     [("vehicleId", JStr "1")] [] [] None) legacy_world
              (fun q => eq_refl))
    as (docs & w' & E & _).
  exists docs, w'. split; [exact E|].
  vm_compute in E. injection E as <- _. reflexivity.
Defined.

(** X9. The reminder list is the caller's reminders by ascending due date:
    for a registered caller and a store that answers, [GET /api/reminders]
    returns a rearrangement of exactly the caller's rows of [reminders],
    narrowed to one vehicle when the query string carries a non-empty
    [vehicleId], ordered by [due_date] when that column holds dates. *)
Theorem reminders_are_listed_by_due_date
    (h : host) (user : claims) (req : request) (w : world) (me : jsval) :
  no_faults h ->
  internal_id (db w) (uid user) = Some me ->
  let vehicleId := get "vehicleId" (req_query req) in
  let wanted r :=
    mine me r && (if truthy vehicleId then holds (Eq "vehicle_id" vehicleId) r
                  else true) in
  exists rs w',
    Gateway.getReminders h user req w
    = (Returned (mkRes 200 [ok_true; ("reminders", Array rs)]), w') /\
    Permutation rs (filter wanted (t_reminders (db w))) /\
    (textual "due_date" (t_reminders (db w)) -> ascending "due_date" rs) /\
    untouched w w'.
Proof.
  intros Hnf Hme vehicleId wanted.
  unfold Gateway.getReminders, try_catch, bind.
  rewrite (lookup_run h w (uid user) me Hnf Hme).
  cbn [error data isSome present negb orb field get String.eqb Ascii.eqb Bool.eqb].
  fold vehicleId.
  unfold run. rewrite answer_no_fault by assumption.
  destruct (truthy vehicleId) eqn:T;
    unfold exec_ok, apply_verb; cbn -[matches filter sort_by]; rewrite map_id.
  - rewrite (filter_ext (matches [Eq "user_id" me; Eq "vehicle_id" vehicleId]) wanted)
      by (intro r; unfold wanted; rewrite ?T; apply matches_two).
    do 2 eexists. split; [reflexivity|].
    split; [apply sort_by_perm|]. split; [|repeat split].
    intro Ht. apply sort_by_ascending. now apply textual_filter.
  - rewrite (filter_ext (matches [Eq "user_id" me]) wanted)
      by (intro r; unfold wanted; rewrite ?T, andb_true_r; apply matches_one).
    do 2 eexists. split; [reflexivity|].
    split; [apply sort_by_perm|]. split; [|repeat split].
    intro Ht. apply sort_by_ascending. now apply textual_filter.
Qed.

Lemma reminders_are_listed_by_due_date_witness :
  exists rs w',
    Gateway.getReminders sample_host (mkClaims "ana" JUndefined JUndefined)
      (sample_request GET ["api"; "reminders"] (Some "Bearer tok-ana") []) sample_world
    = (Returned (mkRes 200 [ok_true; ("reminders", Array rs)]), w') /\
    Permutation rs (filter (fun r => mine (JStr "1") r && true)
                           (t_reminders (db sample_world))).
Proof.
  destruct (reminders_are_listed_by_due_date sample_host
              (mkClaims "ana" JUndefined JUndefined)
              (sample_request GET ["api"; "reminders"] (Some "Bearer tok-ana") [])
              sample_world (JStr "1") (fun q => eq_refl) eq_refl)
    as (rs & w' & E & P & _).
  exists rs, w'. split; [exact E|exact P].
Defined.

(* ------------------------------------------------------------------------- *)
(** ** Further properties: reminders *)

Lemma internal_id_frame d d' fuid :
  t_users d' = t_users d -> internal_id d' fuid = internal_id d fuid.
Proof. unfold internal_id. now intros ->. Qed.

Lemma reminder_fields_keys b : NoDup (map fst (reminder_fields b)).
Proof. unfold reminder_fields. nodup_keys. Qed.

Lemma createReminder_ok h user req w me :
  no_faults h -> internal_id (db w) (uid user) = Some me ->
  let r := new_row (db w)
             [("user_id", me);
              ("vehicle_id", get "vehicle_id" (req_body req));
              ("title", get "title" (req_body req));
              ("notes", get "notes" (req_body req));
              ("due_date", get "due_date" (req_body req));
              ("is_completed",
               js_nullish (get "is_completed" (req_body req)) (JBool false))] in
  exists w',
    Gateway.createReminder h user req w
    = (Returned (mkRes 200 [ok_true; ("reminder", Object r)]), w') /\
    db w' = bump_id (set_rows reminders (t_reminders (db w) ++ [r]) (db w)).
Proof.
  intros Hnf Hme r. unfold Gateway.createReminder, try_catch, bind.
  rewrite (lookup_run h w (uid user) me Hnf Hme).
  cbn [error data isSome present negb orb field get String.eqb Ascii.eqb Bool.eqb].
  unfold run. rewrite answer_no_fault by assumption.
  rewrite insert_exec_ok. cbn [error data of_payload db].
  eexists. split; reflexivity.
Qed.

(** X10. A new reminder is open unless the body says otherwise: for a
    registered caller and a store that answers, [POST /api/reminders] adds
    one row owned by the caller's internal id with the vehicle, title,
    notes and due date of the body; [is_completed] is [false] when the body
    leaves it out or sends [null], and the body's value otherwise. *)
Theorem new_reminder_defaults_to_open
    (h : host) (user : claims) (req : request) (w : world) (me : jsval) :
  no_faults h ->
  internal_id (db w) (uid user) = Some me ->
  exists r w',
    Gateway.createReminder h user req w
    = (Returned (mkRes 200 [ok_true; ("reminder", Object r)]), w') /\
    t_reminders (db w') = t_reminders (db w) ++ [r] /\
    get "user_id" r = me /\
    (forall k, In k ["vehicle_id"; "title"; "notes"; "due_date"] ->
               get k r = get k (req_body req)) /\
    (is_value (get "is_completed" (req_body req)) = false ->
     get "is_completed" r = JBool false) /\
    (is_value (get "is_completed" (req_body req)) = true ->
     get "is_completed" r = get "is_completed" (req_body req)).
Proof.
  intros Hnf Hme.
  destruct (createReminder_ok h user req w me Hnf Hme) as (w' & E & D).
  set (fields := [("user_id", me);
                  ("vehicle_id", get "vehicle_id" (req_body req));
                  ("title", get "title" (req_body req));
                  ("notes", get "notes" (req_body req));
                  ("due_date", get "due_date" (req_body req));
                  ("is_completed",
                   js_nullish (get "is_completed" (req_body req)) (JBool false))]) in *.
  assert (Hnd : NoDup (map fst fields)) by (unfold fields; nodup_keys).
  exists (new_row (db w) fields), w'.
  split; [exact E|].
  split; [rewrite D; destruct (db w); reflexivity|].
  split; [rewrite get_new_row by (auto; discriminate); reflexivity|].
  split; [|split].
  - intros k Hk. rewrite get_new_row; [|exact Hnd|].
    + simpl in Hk. unfold fields.
      repeat (destruct Hk as [<- | Hk]; [reflexivity|]). destruct Hk.
    + simpl in Hk. intro; subst k. intuition discriminate.
  - intro V. rewrite get_new_row by (auto; discriminate). unfold fields. cbn.
    destruct (get "is_completed" (req_body req)); try discriminate V; reflexivity.
  - intro V. rewrite get_new_row by (auto; discriminate). unfold fields. cbn.
    destruct (get "is_completed" (req_body req)); try discriminate V; reflexivity.
Qed.

Lemma new_reminder_defaults_to_open_witness :
  exists r w',
    Gateway.createReminder sample_host (mkClaims "bob" JUndefined JUndefined)
      (sample_request POST ["api"; "reminders"] (Some "Bearer tok-bob")
         [("title", JStr "ITV"); ("due_date", JStr "2024-03-01")]) sample_world
    = (Returned (mkRes 200 [ok_true; ("reminder", Object r)]), w') /\
    get "user_id" r = JStr "4" /\ get "is_completed" r = JBool false.
Proof.
  destruct (new_reminder_defaults_to_open sample_host
              (mkClaims "bob" JUndefined JUndefined)
              (sample_request POST ["api"; "reminders"] (Some "Bearer tok-bob")
                 [("title", JStr "ITV"); ("due_date", JStr "2024-03-01")])
              sample_world (JStr "4") (fun q => eq_refl) eq_refl)
    as (r & w' & E & _ & U & _ & C & _).
  exists r, w'. split; [exact E|]. split; [exact U|]. apply C. reflexivity.
Defined.



Lemma filter_map_fixes {A} (p : A -> bool) (f : A -> A) (l : list A) :
  (forall x, p x = true -> f x = x) ->
  (forall x, p x = false -> p (f x) = false) ->
  filter p (map f l) = filter p l.
Proof.
  intros H1 H2. induction l as [|a l IH]; simpl; [reflexivity|].
  destruct (p a) eqn:E.
  - rewrite (H1 a E), E. now rewrite IH.
  - now rewrite (H2 a E).
Qed.

Lemma filter_filter_implied {A} (p q : A -> bool) (l : list A) :
  (forall x, p x = true -> q x = true) ->
  filter p (filter q l) = filter p l.
Proof.
  intro H. induction l as [|a l IH]; simpl; [reflexivity|].
  destruct (q a) eqn:E; simpl.
  - now rewrite IH.
  - destruct (p a) eqn:P; [|exact IH]. rewrite (H a P) in E. discriminate.
Qed.

Lemma mine_after_merge me r b :
  mine me (merge r (stringify (reminder_fields b))) = mine me r.
Proof.
  unfold mine, holds.
  now rewrite (get_merge "user_id" r _ (reminder_fields_keys b)).
Qed.

(** The three writes of the reminder handlers, run by the store for a
    caller with internal id [me], leave the rows of everybody else alone. *)
Lemma reminder_writes_spare_others q me d id b :
  is_value me = true -> is_undefined me = false ->
  q = (Sb.from reminders
       |> Sb.insert (("user_id", me) :: b) |> Sb.returning |> Sb.single) \/
  q = (Sb.from reminders |> Sb.update (reminder_fields b)
       |> Sb.eq "id" id |> Sb.eq "user_id" me |> Sb.returning |> Sb.single) \/
  q = (Sb.from reminders |> Sb.delete |> Sb.eq "id" id |> Sb.eq "user_id" me) ->
  filter (fun r => negb (mine me r)) (t_reminders (snd (exec_ok q d)))
  = filter (fun r => negb (mine me r)) (t_reminders d).
Proof.
  intros V U [-> | [-> | ->]].
  - rewrite insert_exec_ok. cbn [snd t_reminders bump_id set_rows Sb.from rows].
    rewrite filter_app. cbn [filter].
    assert (M : mine me (new_row d (("user_id", me) :: b)) = true).
    { apply mine_iff; [exact V|]. unfold new_row, stringify.
      cbn [filter snd get]. rewrite U. reflexivity. }
    rewrite M. cbn [negb]. apply app_nil_r.
  - unfold exec_ok, apply_verb.
    cbn [Sb.single Sb.returning Sb.update Sb.eq Sb.from Sb.add_filter app
         q_from q_verb q_filters q_single q_returning rows].
    match goal with
    | |- context [match ?out with [] => _ | _ => _ end] =>
        destruct out as [|r1 [|r2 rest]]; cbn [snd]; try reflexivity
    end.
    cbn [t_reminders set_rows]. apply filter_map_fixes.
    + intros x Hx. apply negb_true_iff in Hx.
      rewrite matches_two. fold (mine me x). rewrite Hx, andb_false_r. reflexivity.
    + intros x Hx. apply negb_false_iff in Hx.
      destruct (matches _ x); [|now rewrite Hx].
      now rewrite mine_after_merge, Hx.
  - unfold exec_ok, apply_verb.
    cbn [Sb.delete Sb.eq Sb.from Sb.add_filter app
         q_from q_verb q_filters q_single q_returning rows snd].
    cbn [t_reminders set_rows]. apply filter_filter_implied.
    intros x Hx. apply negb_true_iff in Hx.
    rewrite matches_two. fold (mine me x). rewrite Hx, andb_false_r. reflexivity.
Qed.

(** X12. The reminder endpoints never touch the reminders of another
    user: whatever the request and whatever fails, creating, updating or
    deleting a reminder as a caller with internal id [me] leaves the rows
    of [reminders] that do not belong to [me] exactly as they were, in the
    same order. *)
Theorem reminders_of_others_are_never_touched
    (h : host) (user : claims) (req : request) (w : world) (me : jsval) :
  internal_id (db w) (uid user) = Some me ->
  is_value me = true ->
  forall handler,
    In handler [Gateway.createReminder h; Gateway.updateReminder h;
                Gateway.deleteReminder h] ->
    filter (fun r => negb (mine me r)) (t_reminders (db (snd (handler user req w))))
    = filter (fun r => negb (mine me r)) (t_reminders (db w)).
Proof.
  intros Hme V handler Hin.
  pose proof (internal_id_is_defined _ _ _ Hme) as U.
  assert (K : forall q id b w1,
    db w1 = db w ->
    q = (Sb.from reminders
         |> Sb.insert (("user_id", me) :: b) |> Sb.returning |> Sb.single) \/
    q = (Sb.from reminders |> Sb.update (reminder_fields b)
         |> Sb.eq "id" id |> Sb.eq "user_id" me |> Sb.returning |> Sb.single) \/
    q = (Sb.from reminders |> Sb.delete |> Sb.eq "id" id |> Sb.eq "user_id" me) ->
    filter (fun r => negb (mine me r)) (t_reminders (snd (answer h q (db w1))))
    = filter (fun r => negb (mine me r)) (t_reminders (db w))).
  { intros q id b w1 Hd Hq. rewrite Hd. unfold answer.
    destruct (store_fault h q); [reflexivity|].
    exact (reminder_writes_spare_others q me (db w) id b V U Hq). }
  simpl in Hin. destruct Hin as [<- | [<- | [<- | []]]].
  - unfold Gateway.createReminder, try_catch, bind.
    destruct (lookup_answer h (uid user) (db w)) as (res & E & Hres).
    unfold run at 1. rewrite E. cbn [db].
    destruct (isSome (error res) || negb (present (data res))) eqn:C; [reflexivity|].
    destruct (Hres eq_refl) as (i & Hi & ->). rewrite Hme in Hi. injection Hi as <-.
    cbn [field data get String.eqb Ascii.eqb Bool.eqb].
    match goal with
    | |- context [run h ?q ?w1] =>
        pose proof (K q JNull
                      [("vehicle_id", get "vehicle_id" (req_body req));
                       ("title", get "title" (req_body req));
                       ("notes", get "notes" (req_body req));
                       ("due_date", get "due_date" (req_body req));
                       ("is_completed",
                        js_nullish (get "is_completed" (req_body req)) (JBool false))]
                      w1 eq_refl (or_introl eq_refl)) as H;
        unfold run; destruct (answer h q (db w1)) as [r d']
    end.
    cbn [snd] in H. destruct (error r); exact H.
  - unfold Gateway.updateReminder, try_catch, bind.
    destruct (lookup_answer h (uid user) (db w)) as (res & E & Hres).
    unfold run at 1. rewrite E. cbn [db].
    destruct (isSome (error res) || negb (present (data res))) eqn:C; [reflexivity|].
    destruct (Hres eq_refl) as (i & Hi & ->). rewrite Hme in Hi. injection Hi as <-.
    cbn [field data get String.eqb Ascii.eqb Bool.eqb].
    match goal with
    | |- context [run h ?q ?w1] =>
        pose proof (K q (get "id" (params req)) (req_body req)
                      w1 eq_refl (or_intror (or_introl eq_refl))) as H;
        unfold run; destruct (answer h q (db w1)) as [r d']
    end.
    cbn [snd] in H. destruct (error r); exact H.
  - unfold Gateway.deleteReminder, try_catch, bind.
    destruct (lookup_answer h (uid user) (db w)) as (res & E & Hres).
    unfold run at 1. rewrite E. cbn [db].
    destruct (isSome (error res) || negb (present (data res))) eqn:C; [reflexivity|].
    destruct (Hres eq_refl) as (i & Hi & ->). rewrite Hme in Hi. injection Hi as <-.
    cbn [field data get String.eqb Ascii.eqb Bool.eqb].
    match goal with
    | |- context [run h ?q ?w1] =>
        pose proof (K q (get "id" (params req)) (req_body req)
                      w1 eq_refl (or_intror (or_intror eq_refl))) as H;
        unfold run; destruct (answer h q (db w1)) as [r d']
    end.
    cbn [snd] in H. destruct (error r); exact H.
Qed.

Lemma reminders_of_others_are_never_touched_witness :
  filter (fun r => negb (mine (JStr "4") r))
         (t_reminders (db (snd (Gateway.deleteReminder sample_host
            (mkClaims "bob" JUndefined JUndefined)
            (mkReq DELETE ["api"; "reminders"; "3"] (Some "Bearer tok-bob")
                   [("id", JStr "3")] [] [] None) sample_world))))
  = filter (fun r => negb (mine (JStr "4") r)) (t_reminders (db sample_world)).
Proof.
  refine (reminders_of_others_are_never_touched sample_host
            (mkClaims "bob" JUndefined JUndefined)
            (mkReq DELETE ["api"; "reminders"; "3"] (Some "Bearer tok-bob")
                   [("id", JStr "3")] [] [] None)
            sample_world (JStr "4") _ _ (Gateway.deleteReminder sample_host) _).
  - vm_compute. reflexivity.
  - reflexivity.
  - simpl. tauto.
Defined.

(** X13. Deleting a reminder is idempotent and never reports a missing
    row: for a registered caller and a store that answers,
    [DELETE /api/reminders/:id] always answers 200 with its success message,
    removes exactly the rows with that id that belong to the caller, and a
    second identical request answers the same and changes nothing. *)
Theorem delete_reminder_is_idempotent
    (h : host) (user : claims) (req : request) (w : world) (me : jsval) :
  no_faults h ->
  internal_id (db w) (uid user) = Some me ->
  let hit := matches [Eq "id" (get "id" (params req)); Eq "user_id" me] in
  let deleted := mkRes 200 [ok_true;
                            ("message", Scalar (JStr "Reminder deleted successfully."))] in
  exists w1 w2,
    Gateway.deleteReminder h user req w = (Returned deleted, w1) /\
    t_reminders (db w1) = filter (fun r => negb (hit r)) (t_reminders (db w)) /\
    (forall t, t <> reminders -> rows t (db w1) = rows t (db w)) /\
    Gateway.deleteReminder h user req w1 = (Returned deleted, w2) /\
    db w2 = db w1.
Proof.
  intros Hnf Hme hit deleted.
  assert (Step : forall w0, internal_id (db w0) (uid user) = Some me ->
    exists w1,
      Gateway.deleteReminder h user req w0 = (Returned deleted, w1) /\
      db w1 = set_rows reminders
                (filter (fun r => negb (hit r)) (t_reminders (db w0))) (db w0)).
  { intros w0 H0. unfold Gateway.deleteReminder, try_catch, bind.
    rewrite (lookup_run h w0 (uid user) me Hnf H0).
    cbn [error data isSome present negb orb field get String.eqb Ascii.eqb Bool.eqb].
    unfold run. rewrite answer_no_fault by assumption.
    unfold exec_ok, apply_verb.
    cbn [Sb.delete Sb.eq Sb.from Sb.add_filter app
         q_from q_verb q_filters q_single q_returning rows db error].
    eexists. split; reflexivity. }
  destruct (Step w Hme) as (w1 & E1 & D1).
  assert (Hme1 : internal_id (db w1) (uid user) = Some me).
  { rewrite (internal_id_frame (db w) (db w1)); [exact Hme|].
    rewrite D1. destruct (db w); reflexivity. }
  destruct (Step w1 Hme1) as (w2 & E2 & D2).
  exists w1, w2. split; [exact E1|].
  assert (T1 : t_reminders (db w1)
               = filter (fun r => negb (hit r)) (t_reminders (db w))).
  { rewrite D1. destruct (db w); reflexivity. }
  split; [exact T1|]. split.
  - intros t Ht. rewrite D1. apply rows_set_rows_other. exact Ht.
  - split; [exact E2|]. rewrite D2, T1.
    rewrite (filter_filter_implied (fun r => negb (hit r)) (fun r => negb (hit r)))
      by auto.
    rewrite <- T1. change (t_reminders (db w1)) with (rows reminders (db w1)).
    apply set_rows_same.
Qed.

Lemma delete_reminder_is_idempotent_witness :
  exists w1 w2,
    Gateway.deleteReminder sample_host (mkClaims "ana" JUndefined JUndefined)
      (mkReq DELETE ["api"; "reminders"; "3"] (Some "Bearer tok-ana")
             [("id", JStr "3")] [] [] None) sample_world
    = (Returned (mkRes 200 [ok_true;
         ("message", Scalar (JStr "Reminder deleted successfully."))]), w1) /\
    t_reminders (db w1) = [] /\
    Gateway.deleteReminder sample_host (mkClaims "ana" JUndefined JUndefined)
      (mkReq DELETE ["api"; "reminders"; "3"] (Some "Bearer tok-ana")
             [("id", JStr "3")] [] [] None) w1
    = (Returned (mkRes 200 [ok_true;
         ("message", Scalar (JStr "Reminder deleted successfully."))]), w2) /\
    db w2 = db w1.
Proof.
  destruct (delete_reminder_is_idempotent sample_host
              (mkClaims "ana" JUndefined JUndefined)
              (mkReq DELETE ["api"; "reminders"; "3"] (Some "Bearer tok-ana")
                     [("id", JStr "3")] [] [] None)
              sample_world (JStr "1") (fun q => eq_refl) eq_refl)
    as (w1 & w2 & E1 & T & _ & E2 & D).
  exists w1, w2. split; [exact E1|]. split; [rewrite T; reflexivity|].
  split; [exact E2|exact D].
Defined.

(* ------------------------------------------------------------------------- *)
(** ** Further properties: devices *)

Lemma holds_Eq_value c v r :
  is_value v = true -> (holds (Eq c v) r = true <-> get c r = v).
Proof.
  intro V. split; [apply holds_Eq_true|].
  intro E. unfold holds. rewrite E. destruct v; try discriminate V; apply jsval_eqb_refl.
Qed.

Lemma is_value_defined v : is_value v = true -> is_undefined v = false.
Proof. now destruct v. Qed.

(** An upsert on a column that holds at most one row per value: the row
    that comes back is the only row with that value afterwards and carries
    every field the payload defines. *)
Lemma upsert_exec t l c d :
  NoDup (map fst l) -> c <> "id" ->
  is_value (get c l) = true ->
  (length (filter (holds (Eq c (get c l))) (rows t d)) <= 1)%nat ->
  exists r d',
    exec_ok (Sb.from t |> Sb.upsert l c |> Sb.returning |> Sb.single) d
    = (mkResult (DRow r) None, d') /\
    filter (holds (Eq c (get c l))) (rows t d') = [r] /\
    (forall k, k <> "id" -> is_undefined (get k l) = false -> get k r = get k l) /\
    (length (rows t d') =
       length (rows t d)
       + (1 - length (filter (holds (Eq c (get c l))) (rows t d))))%nat.
Proof.
  intros Hnd Hc V Hle.
  pose proof (is_value_defined _ V) as U.
  unfold exec_ok, apply_verb.
  cbn [Sb.single Sb.returning Sb.upsert q_from q_verb q_single q_returning].
  unfold Sb.from.
  change (conflicts c l) with (holds (Eq c (get c l))).
  assert (Merged : forall x k, k <> "id" -> is_undefined (get k l) = false ->
                     get k (merge x (stringify l)) = get k l).
  { intros x k _ Hk. now rewrite (get_merge k x l Hnd), Hk. }
  destruct (filter (holds (Eq c (get c l))) (rows t d)) as [|r0 [|r1 rest]] eqn:F;
    [| |simpl in Hle; lia].
  - assert (X : existsb (holds (Eq c (get c l))) (rows t d) = false).
    { destruct (existsb _ _) eqn:E; [|reflexivity].
      apply existsb_exists in E. destruct E as (x & Hx & Hh).
      assert (In x (filter (holds (Eq c (get c l))) (rows t d)))
        by (apply filter_In; auto).
      rewrite F in H. destruct H. }
    rewrite X.
    assert (New : forall k, k <> "id" -> get k (new_row d l) = get k l).
    { intros k Hk. now apply get_new_row. }
    eexists. eexists. split; [reflexivity|].
    rewrite rows_bump_id, rows_set_rows_same, filter_app, F. cbn [filter app].
    rewrite (proj2 (holds_Eq_value c (get c l) (new_row d l) V) (New c Hc)).
    split; [reflexivity|]. split; [intros k Hk _; now apply New|].
    rewrite length_app. simpl. lia.
  - assert (X : existsb (holds (Eq c (get c l))) (rows t d) = true).
    { apply existsb_exists. exists r0.
      assert (In r0 (filter (holds (Eq c (get c l))) (rows t d)))
        by (rewrite F; now left).
      apply filter_In in H. exact H. }
    rewrite X.
    assert (Y : filter (holds (Eq c (get c l)))
                  (map (fun r => if holds (Eq c (get c l)) r
                                 then merge r (stringify l) else r) (rows t d))
                = [merge r0 (stringify l)]).
    { rewrite filter_map_if; [now rewrite F|].
      intro x. apply (holds_Eq_value c (get c l) _ V). now apply Merged. }
    rewrite Y.
    eexists. eexists. split; [reflexivity|].
    rewrite rows_set_rows_same, Y.
    split; [reflexivity|]. split; [intros k Hk Hu; now apply Merged|].
    rewrite length_map. simpl. lia.
Qed.

Lemma truthy_is_value v : truthy v = true -> is_value v = true.
Proof. now destruct v. Qed.

(** X14. Registering a device takes the token over: for a registered
    caller, a truthy token and a store that answers and holds at most one
    [devices] row per token, registerDevice of part_000 answers 200 with a
    row that afterwards is the only row with that token and belongs to the
    caller's internal id, whoever owned the token before; no row is added
    when the token was already registered. *)
Theorem registered_token_belongs_to_caller
    (h : host) (user : claims) (req : request) (w : world) (me : jsval) :
  no_faults h ->
  internal_id (db w) (uid user) = Some me ->
  let token := get "token" (req_body req) in
  truthy token = true ->
  (length (filter (holds (Eq "token" token)) (t_devices (db w))) <= 1)%nat ->
  exists r w',
    Gateway.registerDevice h user req w
    = (Returned (mkRes 200 [ok_true; ("device", Object r)]), w') /\
    filter (holds (Eq "token" token)) (t_devices (db w')) = [r] /\
    get "user_id" r = me /\ get "token" r = token /\
    (is_undefined (get "platform" (req_body req)) = false ->
     get "platform" r = get "platform" (req_body req)) /\
    (length (t_devices (db w')) =
       length (t_devices (db w))
       + (1 - length (filter (holds (Eq "token" token)) (t_devices (db w)))))%nat.
Proof.
  intros Hnf Hme token Ht Hle.
  assert (Hnd : NoDup (map fst (device_fields me (req_body req))))
    by (unfold device_fields; nodup_keys).
  destruct (upsert_exec devices (device_fields me (req_body req)) "token" (db w)
              Hnd ltac:(discriminate) (truthy_is_value _ Ht) Hle)
    as (r & d' & E & F & G & L).
  unfold Gateway.registerDevice. fold token. rewrite Ht. cbn [negb].
  unfold try_catch, bind.
  rewrite (lookup_run h w (uid user) me Hnf Hme).
  cbn [error data isSome present negb orb field get String.eqb Ascii.eqb Bool.eqb].
  unfold run. rewrite answer_no_fault by assumption.
  cbn [db].
  change (Sb.from devices
          |> Sb.upsert [("user_id", me); ("token", token);
                        ("platform", get "platform" (req_body req))] "token"
          |> Sb.returning |> Sb.single)
    with (Sb.from devices |> Sb.upsert (device_fields me (req_body req)) "token"
          |> Sb.returning |> Sb.single).
  rewrite E. cbn [error data of_payload].
  exists r. eexists. split; [reflexivity|]. cbn [db].
  split; [exact F|].
  split; [apply (G "user_id"); [discriminate|exact (internal_id_is_defined _ _ _ Hme)]|].
  split; [apply (G "token"); [discriminate|exact (is_value_defined _ (truthy_is_value _ Ht))]|].
  split; [intro Hp; apply (G "platform"); [discriminate|exact Hp]|exact L].
Qed.

Lemma registered_token_belongs_to_caller_witness :
  let w := after (Gateway.app sample_host)
             (sample_request POST ["api"; "registerDevice"] (Some "Bearer tok-ana")
                             [("token", JStr "fcm-1"); ("platform", JStr "ios")])
             sample_world in
  exists r w',
    Gateway.registerDevice sample_host (mkClaims "bob" JUndefined JUndefined)
      (sample_request POST ["api"; "registerDevice"] (Some "Bearer tok-bob")
                      [("token", JStr "fcm-1")]) w
    = (Returned (mkRes 200 [ok_true; ("device", Object r)]), w') /\
    filter (holds (Eq "token" (JStr "fcm-1"))) (t_devices (db w')) = [r] /\
    get "user_id" r = JStr "4" /\
    length (t_devices (db w')) = length (t_devices (db w)).
Proof.
  intro w.
  destruct (registered_token_belongs_to_caller sample_host
              (mkClaims "bob" JUndefined JUndefined)
              (sample_request POST ["api"; "registerDevice"] (Some "Bearer tok-bob")
                              [("token", JStr "fcm-1")])
              w (JStr "4") (fun q => eq_refl) eq_refl eq_refl
              ltac:(vm_compute; lia))
    as (r & w' & E & F & U & _ & _ & L).
  exists r, w'. split; [exact E|]. split; [exact F|]. split; [exact U|].
  rewrite L. reflexivity.
Defined.

(* ------------------------------------------------------------------------- *)
(** ** Further properties: the notifier's runs *)

Lemma only_sends_refl w : only_sends w w.
Proof. repeat split. exists []. now rewrite app_nil_r. Qed.

Lemma only_sends_trans w1 w2 w3 :
  only_sends w1 w2 -> only_sends w2 w3 -> only_sends w1 w3.
Proof.
  intros (A & B & [l C]) (A' & B' & [l' C']). repeat split; try congruence.
  exists (l ++ l'). rewrite C', C. now rewrite app_assoc.
Qed.

Lemma run_select_only_sends h q cols :
  q_verb q = Select cols -> keeps only_sends (run h q).
Proof.
  intros Hq w. unfold run.
  pose proof (answer_select h q (db w) cols Hq) as H.
  destruct (answer h q (db w)) as [res d']. simpl in *. subst d'.
  repeat split. exists []. simpl. now rewrite app_nil_r.
Qed.

Lemma console_line_only_sends l s args : keeps only_sends (console_line l s args).
Proof. intro w. repeat split. exists []. simpl. now rewrite app_nil_r. Qed.

Lemma send_only_sends h m : keeps only_sends (Notifier.send h m).
Proof.
  intro w. unfold Notifier.send. destruct (sendMulticast h m).
  - repeat split. now exists [m].
  - apply only_sends_refl.
Qed.

Ltac frame_only_sends :=
  repeat first
    [ apply (keeps_ret only_sends only_sends_refl)
    | apply (keeps_throw only_sends only_sends_refl)
    | apply (keeps_try_catch only_sends only_sends_trans); [ | intro ]
    | apply (keeps_bind only_sends only_sends_trans); [ | intro ]
    | apply console_line_only_sends
    | apply send_only_sends
    | eapply run_select_only_sends; reflexivity
    | match goal with
      | |- keeps _ (if ?c then _ else _) => destruct c
      | |- keeps _ (match ?o with Some _ => _ | None => _ end) => destruct o
      end ].

Lemma each_only_sends h doc : keeps only_sends (Notifier.each h doc).
Proof. unfold Notifier.each. frame_only_sends. Qed.

Lemma for_of_only_sends h docs : keeps only_sends (Notifier.for_of h docs).
Proof.
  induction docs as [|doc docs IH]; cbn [Notifier.for_of].
  - apply (keeps_ret only_sends only_sends_refl).
  - apply (keeps_bind only_sends only_sends_trans); [apply each_only_sends|].
    intro. exact IH.
Qed.

(** X15. The notifier never writes to the store: whatever the clock, the
    tables and the failures of the services, a run leaves every table and
    the bucket as they were, only adds to the notifications sent, and ends
    with exit status 0 or 1. *)
Theorem notifier_only_sends (h : host) (w : world) :
  only_sends w (snd (Notifier.main h w)) /\
  (fst (Notifier.main h w) = Returned 0%nat \/
   fst (Notifier.main h w) = Returned 1%nat).
Proof.
  split.
  - revert w. change (keeps only_sends (Notifier.main h)).
    unfold Notifier.main.
    apply (keeps_try_catch only_sends only_sends_trans).
    + apply (keeps_bind only_sends only_sends_trans);
        [eapply run_select_only_sends; reflexivity|].
      intro r. destruct (error r); [apply (keeps_throw only_sends only_sends_refl)|].
      apply (keeps_bind only_sends only_sends_trans); [apply for_of_only_sends|].
      intro. apply (keeps_ret only_sends only_sends_refl).
    + intro e. frame_only_sends.
  - unfold Notifier.main, try_catch, bind, run.
    destruct (answer h (Notifier.range_query h) (db w)) as [r d].
    destruct (error r); [right; reflexivity|].
    destruct (Notifier.for_of h _ _) as [[[]|e] w']; [left|right]; reflexivity.
Qed.

(** One turn of the loop when the store answers and the push service takes
    what is due for this document. *)
Lemma each_delivers h doc w :
  no_faults h ->
  (forall m, In m (notification_due h (db w) doc) -> sendMulticast h m <> None) ->
  exists w',
    Notifier.each h doc w = (Returned tt, w') /\
    sent w' = sent w ++ notification_due h (db w) doc /\
    db w' = db w.
Proof.
  intros Hnf Hup. unfold Notifier.each. unfold notification_due in *.
  destruct (Notifier.diffDays h doc) as [n|];
    [|eexists; split; [reflexivity|]; split; [now rewrite app_nil_r|reflexivity]].
  rewrite includes_targets.
  destruct ((n =? 30) || (n =? 15) || (n =? 7))%Z; cbn [negb];
    [|eexists; split; [reflexivity|]; split; [now rewrite app_nil_r|reflexivity]].
  unfold bind, run. rewrite answer_no_fault by assumption.
  rewrite vehicle_exec.
  destruct (owner_of (db w) doc) as [fuid|];
    cbn [error data isSome present negb orb db field get];
    [|eexists; split; [reflexivity|]; split; [now rewrite app_nil_r|reflexivity]].
  cbn [String.eqb Ascii.eqb Bool.eqb].
  rewrite answer_no_fault by assumption.
  destruct (devices_exec fuid (db w)) as (rs & E & T). rewrite E.
  cbn [error data isSome Notifier.rows_of db]. rewrite T.
  destruct (tokens_of (db w) fuid) as [|t ts] eqn:Tk; cbn [length Nat.eqb];
    [eexists; split; [reflexivity|]; split; [now rewrite app_nil_r|reflexivity]|].
  unfold Notifier.send. cbn [sent db bucket console calls].
  destruct (sendMulticast h (Notifier.message_for doc n (t :: ts))) as [k|] eqn:S;
    [|exfalso; exact (Hup _ (or_introl eq_refl) S)].
  eexists. split; [reflexivity|]. split; reflexivity.
Qed.

Lemma for_of_delivers h docs w :
  no_faults h -> deliverable h (db w) docs ->
  exists w',
    Notifier.for_of h docs w = (Returned tt, w') /\
    sent w' = sent w ++ flat_map (notification_due h (db w)) docs /\
    db w' = db w.
Proof.
  intros Hnf. revert w. induction docs as [|doc docs IH]; intros w Hup.
  - exists w. split; [reflexivity|]. split; [now rewrite app_nil_r|reflexivity].
  - destruct (each_delivers h doc w Hnf) as (w1 & E1 & S1 & D1).
    { intros m Hm. exact (Hup doc m (or_introl eq_refl) Hm). }
    destruct (IH w1) as (w2 & E2 & S2 & D2).
    { rewrite D1. intros d m Hd Hm. exact (Hup d m (or_intror Hd) Hm). }
    exists w2. cbn [Notifier.for_of]. unfold bind. rewrite E1, E2.
    split; [reflexivity|]. split; [|congruence].
    rewrite S2, S1, D1. cbn [flat_map]. now rewrite app_assoc.
Qed.

Lemma each_push_fails h doc w m :
  no_faults h ->
  notification_due h (db w) doc = [m] -> sendMulticast h m = None ->
  exists w',
    Notifier.each h doc w = (Thrown Notifier.push_failed, w') /\
    sent w' = sent w /\ db w' = db w.
Proof.
  intros Hnf Hdue Hfail. unfold Notifier.each. unfold notification_due in Hdue.
  destruct (Notifier.diffDays h doc) as [n|]; [|discriminate].
  rewrite includes_targets.
  destruct ((n =? 30) || (n =? 15) || (n =? 7))%Z; cbn [negb]; [|discriminate].
  unfold bind, run. rewrite answer_no_fault by assumption.
  rewrite vehicle_exec.
  destruct (owner_of (db w) doc) as [fuid|];
    cbn [error data isSome present negb orb db field get]; [|discriminate].
  cbn [String.eqb Ascii.eqb Bool.eqb].
  rewrite answer_no_fault by assumption.
  destruct (devices_exec fuid (db w)) as (rs & E & T). rewrite E.
  cbn [error data isSome Notifier.rows_of db]. rewrite T.
  destruct (tokens_of (db w) fuid) as [|t ts] eqn:Tk; [discriminate|].
  injection Hdue as <-. cbn [length Nat.eqb].
  unfold Notifier.send. cbn [sent db bucket console calls]. rewrite Hfail.
  eexists. split; [reflexivity|]. split; reflexivity.
Qed.

Lemma for_of_app h ds1 ds2 w :
  Notifier.for_of h (ds1 ++ ds2) w
  = match Notifier.for_of h ds1 w with
    | (Returned _, w1) => Notifier.for_of h ds2 w1
    | (Thrown e, w1) => (Thrown e, w1)
    end.
Proof.
  revert w. induction ds1 as [|d ds1 IH]; intro w; [reflexivity|].
  cbn [app Notifier.for_of]. unfold bind.
  destruct (Notifier.each h d w) as [[[]|e] w1]; [apply IH|reflexivity].
Qed.

(** X16. A failing push aborts the run and keeps what was sent: when the
    store answers, the notifications of the documents before the failing
    one are delivered and stay sent, the documents after it are not looked
    at, and the job logs the error and exits with status 1. *)
Theorem push_failure_aborts_the_run
    (h : host) (w : world) (ds1 ds2 : list row) (doc : row) (m : push_message) :
  no_faults h ->
  fst (answer h (Notifier.range_query h) (db w))
    = mkResult (DRows (ds1 ++ doc :: ds2)) None ->
  deliverable h (db w) ds1 ->
  notification_due h (db w) doc = [m] ->
  sendMulticast h m = None ->
  exists w',
    Notifier.main h w = (Returned 1%nat, w') /\
    sent w' = sent w ++ flat_map (notification_due h (db w)) ds1 /\
    db w' = db w /\
    last (console w') (Log, EmptyString, [])
      = (Error, "Error sendNotifications:", [JStr (message Notifier.push_failed)]).
Proof.
  intros Hnf Hq Hup Hdue Hfail.
  unfold Notifier.main, try_catch, bind, run.
  pose proof (answer_select h (Notifier.range_query h) (db w) _ eq_refl) as Hd.
  destruct (answer h (Notifier.range_query h) (db w)) as [r d].
  cbn [fst snd] in Hq, Hd. subst r d. cbn [error data Notifier.rows_of].
  rewrite for_of_app.
  match goal with
  | |- context [Notifier.for_of h ds1 ?w0] =>
      destruct (for_of_delivers h ds1 w0 Hnf Hup) as (w1 & E1 & S1 & D1); rewrite E1
  end.
  cbn [db sent] in S1, D1. cbn [Notifier.for_of]. unfold bind.
  destruct (each_push_fails h doc w1 m Hnf) as (w2 & E2 & S2 & D2);
    [now rewrite D1|exact Hfail|].
  rewrite E2. cbn.
  eexists. split; [reflexivity|]. cbn [sent db console].
  split; [congruence|]. split; [congruence|]. apply last_last.
Qed.

Lemma push_failure_aborts_the_run_witness :
  exists w',
    Notifier.main host_push_down legacy_world = (Returned 1%nat, w') /\
    sent w' = sent legacy_world /\ db w' = db legacy_world.
Proof.
  destruct (push_failure_aborts_the_run host_push_down legacy_world []
              [[("id", JStr "4"); ("document_type", JStr "tenencia");
                ("expiry_date", JStr "2024-01-26"); ("vehicle_id", JStr "1")];
               [("id", JStr "5"); ("document_type", JStr "verificacion");
                ("expiry_date", JStr "2024-01-24"); ("vehicle_id", JStr "1")]]
              [("id", JStr "3"); ("document_type", JStr "seguro");
               ("expiry_date", JStr "2024-01-25"); ("vehicle_id", JStr "1")]
              (mkPush "Recordatorio AutoMate" "Tu seguro caduca en 15 días."
                      [JStr "fcm-token-1"])
              (fun q => eq_refl))
    as (w' & M & S & D & _).
  - vm_compute. reflexivity.
  - intros d m [] _.
  - vm_compute. reflexivity.
  - reflexivity.
  - exists w'. split; [exact M|]. split; [|exact D].
    rewrite S. apply app_nil_r.
Defined.

(** X17. An owner without usable devices gets nothing, quietly: for a due
    document whose vehicle resolves to an owner, a failing [devices] query
    is logged as 'No devices for user' and the document is skipped, and an
    owner with no truthy token is skipped without any log line; in both
    cases nothing is sent and the loop goes on. *)
Theorem owner_without_devices_is_skipped
    (h : host) (doc : row) (w : world) (fuid : jsval) :
  Notifier.includes Notifier.targets (Notifier.diffDays h doc) = true ->
  store_fault h (Notifier.vehicle_query doc) = None ->
  owner_of (db w) doc = Some fuid ->
  (forall e, store_fault h (Notifier.devices_query fuid) = Some e ->
     exists w',
       Notifier.each h doc w = (Returned tt, w') /\ sent w' = sent w /\
       console w' = console w ++ [(Warn, "No devices for user", [fuid])]) /\
  (store_fault h (Notifier.devices_query fuid) = None ->
   tokens_of (db w) fuid = [] ->
   exists w',
     Notifier.each h doc w = (Returned tt, w') /\ sent w' = sent w /\
     console w' = console w).
Proof.
  intros Hdue Hv Ho.
  split.
  - intros e He. unfold Notifier.each.
    destruct (Notifier.diffDays h doc) as [n|]; [|discriminate Hdue].
    rewrite Hdue. cbn [negb]. unfold bind, run, answer.
    rewrite Hv, vehicle_exec, Ho.
    cbn [error data isSome present negb orb db field get String.eqb Ascii.eqb Bool.eqb].
    rewrite He. cbn [error isSome].
    eexists. split; [reflexivity|]. split; reflexivity.
  - intros Hd Ht. unfold Notifier.each.
    destruct (Notifier.diffDays h doc) as [n|]; [|discriminate Hdue].
    rewrite Hdue. cbn [negb]. unfold bind, run, answer.
    rewrite Hv, vehicle_exec, Ho.
    cbn [error data isSome present negb orb db field get String.eqb Ascii.eqb Bool.eqb].
    rewrite Hd.
    destruct (devices_exec fuid (db w)) as (rs & E & T). rewrite E.
    cbn [error data isSome Notifier.rows_of]. rewrite T, Ht. cbn [length Nat.eqb].
    eexists. split; [reflexivity|]. split; reflexivity.
Qed.

Lemma owner_without_devices_is_skipped_witness :
  exists w',
    Notifier.each host_devices_down
      [("id", JStr "3"); ("document_type", JStr "seguro");
       ("expiry_date", JStr "2024-01-25"); ("vehicle_id", JStr "1")] legacy_world
    = (Returned tt, w') /\ sent w' = sent legacy_world /\
    console w' = console legacy_world
                 ++ [(Warn, "No devices for user", [JStr "ana"])].
Proof.
  exact (proj1 (owner_without_devices_is_skipped host_devices_down
                  [("id", JStr "3"); ("document_type", JStr "seguro");
                   ("expiry_date", JStr "2024-01-25"); ("vehicle_id", JStr "1")]
                  legacy_world (JStr "ana") eq_refl eq_refl eq_refl)
               (mkErr "connection lost" "08006") eq_refl).
Defined.

(* ------------------------------------------------------------------------- *)
(** ** Further properties: the two schemas and the notifier *)

Lemma same_table_refl t w : same_table t w w.
Proof. reflexivity. Qed.

Lemma same_table_trans t w1 w2 w3 :
  same_table t w1 w2 -> same_table t w2 w3 -> same_table t w1 w3.
Proof. unfold same_table. congruence. Qed.

Lemma run_same_table h q t :
  t <> q_from q -> keeps (same_table t) (run h q).
Proof.
  intros Hq w. unfold same_table, run.
  pose proof (answer_frame h q (db w) t Hq) as H.
  destruct (answer h q (db w)) as [res d']. exact H.
Qed.

Lemma run_select_same_table h q t cols :
  q_verb q = Select cols -> keeps (same_table t) (run h q).
Proof.
  intros Hq w. unfold same_table, run.
  pose proof (answer_select h q (db w) cols Hq) as H.
  destruct (answer h q (db w)) as [res d']. simpl in *. now subst.
Qed.

Lemma storage_upload_same_table h path f t :
  keeps (same_table t) (storage_upload h path f).
Proof. intro w. reflexivity. Qed.

Ltac frame_devices :=
  repeat first
    [ apply (keeps_ret (same_table devices) (same_table_refl devices))
    | apply (keeps_throw (same_table devices) (same_table_refl devices))
    | apply (keeps_try_catch (same_table devices) (same_table_trans devices)); [ | intro ]
    | apply (keeps_bind (same_table devices) (same_table_trans devices)); [ | intro ]
    | apply storage_upload_same_table
    | eapply run_select_same_table; reflexivity
    | apply run_same_table; discriminate
    | match goal with
      | |- keeps _ (if ?c then _ else _) => destruct c
      | |- keeps _ (match ?o with Some _ => _ | None => _ end) => destruct o
      | |- keeps _ (res_json _) => unfold res_json
      | |- keeps _ (res_status_json _ _) => unfold res_status_json
      | |- keeps _ (run _ (if ?c then _ else _)) => destruct c
      end ].

Lemma other_handlers_keep_devices h user req handler :
  In handler [Gateway.registerUser h; Gateway.createVehicle h; Gateway.getVehicles h;
              Gateway.listDocuments h; Gateway.uploadDocument h;
              Gateway.getReminders h; Gateway.createReminder h;
              Gateway.updateReminder h; Gateway.deleteReminder h] ->
  keeps (same_table devices) (handler user req).
Proof.
  intro Hin. simpl in Hin.
  repeat match type of Hin with
         | _ \/ _ => destruct Hin as [E | Hin]; [subst handler|]
         | False => destruct Hin
         end;
    unfold Gateway.registerUser, Gateway.createVehicle, Gateway.getVehicles,
           Gateway.listDocuments, Gateway.uploadDocument,
           Gateway.getReminders, Gateway.createReminder, Gateway.updateReminder,
           Gateway.deleteReminder; cbv zeta; frame_devices.
Qed.

Lemma upsert_keeps_lack l c d :
  NoDup (map fst l) -> get "firebase_uid" l = JUndefined ->
  devices_lack_external_id d ->
  devices_lack_external_id
    (snd (exec_ok (Sb.from devices |> Sb.upsert l c |> Sb.returning |> Sb.single) d)).
Proof.
  intros Hnd Hl Hd.
  assert (M : forall x, In x (t_devices d) ->
                get "firebase_uid" (merge x (stringify l)) = JUndefined).
  { intros x Hx. rewrite (get_merge "firebase_uid" x l Hnd), Hl. cbn. now apply Hd. }
  assert (N : get "firebase_uid" (new_row d l) = JUndefined).
  { rewrite get_new_row by (auto; discriminate). exact Hl. }
  unfold exec_ok, apply_verb.
  cbn [Sb.single Sb.returning Sb.upsert Sb.from q_from q_verb q_single q_returning rows].
  destruct (existsb (conflicts c l) (t_devices d)).
  - match goal with
    | |- context [match ?out with [] => _ | _ => _ end] =>
        destruct out as [|r1 [|r2 rest]]; cbn [snd]; try exact Hd
    end.
    intros r Hr. cbn [t_devices set_rows] in Hr.
    apply in_map_iff in Hr. destruct Hr as (x & <- & Hx).
    destruct (conflicts c l x); [now apply M|now apply Hd].
  - cbn [snd]. intros r Hr. cbn [t_devices set_rows bump_id] in Hr.
    apply in_app_or in Hr. destruct Hr as [Hr | [<- | []]]; [now apply Hd|exact N].
Qed.

Lemma registerDevice_keeps_lack h user req w :
  devices_lack_external_id (db w) ->
  devices_lack_external_id (db (snd (Gateway.registerDevice h user req w))).
Proof.
  intro Hd. unfold Gateway.registerDevice.
  destruct (negb (truthy (get "token" (req_body req)))); [exact Hd|].
  unfold try_catch, bind.
  destruct (lookup_answer h (uid user) (db w)) as (res & E & _).
  unfold run at 1. rewrite E. cbn [db].
  destruct (isSome (error res) || negb (present (data res))); [exact Hd|].
  unfold run. cbn [db].
  match goal with
  | |- context [answer h ?q (db w)] =>
      assert (K : devices_lack_external_id (snd (answer h q (db w))))
  end.
  { unfold answer. destruct (store_fault h _); [exact Hd|].
    apply upsert_keeps_lack; [nodup_keys|reflexivity|exact Hd]. }
  match goal with
  | |- context [answer h ?q (db w)] => destruct (answer h q (db w)) as [r d']
  end.
  cbn [snd] in K. destruct (error r); exact K.
Qed.

Lemma gateway_keeps_lack h req w :
  devices_lack_external_id (db w) ->
  devices_lack_external_id (db (snd (Gateway.app h req w))).
Proof.
  intro Hd. unfold Gateway.app, dispatch.
  destruct (select_route (Gateway.routes h) req) as [[r ps]|] eqn:S; [|exact Hd].
  apply select_route_In in S.
  assert (K : forall handler user rq,
            In handler [Gateway.registerUser h; Gateway.createVehicle h;
                        Gateway.getVehicles h; Gateway.listDocuments h;
                        Gateway.uploadDocument h; Gateway.getReminders h;
                        Gateway.createReminder h; Gateway.updateReminder h;
                        Gateway.deleteReminder h] ->
            devices_lack_external_id (db (snd (handler user rq w)))).
  { intros handler user rq Hin x Hx.
    pose proof (other_handlers_keep_devices h user rq handler Hin w) as F.
    unfold same_table in F. cbn [rows] in F. rewrite F in Hx. now apply Hd. }
  unfold Gateway.routes in S.
  repeat match type of S with
         | In _ (_ :: _) => destruct S as [E | S]; [subst r|]
         | In _ [] => destruct S
         end;
    cbn [run_stack r_stack];
    try exact Hd;
    (destruct (Gateway.verifyToken h (with_params ps req)) as [user|res];
     [|exact Hd]);
    first [ apply registerDevice_keeps_lack; exact Hd
          | apply K; simpl; tauto ].
Qed.

Lemma lack_means_no_tokens d fuid :
  devices_lack_external_id d -> tokens_of d fuid = [].
Proof.
  intro Hd. unfold tokens_of.
  rewrite (filter_none (holds (Eq "firebase_uid" fuid)) (t_devices d)); [reflexivity|].
  intros r Hr. unfold holds. now rewrite (Hd r Hr).
Qed.

Lemma each_sends_nothing h doc w :
  devices_lack_external_id (db w) ->
  exists out w', Notifier.each h doc w = (out, w') /\
                 sent w' = sent w /\ db w' = db w /\ out = Returned tt.
Proof.
  intro Hd. unfold Notifier.each.
  destruct (Notifier.diffDays h doc) as [n|]; [|do 2 eexists; split; [reflexivity|auto]].
  destruct (negb _); [do 2 eexists; split; [reflexivity|auto]|].
  unfold bind, run.
  pose proof (answer_select h (Notifier.vehicle_query doc) (db w) _ eq_refl) as Hs.
  destruct (answer h (Notifier.vehicle_query doc) (db w)) as [v d1].
  cbn [snd] in Hs. subst d1.
  destruct (isSome (error v) || negb (present (data v)));
    [do 2 eexists; split; [reflexivity|auto]|].
  cbn [db]. unfold answer.
  destruct (store_fault h (Notifier.devices_query (field "firebase_uid" (data v))));
    cbn [error isSome]; [do 2 eexists; split; [reflexivity|auto]|].
  destruct (devices_exec (field "firebase_uid" (data v)) (db w)) as (rs & E & T).
  rewrite E. cbn [error data isSome Notifier.rows_of].
  rewrite T, (lack_means_no_tokens _ _ Hd). cbn [length Nat.eqb].
  do 2 eexists. split; [reflexivity|auto].
Qed.

Lemma for_of_sends_nothing h docs w :
  devices_lack_external_id (db w) ->
  exists w', Notifier.for_of h docs w = (Returned tt, w') /\
             sent w' = sent w /\ db w' = db w.
Proof.
  revert w. induction docs as [|doc docs IH]; intros w Hd.
  - exists w. auto.
  - destruct (each_sends_nothing h doc w Hd) as (out & w1 & E1 & S1 & D1 & ->).
    destruct (IH w1) as (w2 & E2 & S2 & D2); [now rewrite D1|].
    exists w2. cbn [Notifier.for_of]. unfold bind. rewrite E1, E2.
    repeat split; congruence.
Qed.

(** X18. The notifier cannot see what the newer gateway writes: in every
    world the gateway of part_000 reaches from an empty store, no device
    row has the [firebase_uid] column the notifier selects devices by, so
    no identity has a token for it and a run of the notifier, on any host,
    sends nothing. *)
Theorem newer_gateway_never_feeds_notifier (h h' : host) (w : world) :
  reachable h empty_world w ->
  (forall fuid, tokens_of (db w) fuid = []) /\
  sent (snd (Notifier.main h' w)) = sent w.
Proof.
  intro Hr.
  assert (Hd : devices_lack_external_id (db w)).
  { induction Hr as [|w req _ IH]; [intros r []|]. now apply gateway_keeps_lack. }
  split; [intro fuid; now apply lack_means_no_tokens|].
  unfold Notifier.main, try_catch, bind, run.
  pose proof (answer_select h' (Notifier.range_query h') (db w) _ eq_refl) as Hs.
  destruct (answer h' (Notifier.range_query h') (db w)) as [r d].
  cbn [snd] in Hs. subst d.
  destruct (error r); [reflexivity|].
  match goal with
  | |- context [Notifier.for_of h' ?ds ?w0] =>
      destruct (for_of_sends_nothing h' ds w0 Hd) as (w2 & E & S & _); rewrite E
  end.
  exact S.
Qed.

Lemma newer_gateway_never_feeds_notifier_witness :
  let w := after (Gateway.app sample_host)
             (sample_request POST ["api"; "registerDevice"] (Some "Bearer tok-ana")
                             [("token", JStr "fcm-1"); ("platform", JStr "ios")])
             (after (Gateway.app sample_host)
                (sample_request POST ["api"; "registerUser"] (Some "Bearer tok-ana") [])
                empty_world) in
  length (t_devices (db w)) = 1%nat /\
  (forall fuid, tokens_of (db w) fuid = []) /\
  sent (snd (Notifier.main sample_host w)) = sent w.
Proof.
  intro w. split; [reflexivity|].
  apply (newer_gateway_never_feeds_notifier sample_host sample_host w).
  apply (reach_request sample_host empty_world).
  apply (reach_request sample_host empty_world).
  apply reach_start.
Defined.

(** X19. A device registered through the older gateway is found by the
    notifier: when the store answers and holds at most one [devices] row
    per token, registerDevice of [src/index.js] with a truthy token leaves
    that token among the tokens the notifier resolves for the caller's
    external identity, so a document that is 30, 15 or 7 days from expiry
    and whose vehicle belongs to that identity is due one notification
    addressed to a list that contains the token. *)
Theorem legacy_device_is_notified
    (h : host) (user : claims) (req : request) (w : world) :
  no_faults h ->
  let token := get "token" (req_body req) in
  truthy token = true ->
  (length (filter (holds (Eq "token" token)) (t_devices (db w))) <= 1)%nat ->
  exists r w',
    Legacy.registerDevice h user req w
    = (Returned (mkRes 200 [ok_true; ("device", Object r)]), w') /\
    get "firebase_uid" r = JStr (uid user) /\
    In token (tokens_of (db w') (JStr (uid user))) /\
    (forall h' doc n,
       Notifier.diffDays h' doc = Some n -> In n [30; 15; 7]%Z ->
       owner_of (db w') doc = Some (JStr (uid user)) ->
       exists m, notification_due h' (db w') doc = [m] /\ In token (tokens m)).
Proof.
  intros Hnf token Ht Hle.
  assert (Hnd : NoDup (map fst (legacy_device_fields (uid user) (req_body req))))
    by (unfold legacy_device_fields; nodup_keys).
  destruct (upsert_exec devices (legacy_device_fields (uid user) (req_body req))
              "token" (db w) Hnd ltac:(discriminate) (truthy_is_value _ Ht) Hle)
    as (r & d' & E & F & G & _).
  assert (Gu : get "firebase_uid" r = JStr (uid user))
    by (apply (G "firebase_uid"); [discriminate|reflexivity]).
  assert (Gt : get "token" r = token).
  { apply (G "token"); [discriminate|].
    exact (is_value_defined _ (truthy_is_value _ Ht)). }
  unfold Legacy.registerDevice. fold token. rewrite Ht. cbn [negb].
  unfold try_catch, bind, run. rewrite answer_no_fault by assumption.
  change (Sb.from devices
          |> Sb.upsert [("firebase_uid", JStr (uid user)); ("token", token);
                        ("platform", get "platform" (req_body req))] "token"
          |> Sb.returning |> Sb.single)
    with (Sb.from devices
          |> Sb.upsert (legacy_device_fields (uid user) (req_body req)) "token"
          |> Sb.returning |> Sb.single).
  rewrite E. cbn [error data of_payload].
  exists r. eexists. split; [reflexivity|]. cbn [db].
  split; [exact Gu|].
  assert (T : In token (tokens_of d' (JStr (uid user)))).
  { unfold tokens_of. apply filter_In. split; [|exact Ht].
    rewrite <- Gt. apply in_map. apply filter_In. split.
    - assert (F' : filter (holds (Eq "token" token)) (rows devices d') = [r])
        by exact F.
      assert (In r (filter (holds (Eq "token" token)) (rows devices d')))
        by (rewrite F'; now left).
      apply filter_In in H. exact (proj1 H).
    - apply (holds_Eq_value "firebase_uid" (JStr (uid user)) r eq_refl). exact Gu. }
  split; [exact T|].
  intros h' doc n Hn Hin Ho. unfold notification_due. rewrite Hn, Ho.
  replace ((n =? 30) || (n =? 15) || (n =? 7))%Z with true
    by (simpl in Hin; destruct Hin as [<- | [<- | [<- | []]]]; reflexivity).
  destruct (tokens_of d' (JStr (uid user))) as [|t ts] eqn:Tk; [destruct T|].
  eexists. split; [reflexivity|]. exact T.
Qed.

Lemma legacy_device_is_notified_witness :
  exists r w',
    Legacy.registerDevice sample_host (mkClaims "ana" JUndefined JUndefined)
      (sample_request POST ["api"; "registerDevice"] (Some "Bearer tok-ana")
                      [("token", JStr "fcm-token-2")]) legacy_world
    = (Returned (mkRes 200 [ok_true; ("device", Object r)]), w') /\
    In (JStr "fcm-token-2") (tokens_of (db w') (JStr "ana")).
Proof.
  destruct (legacy_device_is_notified sample_host
              (mkClaims "ana" JUndefined JUndefined)
              (sample_request POST ["api"; "registerDevice"] (Some "Bearer tok-ana")
                              [("token", JStr "fcm-token-2")])
              legacy_world (fun q => eq_refl) eq_refl ltac:(vm_compute; lia))
    as (r & w' & E & _ & T & _).
  exists r, w'. split; [exact E|exact T].
Defined.

(* ------------------------------------------------------------------------- *)
(** ** Further properties: keys, registration, uploads, the host zone *)

Lemma upsert_keeps_unique t l c d :
  NoDup (map fst l) -> c <> "id" -> is_value (get c l) = true ->
  (forall v, (length (filter (holds (Eq c v)) (rows t d)) <= 1)%nat) ->
  forall v,
    (length (filter (holds (Eq c v))
               (rows t (snd (exec_ok (Sb.from t |> Sb.upsert l c
                                      |> Sb.returning |> Sb.single) d)))) <= 1)%nat.
Proof.
  intros Hnd Hc V Hu v.
  destruct (jsval_eqb v (get c l)) eqn:Ev.
  - apply jsval_eqb_eq in Ev. subst v.
    destruct (upsert_exec t l c d Hnd Hc V (Hu (get c l))) as (r & d' & E & F & _).
    rewrite E. cbn [snd]. rewrite F. simpl. lia.
  - apply jsval_eqb_neq in Ev.
    assert (Off : forall y, get c y = get c l -> holds (Eq c v) y = false).
    { intros y Hy. apply holds_Eq_false. rewrite Hy. congruence. }
    unfold exec_ok, apply_verb.
    cbn [Sb.single Sb.returning Sb.upsert q_from q_verb q_single q_returning].
    unfold Sb.from.
    destruct (existsb (conflicts c l) (rows t d)).
    + match goal with
      | |- context [match ?out with [] => _ | _ => _ end] =>
          destruct out as [|r1 [|r2 rest]]; cbn [snd]; try apply Hu
      end.
      rewrite rows_set_rows_same, filter_map_same, length_map; [apply Hu|].
      intro x. destruct (conflicts c l x) eqn:Cx; [|reflexivity].
      rewrite (Off x (holds_Eq_true _ _ _ Cx)).
      apply Off. rewrite (get_merge c x l Hnd).
      now rewrite (is_value_defined _ V).
    + cbn [snd]. rewrite rows_bump_id, rows_set_rows_same, filter_app. cbn [filter].
      rewrite (Off (new_row d l) (get_new_row c d l Hnd Hc)).
      rewrite app_nil_r. apply Hu.
Qed.

Lemma registerDevice_keeps_unique h user req w :
  devices_unique (db w) ->
  devices_unique (db (snd (Gateway.registerDevice h user req w))).
Proof.
  intro Hd. unfold Gateway.registerDevice.
  destruct (negb (truthy (get "token" (req_body req)))) eqn:T; [exact Hd|].
  apply negb_false_iff in T.
  unfold try_catch, bind.
  destruct (lookup_answer h (uid user) (db w)) as (res & E & _).
  unfold run at 1. rewrite E. cbn [db].
  destruct (isSome (error res) || negb (present (data res))); [exact Hd|].
  unfold run. cbn [db].
  match goal with
  | |- context [answer h ?q (db w)] =>
      assert (K : devices_unique (snd (answer h q (db w))))
  end.
  { unfold answer. destruct (store_fault h _); [exact Hd|].
    intro tok.
    apply (upsert_keeps_unique devices
             [("user_id", field "id" (data res));
              ("token", get "token" (req_body req));
              ("platform", get "platform" (req_body req))] "token" (db w));
      [nodup_keys|discriminate|exact (truthy_is_value _ T)|exact Hd]. }
  match goal with
  | |- context [answer h ?q (db w)] => destruct (answer h q (db w)) as [r d']
  end.
  cbn [snd] in K. destruct (error r); exact K.
Qed.

Lemma gateway_keeps_devices_unique h req w :
  devices_unique (db w) -> devices_unique (db (snd (Gateway.app h req w))).
Proof.
  intro Hd. unfold Gateway.app, dispatch.
  destruct (select_route (Gateway.routes h) req) as [[r ps]|] eqn:S; [|exact Hd].
  apply select_route_In in S.
  assert (K : forall handler user rq,
            In handler [Gateway.registerUser h; Gateway.createVehicle h;
                        Gateway.getVehicles h; Gateway.listDocuments h;
                        Gateway.uploadDocument h; Gateway.getReminders h;
                        Gateway.createReminder h; Gateway.updateReminder h;
                        Gateway.deleteReminder h] ->
            devices_unique (db (snd (handler user rq w)))).
  { intros handler user rq Hin tok.
    pose proof (other_handlers_keep_devices h user rq handler Hin w) as F.
    unfold same_table in F. cbn [rows] in F. rewrite F. apply Hd. }
  unfold Gateway.routes in S.
  repeat match type of S with
         | In _ (_ :: _) => destruct S as [E | S]; [subst r|]
         | In _ [] => destruct S
         end;
    cbn [run_stack r_stack];
    try exact Hd;
    (destruct (Gateway.verifyToken h (with_params ps req)) as [user|res];
     [|exact Hd]);
    first [ apply registerDevice_keeps_unique; exact Hd
          | apply K; simpl; tauto ].
Qed.

(** X20. The keys the upserts rely on are invariants of the newer gateway:
    in every world it reaches from an empty store, whatever the requests
    and whatever fails, there is at most one [users] row per external
    identity and at most one [devices] row per push token. *)
Theorem upsert_keys_stay_unique (h : host) (w : world) :
  reachable h empty_world w ->
  users_unique (db w) /\ devices_unique (db w).
Proof.
  intro Hr. split; [now apply (reachable_users_unique h)|].
  induction Hr as [|w req _ IH]; [intro tok; simpl; lia|].
  now apply gateway_keeps_devices_unique.
Qed.

Lemma upsert_keys_stay_unique_witness :
  users_unique (db sample_world) /\ devices_unique (db sample_world).
Proof.
  apply (upsert_keys_stay_unique sample_host sample_world).
  unfold sample_world, after.
  do 4 apply (reach_request sample_host empty_world).
  apply reach_start.
Defined.




(** X22. An uploaded document can be listed and its file is in the bucket:
    when the store and the storage answer and nothing is stored yet under
    the derived path [uid/vehicleId/now_originalname], the upload of
    part_000 answers 200 with a row that records the vehicle, type, expiry
    date and that path, the bucket holds the file under the path, and the
    document list of the vehicle then contains the row. *)
Theorem uploaded_document_is_listed
    (h : host) (user : claims) (req req' : request) (w : world) (file : upload_file) :
  no_faults h ->
  req_file req = Some file ->
  let path := upload_path h user req file in
  storage_fault h path = None ->
  existsb (fun kv => fst kv =? path) (bucket w) = false ->
  is_value (get "vehicleId" (params req)) = true ->
  get "vehicleId" (params req') = get "vehicleId" (params req) ->
  exists r w1 docs w2,
    Gateway.uploadDocument h user req w
    = (Returned (mkRes 200 [ok_true; ("document", Object r)]), w1) /\
    In (path, file) (bucket w1) /\
    get "storage_path" r = JStr path /\
    get "vehicle_id" r = get "vehicleId" (params req) /\
    get "document_type" r = get "documentType" (req_body req) /\
    get "expiry_date" r = get "expiryDate" (req_body req) /\
    Gateway.listDocuments h user req' w1
    = (Returned (mkRes 200 [ok_true; ("documents", Array docs)]), w2) /\
    In r docs.
Proof.
  intros Hnf Hfile path Hsf Hfree V Hsame.
  set (fields := [("vehicle_id", get "vehicleId" (params req));
                  ("document_type", get "documentType" (req_body req));
                  ("expiry_date", get "expiryDate" (req_body req));
                  ("storage_path", JStr path);
                  ("public_url", js_or (getPublicUrl h path) JNull)]).
  assert (Hnd : NoDup (map fst fields)) by (unfold fields; nodup_keys).
  set (r := new_row (db w) fields).
  assert (E : exists w1,
    Gateway.uploadDocument h user req w
    = (Returned (mkRes 200 [ok_true; ("document", Object r)]), w1) /\
    bucket w1 = bucket w ++ [(path, file)] /\
    t_documents (db w1) = t_documents (db w) ++ [r]).
  { unfold Gateway.uploadDocument. rewrite Hfile.
    change (uid user ++ "/" ++ js_string (get "vehicleId" (params req)) ++ "/"
            ++ (string_of_Z (Date_now h) ++ "_" ++ originalname file))%string
      with path.
    unfold try_catch, bind, storage_upload, run.
    rewrite Hsf, Hfree. cbn [db].
    rewrite answer_no_fault by assumption.
    rewrite insert_exec_ok. cbn [error data of_payload].
    eexists. split; [reflexivity|]. cbn [bucket db].
    split; [reflexivity|]. destruct (db w); reflexivity. }
  destruct E as (w1 & E & B & T).
  destruct (listDocuments_ok h user req' w1 Hnf) as (docs & w2 & E2 & P & _).
  assert (G : forall k, k <> "id" -> get k r = get k fields)
    by (intros k Hk; now apply get_new_row).
  assert (Gv : get "vehicle_id" r = get "vehicleId" (params req))
    by (apply G; discriminate).
  exists r, w1, docs, w2.
  split; [exact E|]. split; [rewrite B; apply in_or_app; right; now left|].
  split; [apply G; discriminate|].
  split; [exact Gv|].
  split; [apply G; discriminate|].
  split; [apply G; discriminate|].
  split; [exact E2|].
  eapply Permutation_in; [symmetry; exact P|].
  apply filter_In. split; [rewrite T; apply in_or_app; right; now left|].
  rewrite Hsame. apply (holds_Eq_value _ _ _ V). exact Gv.
Qed.

Lemma uploaded_document_is_listed_witness :
  exists r w1 docs w2,
    Gateway.uploadDocument sample_host (mkClaims "ana" JUndefined JUndefined)
      sample_upload sample_world
    = (Returned (mkRes 200 [ok_true; ("document", Object r)]), w1) /\
    In (upload_path sample_host (mkClaims "ana" JUndefined JUndefined) sample_upload
          (mkFile "poliza.pdf" "application/pdf" "%PDF-1.4"),
        mkFile "poliza.pdf" "application/pdf" "%PDF-1.4") (bucket w1) /\
    Gateway.listDocuments sample_host (mkClaims "ana" JUndefined JUndefined)
      sample_upload w1
    = (Returned (mkRes 200 [ok_true; ("documents", Array docs)]), w2) /\
    In r docs.
Proof.
  destruct (uploaded_document_is_listed sample_host
              (mkClaims "ana" JUndefined JUndefined) sample_upload sample_upload
              sample_world (mkFile "poliza.pdf" "application/pdf" "%PDF-1.4")
              (fun q => eq_refl) eq_refl eq_refl eq_refl eq_refl eq_refl)
    as (r & w1 & docs & w2 & E & B & _ & _ & _ & _ & E2 & I).
  exists r, w1, docs, w2. auto.
Defined.

(** X23. Calendar days and the host zone: an expiry date is read as
    midnight UTC, the start of today as midnight of the host zone.  On a
    host at or behind UTC [diffDays] is the number of calendar days from
    the local date to the expiry date, so a document is notified on the
    30th, 15th and 7th day before its expiry date; on a host ahead of UTC
    [diffDays] is one more, so the same document is notified one calendar
    day later, with a text that still says 30, 15 or 7 days. *)
Theorem calendar_days_depend_on_host_zone
    (h : host) (doc : row) (s : string) (day : Z) :
  get "expiry_date" doc = JStr s ->
  parse_date s = Some day ->
  let off := (timezoneOffset h * 60000)%Z in
  let today := ((Date_now h - off) / DAY)%Z in
  ((0 <= off < DAY)%Z ->
   Notifier.includes Notifier.targets (Notifier.diffDays h doc) = true <->
   In (day - today)%Z [30; 15; 7]%Z) /\
  ((- DAY < off < 0)%Z ->
   Notifier.includes Notifier.targets (Notifier.diffDays h doc) = true <->
   In (day - today)%Z [29; 14; 6]%Z).
Proof.
  intros Hs Hp off today.
  destruct (diffDays_by_calendar h doc s day Hs Hp) as [Behind Ahead].
  fold off in Behind, Ahead. fold today in Behind, Ahead.
  split; intro Hoff.
  - rewrite (Behind Hoff), includes_targets. simpl.
    rewrite !orb_true_iff, !Z.eqb_eq. intuition lia.
  - rewrite (Ahead Hoff), includes_targets. simpl.
    rewrite !orb_true_iff, !Z.eqb_eq. intuition lia.
Qed.

Lemma calendar_days_depend_on_host_zone_witness :
  Notifier.diffDays host_behind_utc [("expiry_date", JStr "2024-01-25")] = Some 15%Z /\
  Notifier.diffDays host_ahead_of_utc [("expiry_date", JStr "2024-01-25")] = Some 16%Z /\
  (Notifier.includes Notifier.targets
     (Notifier.diffDays host_ahead_of_utc [("expiry_date", JStr "2024-01-24")]) = true).
Proof.
  split; [reflexivity|]. split; [reflexivity|].
  apply (proj2 (calendar_days_depend_on_host_zone host_ahead_of_utc
                  [("expiry_date", JStr "2024-01-24")] "2024-01-24" 19746
                  eq_refl eq_refl)).
  - unfold DAY. simpl. lia.
  - simpl. tauto.
Defined.

(** X24. A vehicle created through the older gateway resolves to its
    creator: when the store answers and the generated id is not in use,
    [POST /api/vehicles] of [src/index.js] needs no [users] row, stores the
    caller's external identity in [firebase_uid] whatever the body says,
    and the notifier resolves every document of that vehicle to that
    identity. *)
Theorem legacy_vehicle_resolves_to_creator
    (h : host) (user : claims) (req : request) (w : world) :
  no_faults h ->
  (forall v, In v (t_vehicles (db w)) -> get "id" v <> fresh_id (db w)) ->
  exists v w',
    Legacy.createVehicle h user req w
    = (Returned (mkRes 200 [ok_true; ("vehicle", Object v)]), w') /\
    t_vehicles (db w') = t_vehicles (db w) ++ [v] /\
    t_users (db w') = t_users (db w) /\
    get "firebase_uid" v = JStr (uid user) /\
    (forall doc, get "vehicle_id" doc = get "id" v ->
                 owner_of (db w') doc = Some (JStr (uid user))).
Proof.
  intros Hnf Hfresh.
  set (fields := [("firebase_uid", JStr (uid user));
                  ("make", get "make" (req_body req));
                  ("model", get "model" (req_body req));
                  ("year", get "year" (req_body req));
                  ("license_plate", get "license_plate" (req_body req))]).
  assert (Hnd : NoDup (map fst fields)) by (unfold fields; nodup_keys).
  set (v := new_row (db w) fields).
  assert (Gu : get "firebase_uid" v = JStr (uid user))
    by (unfold v; rewrite get_new_row by (auto; discriminate); reflexivity).
  assert (Gi : get "id" v = fresh_id (db w)) by reflexivity.
  exists v.
  unfold Legacy.createVehicle, try_catch, bind, run.
  rewrite answer_no_fault by assumption. rewrite insert_exec_ok.
  cbn [error data of_payload]. fold fields. fold v.
  eexists. split; [reflexivity|]. cbn [db].
  split; [destruct (db w); reflexivity|].
  split; [destruct (db w); reflexivity|].
  split; [exact Gu|].
  intros doc Hdoc.
  match goal with
  | |- owner_of ?d doc = _ =>
      assert (Tv : t_vehicles d = t_vehicles (db w) ++ [v])
        by (destruct (db w); reflexivity);
      unfold owner_of; rewrite Tv
  end.
  rewrite filter_app, Hdoc, Gi.
  rewrite (filter_none _ (t_vehicles (db w)))
    by (intros x Hx; apply holds_Eq_false; now apply Hfresh).
  cbn [filter app].
  rewrite (proj2 (holds_Eq_value "id" (fresh_id (db w)) v eq_refl) Gi).
  now rewrite Gu.
Qed.

Lemma legacy_vehicle_resolves_to_creator_witness :
  exists v w',
    Legacy.createVehicle sample_host (mkClaims "bob" JUndefined JUndefined)
      (sample_request POST ["api"; "vehicles"] (Some "Bearer tok-bob")
                      [("make", JStr "Seat"); ("firebase_uid", JStr "ana")])
      legacy_world
    = (Returned (mkRes 200 [ok_true; ("vehicle", Object v)]), w') /\
    get "firebase_uid" v = JStr "bob" /\
    owner_of (db w') [("vehicle_id", JStr "6")] = Some (JStr "bob").
Proof.
  destruct (legacy_vehicle_resolves_to_creator sample_host
              (mkClaims "bob" JUndefined JUndefined)
              (sample_request POST ["api"; "vehicles"] (Some "Bearer tok-bob")
                              [("make", JStr "Seat"); ("firebase_uid", JStr "ana")])
              legacy_world (fun q => eq_refl))
    as (v & w' & E & _ & _ & U & O).
  - vm_compute. intros x [<- | []]. discriminate.
  - exists v, w'. split; [exact E|]. split; [exact U|].
    apply O. vm_compute in E. injection E as <- _. reflexivity.
Defined.
